(** * Outline editor: update pipeline and selection-driven text mutations

    A shallow embedding of
      - [packages/outline/src/OutlineEditor.js]        (the editor host, [update]),
      - [packages/outline/src/helpers/OutlineSelectionHelpers.js]
        ([insertText], [deleteCharacter], [removeSegment], [formatText],
         [patchStyleText] and the helpers they call),
      - the [RootNode] class,
    together with the properties of the specification that concern them.

    The helpers run against the node and selection classes of the core
    package ([OutlineNode], [TextNode], [BlockNode], [Selection],
    [OutlineView]).  Those classes are not part of the sources at hand; the
    methods the helpers call are modelled from the specification, and every
    such definition says so in its documentation comment.

    Conventions.  JavaScript numbers that hold offsets and bit sets are [Z];
    strings are [string] with [String.length] as [.length]; objects used as
    maps are [gmap]; a thrown error is the [Throw] result of the update
    monad [M]. *)

From Stdlib Require Import ZArith String Ascii List Bool Lia.
From stdpp Require Import base strings gmap list pretty.

Open Scope string_scope.
Open Scope list_scope.
Open Scope Z_scope.

(* ================================================================== *)
(** * Data model *)
(* ================================================================== *)

Abbreviation NodeKey := string.

(** Modelled from the spec: the node classes of the core package are not in
    the sources.  A node is "a tagged entity with a stable key", "a type tag"
    and more; the tag says to which of the classes that the helpers tell apart
    with [isTextNode], [isBlockNode], [isRootNode], [isDecoratorNode] and
    [isHashtagNode] a node belongs. *)
Inductive NodeType :=
| RootType
| BlockType
| TextType
| HashtagType
| LineBreakType
| DecoratorType.

#[global] Instance NodeType_eq_dec : EqDecision NodeType.
Proof. solve_decision. Defined.

(** Modelled from the spec: the constants of the [__flags] bit set are not in
    the sources.  The bits are the "mutability classes: normal / segmented /
    immutable / inert" of a text leaf, its composition state and whether it
    refuses text at its end, as read through [isImmutable()], [isSegmented()],
    [isInert()], [isComposing()] and [canInsertTextAtEnd()]. *)
Record Flags := mkFlags {
  IS_IMMUTABLE : bool;
  IS_SEGMENTED : bool;
  IS_INERT : bool;
  IS_COMPOSING : bool;
  NO_INSERT_AT_END : bool;
}.

#[global] Instance Flags_eq_dec : EqDecision Flags.
Proof. solve_decision. Defined.

Definition noFlags : Flags := mkFlags false false false false false.

(** Modelled from the spec: the fields of [OutlineNode], [TextNode] and
    [BlockNode], which are not in the sources.  A node has "a stable key", "a
    type tag, a format/flags bitset, and ownership-by-reference to its parent"
    and "an ordered list of child keys if it is a container"; a text leaf
    "holds a string payload, a style string, format flags, and mutability
    classes". *)
Record Node := mkNode {
  __type : NodeType;
  __key : NodeKey;
  __parent : option NodeKey;
  __flags : Flags;
  __children : list NodeKey;
  __text : string;
  __format : Z;
  __style : string;
}.

#[global] Instance Node_eq_dec : EqDecision Node.
Proof. solve_decision. Defined.

(** Modelled from the spec: [OutlineSelection] is not in the sources.  The
    type of a point is text or block. *)
Inductive PointType := text | block.

#[global] Instance PointType_eq_dec : EqDecision PointType.
Proof. solve_decision. Defined.

(** Modelled from the spec: the points of [OutlineSelection], which is not in
    the sources: a triple of node key, offset and type, where the "offset is a
    character index for text points, a child index for block points". *)
Record Point := mkPoint {
  key : NodeKey;
  offset : Z;
  type : PointType;
}.

#[global] Instance Point_eq_dec : EqDecision Point.
Proof. solve_decision. Defined.

(** Modelled from the spec: the [Selection] class of [OutlineSelection], which
    is not in the sources: "a pair of Points (anchor, focus)", with the "next
    insert format" bits in [textFormat]. *)
Record Selection := mkSelection {
  anchor : Point;
  focus : Point;
  textFormat : Z;
}.

#[global] Instance Selection_eq_dec : EqDecision Selection.
Proof. solve_decision. Defined.

(** A style object [{[string]: string}]: the keys in insertion order. *)
Abbreviation StyleObject := (list (string * string)).

(** Modelled from the spec: the active draft that the "global process-wide
    active editor/active view context" hands to the helpers; the module that
    keeps it is not in the sources.  An update callback sees the draft node
    map, the draft selection, the dirty set of the cycle ("which node keys
    were structurally or textually modified"), the key generator and the
    module-level [cssToStyles] memo of the helpers. *)
Record World := mkWorld {
  nodeMap : gmap string Node;
  selection : Selection;
  dirtyNodes : gset string;
  keyCounter : N;
  cssToStyles : gmap string (list (string * string));
}.

Definition setNodeMap (m : gmap string Node) (w : World) : World :=
  mkWorld m (selection w) (dirtyNodes w) (keyCounter w) (cssToStyles w).

Definition setSelection (s : Selection) (w : World) : World :=
  mkWorld (nodeMap w) s (dirtyNodes w) (keyCounter w) (cssToStyles w).

Definition setAnchor (p : Point) (s : Selection) : Selection :=
  mkSelection p (focus s) (textFormat s).

Definition setFocus (p : Point) (s : Selection) : Selection :=
  mkSelection (anchor s) p (textFormat s).

Definition setOffset (o : Z) (p : Point) : Point :=
  mkPoint (key p) o (type p).

(* ================================================================== *)
(** * The update monad: state and thrown errors *)
(* ================================================================== *)

Inductive Result (A : Type) :=
| Ok (a : A) (w : World)
| Throw (msg : string).

Arguments Ok {A} a w.
Arguments Throw {A} msg.

Definition M (A : Type) : Type := World -> Result A.

Definition ret {A} (a : A) : M A := fun w => Ok a w.

Definition bind {A B} (m : M A) (f : A -> M B) : M B :=
  fun w => match m w with
           | Ok a w' => f a w'
           | Throw msg => Throw msg
           end.

Definition throw {A} (msg : string) : M A := fun _ => Throw msg.

Definition gets {A} (f : World -> A) : M A := fun w => Ok (f w) w.

Definition modify (f : World -> World) : M unit := fun w => Ok tt (f w).

Notation "'let*' x ':=' m 'in' k" := (bind m (fun x => k))
  (at level 10, x name, m at level 100, k at level 200).
Notation "m ';;' k" := (bind m (fun _ => k))
  (at level 100, k at level 200, right associativity).

(** Modelled from the spec: [shared/invariant] is not in the sources;
    [invariant(cond, message)] raises when [cond] is false, an invariant
    violation being "fatal, raised synchronously to the caller of the mutating
    operation". *)
Definition invariant (cond : bool) (message : string) : M unit :=
  if cond then ret tt else throw message.

Definition when (c : bool) (m : M unit) : M unit :=
  if c then m else ret tt.

(** [for (const x of xs) body(x)] *)
Fixpoint forEach {A} (xs : list A) (body : A -> M unit) : M unit :=
  match xs with
  | [] => ret tt
  | x :: rest => body x ;; forEach rest body
  end.

(* ================================================================== *)
(** * The node classes (core package)

    The classes [OutlineNode], [TextNode], [BlockNode] and [Selection] are
    not among the sources.  What the helpers use of them is modelled from
    the specification, definition by definition; a reference to a node
    object is the key of the node. *)
(* ================================================================== *)

(** Modelled from the spec: the class hierarchy is not in the sources; a
    hashtag node is a text node. *)
Definition isTextType (t : NodeType) : bool :=
  match t with TextType | HashtagType => true | _ => false end.

(** Modelled from the spec: the class hierarchy is not in the sources;
    "container subtypes include Root" and the "generic Element containers". *)
Definition isBlockType (t : NodeType) : bool :=
  match t with RootType | BlockType => true | _ => false end.

(** Modelled from the spec: [isTextNode] of [OutlineTextNode] is not in the
    sources; an instance test. *)
Definition isTextNode (n : Node) : bool := isTextType (__type n).
(** Modelled from the spec: [isBlockNode] of [OutlineBlockNode] is not in the
    sources; an instance test for containers. *)
Definition isBlockNode (n : Node) : bool := isBlockType (__type n).
(** [isRootNode(node)]: [node instanceof RootNode]. *)
Definition isRootNode (n : Node) : bool := bool_decide (__type n = RootType).
(** Modelled from the spec: [isDecoratorNode] is not in the sources; an
    instance test for the "opaque decorator leaves". *)
Definition isDecoratorNode (n : Node) : bool := bool_decide (__type n = DecoratorType).
(** Modelled from the spec: [isHashtagNode] is not in the sources; an instance
    test. *)
Definition isHashtagNode (n : Node) : bool := bool_decide (__type n = HashtagType).
(** Modelled from the spec: [isLeafNode] is not in the sources; a leaf is "a
    node with no children (text or decorator)". *)
Definition isLeafNode (n : Node) : bool := negb (isBlockNode n).

(** Modelled from the spec: [node.isImmutable()] is not in the sources; it
    reads the flag. *)
Definition isImmutable (n : Node) : bool := IS_IMMUTABLE (__flags n).
(** Modelled from the spec: [node.isSegmented()] is not in the sources; it
    reads the flag. *)
Definition isSegmented (n : Node) : bool := IS_SEGMENTED (__flags n).
(** Modelled from the spec: [node.isInert()] is not in the sources; it reads
    the flag, "a runtime flag any leaf may carry". *)
Definition isInert (n : Node) : bool := IS_INERT (__flags n).
(** Modelled from the spec: [node.isComposing()] is not in the sources; it
    reads the flag of a "composition-in-progress". *)
Definition isComposing (n : Node) : bool := IS_COMPOSING (__flags n).
(** Modelled from the spec: [node.canInsertTextAtEnd()] is not in the sources;
    false for the "no-append-at-end" leaves. *)
Definition canInsertTextAtEnd (n : Node) : bool := negb (NO_INSERT_AT_END (__flags n)).

(** Modelled from the spec: [shared/isImmutableOrInert] is not in the sources;
    "a node marked immutable or inert". *)
Definition isImmutableOrInert (n : Node) : bool := isImmutable n || isInert n.

(** Modelled from the spec: [node.isSimpleText()] is not in the sources; a
    plain text node of the normal mutability class. *)
Definition isSimpleText (n : Node) : bool :=
  bool_decide (__type n = TextType)
  && negb (isImmutable n) && negb (isSegmented n) && negb (isInert n).

(** Modelled from the spec: [getNodeByKey] is not in the sources; the lookup
    "get(key)" in the node map of the active view model, which gives the node
    or nothing. *)
Definition getNodeByKey (k : NodeKey) : M (option Node) :=
  gets (fun w => nodeMap w !! k).

(** Modelled from the spec: [node.getLatest()] is not in the sources;
    "operating on a key absent from the map signals a NotFound condition",
    which is fatal. *)
Definition getLatest (k : NodeKey) : M Node :=
  let* o := getNodeByKey k in
  match o with
  | Some n => ret n
  | None => throw "getLatest: node not found"
  end.

(** Modelled from the spec: [node.getParent()] is not in the sources; the
    parent link of the latest version of the node. *)
Definition getParent (k : NodeKey) : M (option NodeKey) :=
  let* n := getLatest k in ret (__parent n).

(** Modelled from the spec: [node.getParentOrThrow()] is not in the sources;
    fatal without a parent. *)
Definition getParentOrThrow (k : NodeKey) : M NodeKey :=
  let* p := getParent k in
  match p with
  | Some pk => ret pk
  | None => throw "getParentOrThrow: node has no parent"
  end.

(** Modelled from the spec: [block.getChildren()] is not in the sources; the
    "ordered list of child keys" of the latest version of the node. *)
Definition getChildren (k : NodeKey) : M (list NodeKey) :=
  let* n := getLatest k in ret (__children n).

(** [array.indexOf(k)], [-1] when absent. *)
Fixpoint indexOf (k : NodeKey) (l : list NodeKey) : Z :=
  match l with
  | [] => -1
  | x :: rest =>
      if bool_decide (x = k) then 0
      else let i := indexOf k rest in if (i <? 0) then -1 else i + 1
  end.

(** [array[i]]: [undefined] out of range or for a negative index. *)
Definition nthZ {A} (l : list A) (i : Z) : option A :=
  if i <? 0 then None else l !! Z.to_nat i.

Definition lengthZ {A} (l : list A) : Z := Z.of_nat (List.length l).

(** [string.length] *)
Definition strlen (s : string) : Z := Z.of_nat (String.length s).

(** Modelled from the spec: [node.getIndexWithinParent()] is not in the
    sources; the index among the children of the parent, [-1] without one. *)
Definition getIndexWithinParent (k : NodeKey) : M Z :=
  let* p := getParent k in
  match p with
  | None => ret (-1)
  | Some pk => let* cs := getChildren pk in ret (indexOf k cs)
  end.

(** Modelled from the spec: [block.getChildAtIndex(i)] is not in the sources;
    [null] when the "index is past the end". *)
Definition getChildAtIndex (k : NodeKey) (i : Z) : M (option NodeKey) :=
  let* cs := getChildren k in ret (nthZ cs i).

(** Modelled from the spec: [node.getNextSibling()] is not in the sources; the
    next child of the parent, or [null]. *)
Definition getNextSibling (k : NodeKey) : M (option NodeKey) :=
  let* p := getParent k in
  match p with
  | None => ret None
  | Some pk =>
      let* cs := getChildren pk in
      let i := indexOf k cs in
      if i <? 0 then ret None else ret (nthZ cs (i + 1))
  end.

(** Modelled from the spec: [node.getPreviousSibling()] is not in the sources;
    the previous child of the parent, or [null]. *)
Definition getPreviousSibling (k : NodeKey) : M (option NodeKey) :=
  let* p := getParent k in
  match p with
  | None => ret None
  | Some pk =>
      let* cs := getChildren pk in
      let i := indexOf k cs in
      ret (nthZ cs (i - 1))
  end.

(** Modelled from the spec: [node.getParentKeys()] is not in the sources; the
    keys of all ancestors, nearest first.  The fuel bounds the walk by the
    size of the node map. *)
Fixpoint parentKeysFrom (fuel : nat) (m : gmap string Node) (k : NodeKey)
  : list NodeKey :=
  match fuel with
  | O => []
  | S fuel' =>
      match m !! k with
      | Some n =>
          match __parent n with
          | Some pk => pk :: parentKeysFrom fuel' m pk
          | None => []
          end
      | None => []
      end
  end.

(** Modelled from the spec: [node.getParentKeys()] is not in the sources; see
    [parentKeysFrom]. *)
Definition getParentKeys (k : NodeKey) : M (list NodeKey) :=
  let* _n := getLatest k in
  gets (fun w => parentKeysFrom (S (size (nodeMap w))) (nodeMap w) k).

(** Modelled from the spec: [node.isAttached()] is not in the sources; a node
    is attached when its "parent chain terminates at Root". *)
Definition isAttachedIn (m : gmap string Node) (k : NodeKey) : bool :=
  match m !! k with
  | None => false
  | Some n =>
      isRootNode n ||
      match last (parentKeysFrom (S (size m)) m k) with
      | Some top => match m !! top with
                    | Some t => isRootNode t
                    | None => false
                    end
      | None => false
      end
  end.

(** Modelled from the spec: [node.isAttached()] is not in the sources; see
    [isAttachedIn]. *)
Definition isAttached (k : NodeKey) : M bool :=
  gets (fun w => isAttachedIn (nodeMap w) k).

(** Modelled from the spec: [node.getTextContent()] of the node classes is not
    in the sources; the "string payload" of a text leaf, for a container the
    text contents of its children in order, and nothing for a decorator
    ("embed markers with no text content"). *)
Fixpoint textContentOf (fuel : nat) (m : gmap string Node) (k : NodeKey)
  : string :=
  match fuel with
  | O => ""
  | S fuel' =>
      match m !! k with
      | None => ""
      | Some n =>
          if isTextNode n then __text n
          else if isBlockNode n then
            String.concat "" (map (textContentOf fuel' m) (__children n))
          else ""
      end
  end.

(** Modelled from the spec: [node.getTextContent()] is not in the sources; see
    [textContentOf].  The cache that [RootNode] keeps of the committed text
    plays no part while a draft has dirty nodes. *)
Definition getTextContent (k : NodeKey) : M string :=
  let* _n := getLatest k in
  gets (fun w => textContentOf (S (size (nodeMap w))) (nodeMap w) k).

(** Modelled from the spec: [node.getTextContentSize()] is not in the sources;
    the length of the text content. *)
Definition getTextContentSize (k : NodeKey) : M Z :=
  let* t := getTextContent k in ret (strlen t).

(** Modelled from the spec: [textNode.getFormat()] is not in the sources; the
    "format flags" of the latest version. *)
Definition getFormat (k : NodeKey) : M Z :=
  let* n := getLatest k in ret (__format n).

(** Modelled from the spec: [textNode.getStyle()] is not in the sources; the
    "style string" of the latest version. *)
Definition getStyle (k : NodeKey) : M string :=
  let* n := getLatest k in ret (__style n).

(** Node predicates on node references. *)
Definition nodeIs (f : Node -> bool) (k : NodeKey) : M bool :=
  let* n := getLatest k in ret (f n).

(** A predicate applied to a possibly missing node ([null]): [false]. *)
Definition optNodeIs (f : Node -> bool) (o : option NodeKey) : M bool :=
  match o with
  | Some k => nodeIs f k
  | None => ret false
  end.

(** Modelled from the spec: [block.getChildrenSize()] is not in the sources;
    the number of children. *)
Definition getChildrenSize (k : NodeKey) : M Z :=
  let* cs := getChildren k in ret (lengthZ cs).

(** ** Writing nodes *)

(** Modelled from the spec: the dirty set is kept by a module that is not in
    the sources; a written node joins the set "recording which node keys were
    structurally or textually modified" in the cycle. *)
Definition markDirty (k : NodeKey) (w : World) : World :=
  mkWorld (nodeMap w) (selection w) ({[k]} ∪ dirtyNodes w)
          (keyCounter w) (cssToStyles w).

(** Modelled from the spec: [node.getWritable()] is not in the sources; "a
    node is cloned only the first time it is mutated within a draft cycle",
    and the node is dirty from then on. *)
Definition getWritable (k : NodeKey) : M Node :=
  let* n := getLatest k in
  modify (markDirty k) ;;
  ret n.

(** Modelled from the spec: the writes to the fields of a writable node are in
    methods that are not in the sources; "the clone replaces the shared entry"
    of the draft node map. *)
Definition putNode (n : Node) : M unit :=
  modify (fun w => setNodeMap (<[__key n := n]> (nodeMap w)) w).

Definition withParent (p : option NodeKey) (n : Node) : Node :=
  mkNode (__type n) (__key n) p (__flags n) (__children n) (__text n)
         (__format n) (__style n).

Definition withChildren (cs : list NodeKey) (n : Node) : Node :=
  mkNode (__type n) (__key n) (__parent n) (__flags n) cs (__text n)
         (__format n) (__style n).

Definition withText (t : string) (n : Node) : Node :=
  mkNode (__type n) (__key n) (__parent n) (__flags n) (__children n) t
         (__format n) (__style n).

Definition withFormat (f : Z) (n : Node) : Node :=
  mkNode (__type n) (__key n) (__parent n) (__flags n) (__children n)
         (__text n) f (__style n).

Definition withStyle (s : string) (n : Node) : Node :=
  mkNode (__type n) (__key n) (__parent n) (__flags n) (__children n)
         (__text n) (__format n) s.

(** Modelled from the spec: the key generator is not in the sources; a key is
    "unique within a view model, assigned on creation, never reused".  A
    counter, rendered in decimal. *)
Definition generateKey : M NodeKey :=
  let* c := gets keyCounter in
  modify (fun w => mkWorld (nodeMap w) (selection w) (dirtyNodes w)
                           (N.succ (keyCounter w)) (cssToStyles w)) ;;
  ret (pretty c).

(** Modelled from the spec: [createTextNode(text = '')] is not in the sources;
    a new, detached, plain text leaf, which is dirty as a newly created node. *)
Definition createTextNode (t : string) : M NodeKey :=
  let* k := generateKey in
  putNode (mkNode TextType k None noFlags [] t 0 "") ;;
  let* _n := getWritable k in
  ret k.

(** [children.splice(index, 1)] for the index of [k], when present. *)
Definition removeKey (k : NodeKey) (l : list NodeKey) : list NodeKey :=
  let i := indexOf k l in
  if i <? 0 then l else take (Z.to_nat i) l ++ drop (S (Z.to_nat i)) l.

(** [children.splice(i, 0, k)]; an index past the end appends. *)
Definition insertAt (i : Z) (k : NodeKey) (l : list NodeKey) : list NodeKey :=
  take (Z.to_nat i) l ++ k :: drop (Z.to_nat i) l.

(** Modelled from the spec: the structural methods of [OutlineNode] are not in
    the sources; a node that moves or goes away first leaves the child list of
    its parent, as "every non-root node has exactly one parent". *)
Definition detachFromParent (k : NodeKey) : M unit :=
  let* n := getWritable k in
  match __parent n with
  | None => ret tt
  | Some pk =>
      let* p := getWritable pk in
      putNode (withChildren (removeKey k (__children p)) p) ;;
      putNode (withParent None n)
  end.

(** ** The selection object *)

Inductive Which := TheAnchor | TheFocus.

Definition pointOf (p : Which) (s : Selection) : Point :=
  match p with TheAnchor => anchor s | TheFocus => focus s end.

Definition withPoint (p : Which) (pt : Point) (s : Selection) : Selection :=
  match p with TheAnchor => setAnchor pt s | TheFocus => setFocus pt s end.

Definition getPoint (p : Which) : M Point :=
  gets (fun w => pointOf p (selection w)).

(** A direct write to the fields of a point, as in [focus.offset = n]. *)
Definition putPoint (p : Which) (pt : Point) : M unit :=
  modify (fun w => setSelection (withPoint p pt (selection w)) w).

(** Modelled from the spec: [point.set(key, offset, type)] is not in the
    sources; it overwrites the triple. *)
Definition Point_set (p : Which) (k : NodeKey) (o : Z) (t : PointType) : M unit :=
  putPoint p (mkPoint k o t).

(** Modelled from the spec: [point.is(other)] is not in the sources; "same
    key, offset, type". *)
Definition Point_is (a b : Point) : bool := bool_decide (a = b).

(** Modelled from the spec: [selection.isCollapsed()] is not in the sources;
    "anchor point equals focus point (same key, offset, type)". *)
Definition isCollapsedSel (s : Selection) : bool :=
  Point_is (anchor s) (focus s).

(** Modelled from the spec: [selection.isCollapsed()] is not in the sources;
    see [isCollapsedSel]. *)
Definition isCollapsed : M bool := gets (fun w => isCollapsedSel (selection w)).

(** Modelled from the spec: [selection.swapPoints()] is not in the sources; it
    "exchanges anchor and focus". *)
Definition swapPoints : M unit :=
  modify (fun w =>
    let s := selection w in
    setSelection (mkSelection (focus s) (anchor s) (textFormat s)) w).

(** ** Document order *)

(** Modelled from the spec: the traversal behind [isBefore()] and [getNodes()]
    is not in the sources; the nodes below [k] in "document order", [k] first. *)
Fixpoint dfsFrom (fuel : nat) (m : gmap string Node) (k : NodeKey)
  : list NodeKey :=
  match fuel with
  | O => []
  | S fuel' =>
      k :: match m !! k with
           | Some n => flat_map (dfsFrom fuel' m) (__children n)
           | None => []
           end
  end.

(** Modelled from the spec: the traversal behind [isBefore()] and [getNodes()]
    is not in the sources; the nodes of the tree in "document order". *)
Definition documentOrder (m : gmap string Node) : list NodeKey :=
  dfsFrom (S (size m)) m "root".

(** Modelled from the spec: [point.getNode()] and the resolution of block
    points are not in the sources.  The node a point denotes: the text node of
    a text point; for a block point the child at the index (the last child
    when the index is past the end, the block itself when it has no children). *)
Definition resolvePoint (m : gmap string Node) (p : Point) : option NodeKey :=
  match m !! key p with
  | None => None
  | Some n =>
      match type p with
      | text => Some (key p)
      | block =>
          match nthZ (__children n) (offset p) with
          | Some c => Some c
          | None => match last (__children n) with
                    | Some c => Some c
                    | None => Some (key p)
                    end
          end
      end
  end.

(** Modelled from the spec: [point.isBefore(other)] is not in the sources;
    "true if anchor's tree-document-order position precedes focus's", by the
    offsets within one node. *)
Definition isBeforeIn (m : gmap string Node) (a b : Point) : bool :=
  match resolvePoint m a, resolvePoint m b with
  | Some x, Some y =>
      if bool_decide (x = y) then offset a <? offset b
      else indexOf x (documentOrder m) <? indexOf y (documentOrder m)
  | _, _ => false
  end.

(** Modelled from the spec: [point.isBefore(other)] is not in the sources; see
    [isBeforeIn].  [getNode()] on either point is fatal for a stale key. *)
Definition Point_isBefore (a b : Point) : M bool :=
  let* _a := getLatest (key a) in
  let* _b := getLatest (key b) in
  gets (fun w => isBeforeIn (nodeMap w) a b).

Definition sliceZ {A} (lo hi : Z) (l : list A) : list A :=
  take (Z.to_nat (hi - lo)) (drop (Z.to_nat lo) l).

(** Modelled from the spec: [selection.getNodes()] is not in the sources; "the
    ordered sequence of leaf nodes spanned by [anchor, focus] in document
    order (smaller of the two to larger), inclusive of partial-boundary leaves
    at both ends; for a collapsed selection within a single leaf returns that
    one leaf".  A selection that resolves to no node gives the empty sequence. *)
Definition getNodesIn (m : gmap string Node) (s : Selection) : list NodeKey :=
  match resolvePoint m (anchor s), resolvePoint m (focus s) with
  | Some a, Some b =>
      if bool_decide (a = b) then [a]
      else
        let order := documentOrder m in
        let i := indexOf a order in
        let j := indexOf b order in
        if (i <? 0) || (j <? 0) then []
        else
          List.filter
            (fun k => bool_decide (k = a) || bool_decide (k = b) ||
                      match m !! k with
                      | Some n => isLeafNode n
                      | None => false
                      end)
            (sliceZ (Z.min i j) (Z.max i j + 1) order)
  | _, _ => []
  end.

(** Modelled from the spec: [selection.getNodes()] is not in the sources; see
    [getNodesIn].  It reads and changes nothing. *)
Definition getNodes : M (list NodeKey) :=
  gets (fun w => getNodesIn (nodeMap w) (selection w)).

(** Modelled from the spec: [selection.toggleTextFormatType(type)] is not in
    the sources; it "flips the next insert format bit for the given format so
    the next inserted character/run inherits it, without touching existing
    text".  The format type is given by its bit in the format bit set. *)
Definition toggleTextFormatType (formatBit : Z) : M unit :=
  modify (fun w =>
    let s := selection w in
    setSelection
      (mkSelection (anchor s) (focus s) (Z.lxor (textFormat s) formatBit)) w).

(** Modelled from the spec: [selection.setTextNodeRange(node, a, node, f)] and
    its like for blocks are not in the sources; both points are set within one
    node. *)
Definition setRange (k : NodeKey) (a f : Z) (t : PointType) : M unit :=
  Point_set TheAnchor k a t ;;
  Point_set TheFocus k f t.

(** ** [OutlineNode]: structural mutations of any node

    A reference to a node object is represented by the key of the node;
    the methods read its latest version from the draft. *)

Module OutlineNode.

(** Modelled from the spec: the selection upkeep of [node.remove()] is not
    in the sources.  When a node that carries a selection point goes away,
    the point moves to the end of the previous sibling, else to the start of
    the next sibling, else to the slot of the node in its parent: the
    operations end "with the selection re-pointed to a sensible
    post-operation location (never left dangling on a removed node)". *)
Definition moveSelectionPointToSibling (p : Which) (k pk : NodeKey) : M unit :=
  let* prev := getPreviousSibling k in
  let* next := getNextSibling k in
  let* prevIsText := optNodeIs isTextNode prev in
  let* prevIsBlock := optNodeIs isBlockNode prev in
  let* nextIsText := optNodeIs isTextNode next in
  let* nextIsBlock := optNodeIs isBlockNode next in
  match prev, next with
  | Some s, _ =>
      if prevIsText then
        let* size := getTextContentSize s in
        Point_set p s size text
      else if prevIsBlock then
        let* size := getChildrenSize s in
        Point_set p s size block
      else
        let* i := getIndexWithinParent k in Point_set p pk i block
  | None, Some s =>
      if nextIsText then Point_set p s 0 text
      else if nextIsBlock then Point_set p s 0 block
      else let* i := getIndexWithinParent k in Point_set p pk i block
  | None, None =>
      let* i := getIndexWithinParent k in Point_set p pk i block
  end.

(** Modelled from the spec: [node.remove()] of [OutlineNode] is not in the
    sources; the node leaves the child list of its parent and loses its
    parent link; it stays in the map until garbage collection drops "any
    node unreachable from Root". *)
Definition remove (k : NodeKey) : M unit :=
  let* n := getLatest k in
  match __parent n with
  | None => ret tt
  | Some pk =>
      let* a := getPoint TheAnchor in
      when (bool_decide (key a = k)) (moveSelectionPointToSibling TheAnchor k pk) ;;
      let* f := getPoint TheFocus in
      when (bool_decide (key f = k)) (moveSelectionPointToSibling TheFocus k pk) ;;
      detachFromParent k
  end.

(** Modelled from the spec: [node.insertAfter(nodeToInsert)] of
    [OutlineNode] is not in the sources; the inserted node leaves its old
    parent and becomes the next sibling of this node. *)
Definition insertAfter (k nodeToInsert : NodeKey) : M NodeKey :=
  let* _self := getWritable k in
  detachFromParent nodeToInsert ;;
  let* pk := getParentOrThrow k in
  let* p := getWritable pk in
  let i := indexOf k (__children p) in
  invariant (0 <=? i) "insertAfter: node is not a child of its parent" ;;
  putNode (withChildren (insertAt (i + 1) nodeToInsert (__children p)) p) ;;
  let* n := getWritable nodeToInsert in
  putNode (withParent (Some pk) n) ;;
  ret nodeToInsert.

(** Modelled from the spec: [node.insertBefore(nodeToInsert)] of
    [OutlineNode] is not in the sources; the inserted node leaves its old
    parent and becomes the previous sibling of this node. *)
Definition insertBefore (k nodeToInsert : NodeKey) : M NodeKey :=
  let* _self := getWritable k in
  detachFromParent nodeToInsert ;;
  let* pk := getParentOrThrow k in
  let* p := getWritable pk in
  let i := indexOf k (__children p) in
  invariant (0 <=? i) "insertBefore: node is not a child of its parent" ;;
  putNode (withChildren (insertAt i nodeToInsert (__children p)) p) ;;
  let* n := getWritable nodeToInsert in
  putNode (withParent (Some pk) n) ;;
  ret nodeToInsert.

(** Modelled from the spec: [node.replace(replaceWith)] of [OutlineNode] is
    not in the sources; the replacement takes the slot of this node, which
    is then removed. *)
Definition replace (k replaceWith : NodeKey) : M NodeKey :=
  let* _r := insertBefore k replaceWith in
  remove k ;;
  ret replaceWith.

End OutlineNode.

(** ** [BlockNode] / [ElementNode]: containers *)

Module BlockNode.

(** Modelled from the spec: [block.append(...)] is not in the sources; one
    node leaves its old parent and becomes the last child. *)
Definition append1 (k nodeToAppend : NodeKey) : M unit :=
  let* _self := getWritable k in
  detachFromParent nodeToAppend ;;
  let* self := getWritable k in
  putNode (withChildren (__children self ++ [nodeToAppend]) self) ;;
  let* n := getWritable nodeToAppend in
  putNode (withParent (Some k) n).

(** Modelled from the spec: [block.append(...nodesToAppend)] of the
    container class is not in the sources; each node in turn becomes the
    last child. *)
Definition append (k : NodeKey) (nodesToAppend : list NodeKey) : M NodeKey :=
  forEach nodesToAppend (append1 k) ;;
  ret k.

(** Modelled from the spec: [block.select(anchorOffset?, focusOffset?)] is
    not in the sources; a block selection, where a missing offset is the
    number of children. *)
Definition select (k : NodeKey) (anchorOffset focusOffset : option Z) : M unit :=
  let* size := getChildrenSize k in
  setRange k (default size anchorOffset) (default size focusOffset) block.

End BlockNode.

(** ** [RootNode] *)

Module RootNode.

Definition select {A} : M A :=
  (* You can't select root nodes. *)
  invariant false "select: cannot be called on root nodes" ;;
  throw "unreachable".

Definition remove {A} : M A :=
  invariant false "remove: cannot be called on root nodes" ;;
  throw "unreachable".

Definition replace {A} (node : NodeKey) : M A :=
  invariant false "replace: cannot be called on root nodes" ;;
  throw "unreachable".

Definition insertBefore {A} : M A :=
  invariant false "insertBefore: cannot be called on root nodes" ;;
  throw "unreachable".

Definition insertAfter {A} (node : NodeKey) : M A :=
  invariant false "insertAfter: cannot be called on root nodes" ;;
  throw "unreachable".

Definition updateDOM : bool := false.

(** Modelled from the spec: [isElementNode] of [OutlineElementNode] is not
    in the sources; an instance test for containers, here on a node
    reference. *)
Definition isElementNode (k : NodeKey) : M bool :=
  let* n := getLatest k in ret (isBlockNode n).

(** The body of the loop of [append]. *)
Definition appendGuard (node : NodeKey) : M unit :=
  let* isElement := isElementNode node in
  if negb isElement then
    invariant false
      "rootNode.append: Only element nodes can be appended to the root node"
  else ret tt.

Definition append (root : NodeKey) (nodesToAppend : list NodeKey) : M NodeKey :=
  forEach nodesToAppend appendGuard ;;
  BlockNode.append root nodesToAppend.

Definition canBeEmpty : bool := false.

End RootNode.

(** ** [TextNode] *)

(** [s.slice(lo, hi)] for offsets within the string. *)
Definition sliceStr (lo hi : Z) (s : string) : string :=
  substring (Z.to_nat lo) (Z.to_nat (hi - lo)) s.

(** [s.slice(lo)] *)
Definition sliceFrom (lo : Z) (s : string) : string :=
  substring (Z.to_nat lo) (String.length s - Z.to_nat lo) s.

(** Modelled from the spec: [textNode.splitText(...)] is not in the sources.
    The pieces of a text cut at the given offsets; a cut at [0] or at the end
    cuts nothing. *)
Fixpoint splitPartsFrom (offsets : list Z) (i : Z) (cur t : string)
  : list string :=
  match t with
  | EmptyString => if bool_decide (cur = "") then [] else [cur]
  | String c rest =>
      if negb (bool_decide (cur = "")) && existsb (Z.eqb i) offsets
      then cur :: splitPartsFrom offsets (i + 1) (String c "") rest
      else splitPartsFrom offsets (i + 1) (cur +:+ String c "") rest
  end.

(** Modelled from the spec: [textNode.splitText(...)] is not in the sources;
    see [splitPartsFrom]. *)
Definition splitParts (offsets : list Z) (t : string) : list string :=
  splitPartsFrom offsets 0 "" t.

(** Modelled from the spec: [textNode.getTextNodeFormat(type,
    alignWithFormat)] and the table [TEXT_TYPE_TO_FORMAT] are not in the
    sources.  A format type is represented by its bit; the new format is an
    "XOR-style toggle against its current format", where a later leaf of a run
    takes the running value. *)
Definition toggleFormat (format formatBit : Z) (alignWithFormat : option Z) : Z :=
  let present := negb (Z.land format formatBit =? 0) in
  match alignWithFormat with
  | None => Z.lxor format formatBit
  | Some a =>
      if negb (Z.land a formatBit =? 0) then Z.lor format formatBit
      else if present then Z.lxor format formatBit
      else format
  end.

Module TextNode.

(** Modelled from the spec: [textNode.select(anchorOffset?, focusOffset?)]
    is not in the sources; a text selection in this node, where a missing
    offset is the end of the text. *)
Definition select (k : NodeKey) (anchorOffset focusOffset : option Z) : M unit :=
  let* size := getTextContentSize k in
  setRange k (default size anchorOffset) (default size focusOffset) text.

(** Modelled from the spec: [textNode.setTextContent(text)] is not in the
    sources; "a node marked immutable or inert rejects in-place text
    mutation". *)
Definition setTextContent (k : NodeKey) (t : string) : M NodeKey :=
  let* n := getLatest k in
  invariant (negb (isImmutableOrInert n))
    "setTextContent: can only be used on non-immutable text nodes" ;;
  let* w := getWritable k in
  putNode (withText t w) ;;
  ret k.

(** Modelled from the spec: [textNode.spliceText(offset, delCount, newText,
    restoreSelection?)] is not in the sources; "the leaf's character range
    [startOffset, endOffset) is replaced by [text] in place (splice)", and
    with [restoreSelection] the selection collapses behind the inserted text
    (scenario 2: "selection collapses at offset 2"). *)
Definition spliceText (k : NodeKey) (offset delCount : Z) (newText : string)
    (restoreSelection : bool) : M NodeKey :=
  let* n := getLatest k in
  invariant (negb (isImmutableOrInert n))
    "spliceText: can only be used on non-immutable text nodes" ;;
  let t := __text n in
  when restoreSelection
    (let newOffset := offset + strlen newText in
     setRange k newOffset newOffset text) ;;
  let updatedText :=
    sliceStr 0 offset t +:+ newText +:+ sliceFrom (offset + delCount) t in
  setTextContent k updatedText.

(** Modelled from the spec: [textNode.setFormat(format)] is not in the
    sources; it writes the format flags of a node that is not immutable. *)
Definition setFormat (k : NodeKey) (format : Z) : M NodeKey :=
  let* n := getLatest k in
  invariant (negb (isImmutable n))
    "setFormat: can only be used on non-immutable nodes" ;;
  let* w := getWritable k in
  putNode (withFormat format w) ;;
  ret k.

(** Modelled from the spec: [textNode.setStyle(style)] is not in the
    sources; it writes the style string of a node that is not immutable. *)
Definition setStyle (k : NodeKey) (style : string) : M NodeKey :=
  let* n := getLatest k in
  invariant (negb (isImmutable n))
    "setStyle: can only be used on non-immutable nodes" ;;
  let* w := getWritable k in
  putNode (withStyle style w) ;;
  ret k.

(** Modelled from the spec: [textNode.getTextNodeFormat(type,
    alignWithFormat)] is not in the sources; see [toggleFormat]. *)
Definition getTextNodeFormat (k : NodeKey) (formatBit : Z)
    (alignWithFormat : option Z) : M Z :=
  let* n := getLatest k in
  ret (toggleFormat (__format n) formatBit alignWithFormat).

(** Modelled from the spec: the selection upkeep of
    [textNode.splitText(...)] is not in the sources; a selection point that
    sat in the split-off part of the text follows it into the new sibling. *)
Definition followSplit (p : Which) (k sibling : NodeKey)
    (textSize nextTextSize : Z) : M unit :=
  let* pt := getPoint p in
  when (bool_decide (key pt = k) && bool_decide (type pt = text)
        && (textSize <? offset pt) && (offset pt <=? nextTextSize))
    (putPoint p (mkPoint sibling (offset pt - textSize) text)).

(** Modelled from the spec: [textNode.splitText(...)] is not in the sources;
    the new siblings for the split-off parts, with the format and the style
    of the node. *)
Fixpoint splitSiblings (k pk : NodeKey) (format : Z) (style : string)
    (textSize : Z) (parts : list string) : M (list NodeKey) :=
  match parts with
  | [] => ret []
  | part :: rest =>
      let* sibling := createTextNode part in
      let* s := getWritable sibling in
      putNode (withParent (Some pk) (withStyle style (withFormat format s))) ;;
      let nextTextSize := textSize + strlen part in
      followSplit TheAnchor k sibling textSize nextTextSize ;;
      followSplit TheFocus k sibling textSize nextTextSize ;;
      let* more := splitSiblings k pk format style nextTextSize rest in
      ret (sibling :: more)
  end.

(** Modelled from the spec: [textNode.splitText(...splitOffsets)] is not in
    the sources; it "splits boundary leaves as needed to isolate the exact
    covered range": the first piece stays in this node, the others become
    new siblings behind it. *)
Definition splitText (k : NodeKey) (splitOffsets : list Z) : M (list NodeKey) :=
  let* n := getLatest k in
  invariant (negb (isImmutable n))
    "splitText: can only be used on non-immutable text nodes" ;;
  let textContent := __text n in
  match splitParts splitOffsets textContent with
  | [] => ret []
  | firstPart :: others =>
      if bool_decide (firstPart = textContent) then ret [k]
      else
        let* pk := getParentOrThrow k in
        let* w := getWritable k in
        putNode (withText firstPart w) ;;
        let* siblings :=
          splitSiblings k pk (__format n) (__style n) (strlen firstPart) others in
        let* p := getWritable pk in
        let i := indexOf k (__children p) in
        putNode (withChildren
                   (take (Z.to_nat i) (__children p) ++ (k :: siblings)
                    ++ drop (S (Z.to_nat i)) (__children p)) p) ;;
        ret (k :: siblings)
  end.

End TextNode.

(** ** Method dispatch: the root overrides the structural mutations *)

Definition remove (k : NodeKey) : M unit :=
  let* n := getLatest k in
  if isRootNode n then RootNode.remove else OutlineNode.remove k.

Definition replace (k replaceWith : NodeKey) : M NodeKey :=
  let* n := getLatest k in
  if isRootNode n then RootNode.replace replaceWith
  else OutlineNode.replace k replaceWith.

Definition insertAfter (k nodeToInsert : NodeKey) : M NodeKey :=
  let* n := getLatest k in
  if isRootNode n then RootNode.insertAfter nodeToInsert
  else OutlineNode.insertAfter k nodeToInsert.

Definition insertBefore (k nodeToInsert : NodeKey) : M NodeKey :=
  let* n := getLatest k in
  if isRootNode n then RootNode.insertBefore
  else OutlineNode.insertBefore k nodeToInsert.

Definition append (k : NodeKey) (nodesToAppend : list NodeKey) : M NodeKey :=
  let* n := getLatest k in
  if isRootNode n then RootNode.append k nodesToAppend
  else BlockNode.append k nodesToAppend.

Definition select (k : NodeKey) (anchorOffset focusOffset : option Z) : M unit :=
  let* n := getLatest k in
  if isRootNode n then RootNode.select
  else if isBlockNode n then BlockNode.select k anchorOffset focusOffset
  else TextNode.select k anchorOffset focusOffset.

(* ================================================================== *)
(** * [OutlineSelectionHelpers.js] *)
(* ================================================================== *)

(** An element of a JavaScript array or a destructured value that is used
    as an object: a [TypeError] when it is [undefined]. *)
Definition orTypeError {A} (o : option A) : M A :=
  match o with
  | Some a => ret a
  | None => throw "TypeError: cannot read properties of undefined"
  end.

(** [transferStartingBlockPointToTextPoint(start, end)] *)
Definition transferStartingBlockPointToTextPoint (start end_ : Which) : M unit :=
  let* startPt := getPoint start in
  let block_ := key startPt in
  let* _b := getLatest block_ in
  let* placementNode := getChildAtIndex block_ (offset startPt) in
  let* textNode := createTextNode "" in
  match placementNode with
  | None => let* _r := append block_ [textNode] in ret tt
  | Some pn => let* _r := insertBefore pn textNode in ret tt
  end ;;
  (* If we are inserting a node to the start point, then we'll need to
     adjust the offset of the end point accordingly. *)
  let* endPt := getPoint end_ in
  let* sameBlock :=
    match type endPt with
    | block => let* _e := getLatest (key endPt) in
               ret (bool_decide (block_ = key endPt))
    | text => ret false
    end in
  when sameBlock
    (if offset endPt =? offset startPt then Point_set end_ textNode 0 text
     else putPoint end_ (setOffset (offset endPt + 1) endPt)) ;;
  (* Transfer the block point to a text point. *)
  Point_set start textNode 0 text.

(** The closing steps after the first node has been spliced (the same four
    lines end the single-leaf and the multi-leaf branch of [insertText]):
    an emptied node is removed; otherwise, during composition, the anchor
    offset steps back over the inserted text. *)
Definition afterSplice (firstNode : NodeKey) (t : string) : M unit :=
  let* content := getTextContent firstNode in
  if bool_decide (content = "") then remove firstNode
  else
    let* composing := nodeIs isComposing firstNode in
    let* a := getPoint TheAnchor in
    when (composing && bool_decide (type a = text))
      (putPoint TheAnchor (setOffset (offset a - strlen t) a)).

(** Modelled from the spec: the cloning of nodes is not in the sources, and
    it decides [selectedNodesSet.has(node)], the membership of a node object
    in a set of node objects collected earlier.  "A node is cloned only the
    first time it is mutated within a draft cycle", so a node that was first
    written after the set was built ([dirtyThen] are the nodes private to the
    draft at that time) is a new object and not in the set. *)
Definition hasNodeObject (selectedNodes : list NodeKey) (dirtyThen : gset string)
    (k : NodeKey) : M bool :=
  let* dirtyNow := gets dirtyNodes in
  ret (bool_decide (k ∈ selectedNodes)
       && (bool_decide (k ∈ dirtyThen) || negb (bool_decide (k ∈ dirtyNow)))).

(** The loop over the children of the last block, last child first, up to
    the first node. *)
Fixpoint moveOrRemoveChildren (children : list NodeKey)
    (firstNode lastNode : NodeKey) (selectedNodes : list NodeKey)
    (dirtyThen : gset string) (firstAndLastBlocksAreEqual : bool) : M unit :=
  match children with
  | [] => ret tt
  | lastNodeChild :: rest =>
      if bool_decide (lastNodeChild = firstNode) then ret tt (* break *)
      else
        let* attached := isAttached lastNodeChild in
        (if attached then
           let* selected := hasNodeObject selectedNodes dirtyThen lastNodeChild in
           if negb selected || bool_decide (lastNodeChild = lastNode) then
             if negb firstAndLastBlocksAreEqual then
               let* _r := insertAfter firstNode lastNodeChild in ret tt
             else ret tt
           else remove lastNodeChild
         else ret tt) ;;
        moveOrRemoveChildren rest firstNode lastNode selectedNodes dirtyThen
          firstAndLastBlocksAreEqual
  end.

(** The walk up from the last block: a parent that is empty, or whose last
    child was just unmarked, is unmarked too. *)
Fixpoint unmarkEmptyParents (parents : list NodeKey) (lastRemovedParent : option NodeKey)
    (marked : gset string) : M (gset string) :=
  match parents with
  | [] => ret marked
  | parent :: rest =>
      let* children := getChildren parent in
      if bool_decide (children = [])
         || bool_decide (last children = lastRemovedParent /\ is_Some lastRemovedParent)
      then unmarkEmptyParents rest (Some parent) (marked ∖ {[parent]})
      else unmarkEmptyParents rest lastRemovedParent marked
  end.

(** [insertText(selection, text)].  The function calls itself once the
    selection has been moved into a plain text node next to a node that
    rejects the edit; [fuel] bounds these calls. *)
Fixpoint insertText (fuel : nat) (t : string) : M unit :=
  match fuel with
  | O => throw "insertText: recursion limit"
  | S fuel' =>
  let* collapsed0 := isCollapsed in
  let* anchor0 := getPoint TheAnchor in
  let* focus0 := getPoint TheFocus in
  let* isBefore :=
    if collapsed0 then ret true else Point_isBefore anchor0 focus0 in
  (if isBefore && bool_decide (type anchor0 = block) then
     transferStartingBlockPointToTextPoint TheAnchor TheFocus
   else if negb isBefore && bool_decide (type focus0 = block) then
     transferStartingBlockPointToTextPoint TheFocus TheAnchor
   else ret tt) ;;
  let* selectedNodes := getNodes in
  let* dirtyThen := gets dirtyNodes in
  let selectedNodesLength := lengthZ selectedNodes in
  let* textFormat_ := gets (fun w => textFormat (selection w)) in
  let firstPoint := if isBefore then TheAnchor else TheFocus in
  let endPoint := if isBefore then TheFocus else TheAnchor in
  let* firstPt := getPoint firstPoint in
  let* endPt := getPoint endPoint in
  let startOffset := offset firstPt in
  let endOffset := offset endPt in
  let* firstIsText := optNodeIs isTextNode (head selectedNodes) in
  match head selectedNodes, firstIsText with
  | Some firstNode0, true =>
    let* firstNodeText := getTextContent firstNode0 in
    let firstNodeTextLength := strlen firstNodeText in
    let* first0 := getLatest firstNode0 in
    (* [Some firstNode]: go on with this first node; [None]: returned. *)
    let* continue_ :=
      if isSegmented first0 || isImmutable first0 || negb (canInsertTextAtEnd first0)
      then
        let* pt := getPoint firstPoint in
        let offset_ := offset pt in
        let* collapsed := isCollapsed in
        if collapsed && (offset_ =? firstNodeTextLength) then
          let* sibling := getNextSibling firstNode0 in
          let* isText := optNodeIs isTextNode sibling in
          let* immutableOrInert := optNodeIs isImmutableOrInert sibling in
          let* segmented := optNodeIs isSegmented sibling in
          let* nextSibling :=
            match sibling with
            | Some s =>
                if negb isText || immutableOrInert || segmented then
                  let* fresh := createTextNode "" in
                  let* _r := insertAfter firstNode0 fresh in ret fresh
                else ret s
            | None =>
                let* fresh := createTextNode "" in
                let* _r := insertAfter firstNode0 fresh in ret fresh
            end in
          select nextSibling (Some 0) (Some 0) ;;
          if negb (bool_decide (t = "")) then
            insertText fuel' t ;; ret None
          else ret (Some nextSibling)
        else if collapsed && (offset_ =? 0) then
          let* sibling := getPreviousSibling firstNode0 in
          let* isText := optNodeIs isTextNode sibling in
          let* immutableOrInert := optNodeIs isImmutableOrInert sibling in
          let* segmented := optNodeIs isSegmented sibling in
          let* prevSibling :=
            match sibling with
            | Some s =>
                if negb isText || immutableOrInert || segmented then
                  let* fresh := createTextNode "" in
                  let* _r := insertBefore firstNode0 fresh in ret fresh
                else ret s
            | None =>
                let* fresh := createTextNode "" in
                let* _r := insertBefore firstNode0 fresh in ret fresh
            end in
          select prevSibling None None ;;
          if negb (bool_decide (t = "")) then
            insertText fuel' t ;; ret None
          else ret (Some prevSibling)
        else if isSegmented first0 && negb (offset_ =? firstNodeTextLength) then
          let* content := getTextContent firstNode0 in
          let* textNode := createTextNode content in
          let* _r := replace firstNode0 textNode in
          ret (Some textNode)
        else ret (Some firstNode0)
      else ret (Some firstNode0) in
    match continue_ with
    | None => ret tt
    | Some firstNode =>
      if selectedNodesLength =? 1 then
        let* immutableOrInert := nodeIs isImmutableOrInert firstNode in
        if immutableOrInert then remove firstNode
        else
          let* firstNodeFormat := getFormat firstNode in
          (* [true]: returned. *)
          let* returned :=
            if (startOffset =? endOffset) && negb (firstNodeFormat =? textFormat_)
            then
              let* content := getTextContent firstNode in
              if bool_decide (content = "") then
                let* _f := TextNode.setFormat firstNode textFormat_ in
                ret false
              else
                let* splitNodes := TextNode.splitText firstNode [startOffset] in
                let* targetNode := orTypeError (head splitNodes) in
                let* textNode := createTextNode t in
                let* _f := TextNode.setFormat textNode textFormat_ in
                let* _r := insertAfter targetNode textNode in
                select textNode None None ;;
                ret true
            else ret false in
          if returned then ret tt
          else
            let delCount := endOffset - startOffset in
            let* firstNode' :=
              TextNode.spliceText firstNode startOffset delCount t true in
            afterSplice firstNode' t
      else
        let lastIndex := selectedNodesLength - 1 in
        match nthZ selectedNodes lastIndex with
        | None => throw "TypeError: cannot read properties of undefined"
        | Some lastNode0 =>
          let* firstParents := getParentKeys firstNode in
          let* lastParents := getParentKeys lastNode0 in
          let markedNodeKeysForKeep : gset string :=
            list_to_set (firstParents ++ lastParents) in
          let* firstIsBlock := nodeIs isBlockNode firstNode in
          let* firstBlock :=
            if firstIsBlock then ret firstNode else getParentOrThrow firstNode in
          let* lastIsBlock := nodeIs isBlockNode lastNode0 in
          let* lastBlock :=
            if lastIsBlock then ret lastNode0 else getParentOrThrow lastNode0 in
          (* Handle mutations to the last node. *)
          let* endPointNow := getPoint endPoint in
          let* mutateLast :=
            match type endPointNow with
            | text =>
                if negb (endOffset =? 0) then ret true
                else
                  let* lastContent := getTextContent lastNode0 in
                  ret (bool_decide (lastContent = ""))
            | block =>
                let* lastIndexWithinParent := getIndexWithinParent lastNode0 in
                ret (lastIndexWithinParent <? endOffset)
            end in
          let* lastAndMarked :=
            if mutateLast then
              let* last0 := getLatest lastNode0 in
              let* partlyCovered :=
                if isTextNode last0 && negb (isImmutableOrInert last0) then
                  let* lastSize := getTextContentSize lastNode0 in
                  ret (negb (endOffset =? lastSize))
                else ret false in
              if partlyCovered then
                let* lastNode1 :=
                  if isSegmented last0 then
                    let* lastContent := getTextContent lastNode0 in
                    let* textNode := createTextNode lastContent in
                    let* _r := replace lastNode0 textNode in
                    ret textNode
                  else ret lastNode0 in
                let* lastNode2 := TextNode.spliceText lastNode1 0 endOffset "" false in
                ret (lastNode2, {[lastNode2]} ∪ markedNodeKeysForKeep)
              else
                remove lastNode0 ;;
                ret (lastNode0, markedNodeKeysForKeep)
            else ret (lastNode0, {[lastNode0]} ∪ markedNodeKeysForKeep) in
          let lastNode := fst lastAndMarked in
          let marked1 := snd lastAndMarked in
          (* Either move the remaining nodes of the last parent to after
             the first child, or remove them entirely. *)
          let* lastNodeChildren := getChildren lastBlock in
          let firstAndLastBlocksAreEqual := bool_decide (firstBlock = lastBlock) in
          moveOrRemoveChildren (rev lastNodeChildren) firstNode lastNode
            selectedNodes dirtyThen firstAndLastBlocksAreEqual ;;
          let* marked2 :=
            if negb firstAndLastBlocksAreEqual then
              let* parents := getParentKeys lastBlock in
              unmarkEmptyParents (lastBlock :: parents) None marked1
            else ret marked1 in
          (* Ensure we do splicing after moving of nodes, as splicing
             can have side-effects (in the case of hashtags). *)
          let* immutableOrInert := nodeIs isImmutableOrInert firstNode in
          (if negb immutableOrInert then
             let* firstNode' :=
               TextNode.spliceText firstNode startOffset
                 (firstNodeTextLength - startOffset) t true in
             afterSplice firstNode' t
           else if startOffset =? firstNodeTextLength then
             select firstNode None None
           else remove firstNode) ;;
          (* Remove all selected nodes that haven't already been removed. *)
          forEach (drop 1 selectedNodes) (fun selectedNode =>
            if negb (bool_decide (selectedNode ∈ marked2)) then remove selectedNode
            else ret tt)
        end
    end
  | _, _ => throw "insertText: first node is not a text node"
  end
  end.

(** [removeText(selection)] *)
Definition removeText (fuel : nat) : M unit := insertText fuel "".

(** ** Style patching *)

(** [getStyleObjectFromCSS(css)] *)
Definition getStyleObjectFromCSS (css : string) : M (option (list (string * string))) :=
  gets (fun w => cssToStyles w !! css).

(** A style object [{[string]: string}] whose prototype is
    [Object.prototype]: its own properties, in the order of their creation,
    no key twice. *)

(** The number that a string of decimal digits denotes. *)
Fixpoint digitsValue (acc : N) (s : string) : option N :=
  match s with
  | EmptyString => Some acc
  | String c rest =>
      let d := N_of_ascii c in
      if ((48 <=? d) && (d <=? 57))%N
      then digitsValue (10 * acc + (d - 48))%N rest
      else None
  end.

(** The array index that a property key is, if it is one: the canonical
    numeral of an integer from [0] to [2^32 - 2]. *)
Definition arrayIndex (k : string) : option N :=
  match digitsValue 0 k with
  | Some n =>
      if bool_decide (pretty n = k) && (n <? 4294967295)%N then Some n else None
  | None => None
  end.

(** The properties whose key is an array index, in ascending order of
    the index. *)
Fixpoint insertIndexed (i : N) (kv : string * string)
    (l : list (N * (string * string))) : list (N * (string * string)) :=
  match l with
  | [] => [(i, kv)]
  | (j, kv') :: rest =>
      if (i <? j)%N then (i, kv) :: l else (j, kv') :: insertIndexed i kv rest
  end.

Fixpoint indexedProperties (o : list (string * string))
  : list (N * (string * string)) :=
  match o with
  | [] => []
  | (k, v) :: rest =>
      match arrayIndex k with
      | Some i => insertIndexed i (k, v) (indexedProperties rest)
      | None => indexedProperties rest
      end
  end.

(** The properties in the order in which [for (const style in styles)]
    visits them: those with an array index as key in ascending order, then
    the others in the order of their creation. *)
Definition forInProperties (o : list (string * string)) : list (string * string) :=
  map snd (indexedProperties o)
  ++ List.filter (fun kv => negb (bool_decide (is_Some (arrayIndex (fst kv))))) o.

(** The body of the loop of [getCSSFromStyleObject], over the properties
    in the order of the loop. *)
Fixpoint cssOfProperties (styles : list (string * string)) : string :=
  match styles with
  | [] => ""
  | (style, value) :: rest =>
      (if bool_decide (style = "") then ""
       else style +:+ ": " +:+ value +:+ ";")
      +:+ cssOfProperties rest
  end.

(** [getCSSFromStyleObject(styles)] *)
Definition getCSSFromStyleObject (styles : list (string * string)) : string :=
  cssOfProperties (forInProperties styles).

(** [obj[key] = value]: the value of a key that the object has is
    replaced where it is, a new key comes last. *)
Fixpoint setProperty (k v : string) (o : list (string * string))
  : list (string * string) :=
  match o with
  | [] => [(k, v)]
  | (k', v') :: rest =>
      if bool_decide (k' = k) then (k, v) :: rest
      else (k', v') :: setProperty k v rest
  end.

(** [{...prevStyles, ...patch}]: the properties of [prevStyles], then
    those of [patch] written over them.  Where the array indices stand in
    the list is of no account, as every reading of the keys sorts them. *)
Definition spread (prevStyles patch : list (string * string))
  : list (string * string) :=
  fold_left (fun o kv => setProperty (fst kv) (snd kv) o) patch prevStyles.

(** [patchNodeStyle(node, patch)] *)
Definition patchNodeStyle (node : NodeKey) (patch : list (string * string)) : M unit :=
  let* css := getStyle node in
  let* prevStyles := getStyleObjectFromCSS css in
  let newStyles :=
    match prevStyles with
    | Some prev => spread prev patch
    | None => patch
    end in
  let newCSSText := getCSSFromStyleObject newStyles in
  let* _n := TextNode.setStyle node newCSSText in
  modify (fun w => mkWorld (nodeMap w) (selection w) (dirtyNodes w) (keyCounter w)
                           (<[newCSSText := newStyles]> (cssToStyles w))).

(** [patchStyleText(selection, patch)] *)
Definition patchStyleText (patch : list (string * string)) : M unit :=
  let* selectedNodes := getNodes in
  let selectedNodesLength := lengthZ selectedNodes in
  let lastIndex := selectedNodesLength - 1 in
  let firstNode0 := nthZ selectedNodes 0 in
  let lastNode0 := nthZ selectedNodes lastIndex in
  let* collapsed := isCollapsed in
  if collapsed then ret tt
  else
    let* anchor_ := getPoint TheAnchor in
    let* focus_ := getPoint TheFocus in
    let* firstNode1 := orTypeError firstNode0 in
    let* firstNodeText := getTextContent firstNode1 in
    let firstNodeTextLength := strlen firstNodeText in
    let focusOffset := offset focus_ in
    let anchorOffset0 := offset anchor_ in
    let* isBefore := Point_isBefore anchor_ focus_ in
    let startOffset0 := if isBefore then anchorOffset0 else focusOffset in
    let endOffset0 := if isBefore then focusOffset else anchorOffset0 in
    (* This is the case where the user only selected the very end of the
       first node so we don't want to include it in the formatting change. *)
    let* size := getTextContentSize firstNode1 in
    let* textSibling :=
      if startOffset0 =? size then
        let* nextSibling := getNextSibling firstNode1 in
        let* nextIsText := optNodeIs isTextNode nextSibling in
        ret (if nextIsText then nextSibling else None)
      else ret None in
    (* we basically make the second node the firstNode, changing offsets
       accordingly *)
    let anchorOffset := if bool_decide (is_Some textSibling) then 0 else anchorOffset0 in
    let startOffset1 := if bool_decide (is_Some textSibling) then 0 else startOffset0 in
    let firstNode := default firstNode1 textSibling in
    (* This is the case where we only selected a single node *)
    if bool_decide (Some firstNode = lastNode0) then
      let* firstIsText := nodeIs isTextNode firstNode in
      if firstIsText then
        let startOffset := if focusOffset <? anchorOffset then focusOffset else anchorOffset in
        let endOffset := if focusOffset <? anchorOffset then anchorOffset else focusOffset in
        (* No actual text is selected, so do nothing. *)
        if startOffset =? endOffset then ret tt
        (* The entire node is selected, so just format it *)
        else if (startOffset =? 0) && (endOffset =? firstNodeTextLength) then
          patchNodeStyle firstNode patch ;;
          select firstNode (Some startOffset) (Some endOffset)
        else
          (* The node is partially selected, so split it into two nodes
             and style the selected one. *)
          let* splitNodes := TextNode.splitText firstNode [startOffset; endOffset] in
          let* replacement :=
            orTypeError (if startOffset =? 0 then nthZ splitNodes 0 else nthZ splitNodes 1) in
          patchNodeStyle replacement patch ;;
          select replacement (Some 0) (Some (endOffset - startOffset))
      else ret tt
    else
      (* multiple nodes selected. *)
      let* lastNode1 := orTypeError lastNode0 in
      let* firstIsText := nodeIs isTextNode firstNode in
      let* firstNode' :=
        if firstIsText then
          let* f :=
            if negb (startOffset1 =? 0) then
              (* the entire first node isn't selected, so split it *)
              let* splitNodes := TextNode.splitText firstNode [startOffset1] in
              orTypeError (nthZ splitNodes 1)
            else ret firstNode in
          patchNodeStyle f patch ;;
          ret f
        else ret firstNode in
      let* lastIsText := nodeIs isTextNode lastNode1 in
      let* lastNode :=
        if lastIsText then
          let* lastNodeText := getTextContent lastNode1 in
          let lastNodeTextLength := strlen lastNodeText in
          (* if the entire last node isn't selected, split it *)
          let* l :=
            if negb (endOffset0 =? lastNodeTextLength) then
              let* splitNodes := TextNode.splitText lastNode1 [endOffset0] in
              orTypeError (nthZ splitNodes 0)
            else ret lastNode1 in
          patchNodeStyle l patch ;;
          ret l
        else ret lastNode1 in
      (* style all the text nodes in between *)
      forEach (sliceZ 1 lastIndex selectedNodes) (fun selectedNode =>
        let* n := getLatest selectedNode in
        if isTextNode n
           && negb (bool_decide (selectedNode = firstNode'))
           && negb (bool_decide (selectedNode = lastNode))
           && negb (isImmutable n)
        then patchNodeStyle selectedNode patch
        else ret tt).

(** The first text node among the selected nodes. *)
Fixpoint firstTextNode (nodes : list NodeKey) : M (option NodeKey) :=
  match nodes with
  | [] => ret None
  | k :: rest =>
      let* isText := nodeIs isTextNode k in
      if isText then ret (Some k) else firstTextNode rest
  end.

(** [formatText(selection, formatType)]; the format type is given by its
    bit [formatBit] of the format bit set. *)
Definition formatText (formatBit : Z) : M unit :=
  let* selectedNodes := getNodes in
  let selectedNodesLength := lengthZ selectedNodes in
  let lastIndex := selectedNodesLength - 1 in
  let firstNode0 := nthZ selectedNodes 0 in
  let lastNode0 := nthZ selectedNodes lastIndex in
  let* collapsed := isCollapsed in
  if collapsed then toggleTextFormatType formatBit
  else
    let* anchor_ := getPoint TheAnchor in
    let* focus_ := getPoint TheFocus in
    let* firstNode1 := orTypeError firstNode0 in
    let* firstNodeText := getTextContent firstNode1 in
    let firstNodeTextLength := strlen firstNodeText in
    let focusOffset := offset focus_ in
    let* firstText := firstTextNode selectedNodes in
    let* firstNextFormat0 :=
      match firstText with
      | Some k => TextNode.getTextNodeFormat k formatBit None
      | None => ret 0
      end in
    let anchorOffset0 := offset anchor_ in
    let* isBefore := Point_isBefore anchor_ focus_ in
    let startOffset0 := if isBefore then anchorOffset0 else focusOffset in
    let endOffset0 := if isBefore then focusOffset else anchorOffset0 in
    let* size := getTextContentSize firstNode1 in
    let* textSibling :=
      if startOffset0 =? size then
        let* nextSibling := getNextSibling firstNode1 in
        let* nextIsText := optNodeIs isTextNode nextSibling in
        ret (if nextIsText then nextSibling else None)
      else ret None in
    (* we basically make the second node the firstNode, changing offsets
       accordingly *)
    let anchorOffset := if bool_decide (is_Some textSibling) then 0 else anchorOffset0 in
    let startOffset1 := if bool_decide (is_Some textSibling) then 0 else startOffset0 in
    let firstNode := default firstNode1 textSibling in
    let* firstNextFormat :=
      if bool_decide (is_Some textSibling)
      then TextNode.getTextNodeFormat firstNode formatBit None
      else ret firstNextFormat0 in
    if bool_decide (Some firstNode = lastNode0) then
      let* firstIsText := nodeIs isTextNode firstNode in
      if firstIsText then
        let startOffset := if focusOffset <? anchorOffset then focusOffset else anchorOffset in
        let endOffset := if focusOffset <? anchorOffset then anchorOffset else focusOffset in
        if startOffset =? endOffset then ret tt
        else if (startOffset =? 0) && (endOffset =? firstNodeTextLength) then
          let* _f := TextNode.setFormat firstNode firstNextFormat in
          select firstNode (Some startOffset) (Some endOffset)
        else
          let* splitNodes := TextNode.splitText firstNode [startOffset; endOffset] in
          let* replacement :=
            orTypeError (if startOffset =? 0 then nthZ splitNodes 0 else nthZ splitNodes 1) in
          let* _f := TextNode.setFormat replacement firstNextFormat in
          select replacement (Some 0) (Some (endOffset - startOffset))
      else ret tt
    else
      let* lastNode1 := orTypeError lastNode0 in
      let* firstIsText := nodeIs isTextNode firstNode in
      let* firstNode' :=
        if firstIsText then
          let* f :=
            if negb (startOffset1 =? 0) then
              let* splitNodes := TextNode.splitText firstNode [startOffset1] in
              orTypeError (nthZ splitNodes 1)
            else ret firstNode in
          let* _f := TextNode.setFormat f firstNextFormat in
          ret f
        else ret firstNode in
      let* lastIsText := nodeIs isTextNode lastNode1 in
      let* lastAndFormat :=
        if lastIsText then
          let* lastNextFormat :=
            TextNode.getTextNodeFormat lastNode1 formatBit (Some firstNextFormat) in
          let* lastNodeText := getTextContent lastNode1 in
          let lastNodeTextLength := strlen lastNodeText in
          let* l :=
            if negb (endOffset0 =? lastNodeTextLength) then
              let* splitNodes := TextNode.splitText lastNode1 [endOffset0] in
              orTypeError (nthZ splitNodes 0)
            else ret lastNode1 in
          let* _f := TextNode.setFormat l lastNextFormat in
          ret (l, lastNextFormat)
        else ret (lastNode1, firstNextFormat) in
      let lastNode := fst lastAndFormat in
      let lastNextFormat := snd lastAndFormat in
      (* deal with all the nodes in between *)
      forEach (sliceZ 1 lastIndex selectedNodes) (fun selectedNode =>
        let* n := getLatest selectedNode in
        if isTextNode n
           && negb (bool_decide (selectedNode = firstNode'))
           && negb (bool_decide (selectedNode = lastNode))
           && negb (isImmutable n)
        then
          let* selectedNextFormat :=
            TextNode.getTextNodeFormat selectedNode formatBit (Some lastNextFormat) in
          let* _f := TextNode.setFormat selectedNode selectedNextFormat in
          ret tt
        else ret tt).


(** ** Deleting *)

(** A character matched by the regular expression [\s] (code units below
    256). *)
Definition isWhitespace (c : ascii) : bool :=
  let n := N_of_ascii c in
  ((9 <=? n) && (n <=? 13) || (n =? 32) || (n =? 160))%N.

(** [s.split(/\s/g)] *)
Fixpoint splitWhitespaceFrom (cur s : string) : list string :=
  match s with
  | EmptyString => [cur]
  | String c rest =>
      if isWhitespace c then cur :: splitWhitespaceFrom "" rest
      else splitWhitespaceFrom (cur +:+ String c "") rest
  end.

Definition splitWhitespace (s : string) : list string := splitWhitespaceFrom "" s.

(** [array.join(' ')] *)
Definition joinSpace (l : list string) : string := String.concat " " l.

(** [split.pop()] removes the last element, [split.shift()] the first. *)
Definition dropSegment (isBackward : bool) (split : list string) : list string :=
  if isBackward then removelast split else tl split.

(** [removeSegment(node, isBackward)] *)
Definition removeSegment (node : NodeKey) (isBackward : bool) : M unit :=
  let* textContent := getTextContent node in
  let split := dropSegment isBackward (splitWhitespace textContent) in
  let nextTextContent := joinSpace split in
  if bool_decide (nextTextContent = "") then remove node
  else
    let* textNode := TextNode.setTextContent node nextTextContent in
    if isBackward then select textNode None None
    else select textNode (Some 0) (Some 0).

Inductive Granularity := character | word | lineboundary.

Section Surface.

(** The presentation surface and the plug-in points of the node classes
    the helpers rely on. *)

(** [window.getSelection().modify(alter, direction, granularity)] followed
    by [getRangeAt(0)], as the model sees it through
    [selection.applyDOMRange(range)]: nothing when the surface has no
    range; otherwise the points of the start and of the end of the range,
    and whether the surface anchor is the start of the range. *)
Variable nativeModify :
  forall (collapse isBackward : bool) (granularity : Granularity),
    World -> option (Point * Point * bool).

(** [shared/getPossibleDecoratorNode(focus, isBackward)] *)
Variable getPossibleDecoratorNode : Point -> bool -> M (option NodeKey).

(** [doesContainGrapheme(text)] of [outline/TextHelpers] *)
Variable doesContainGrapheme : string -> bool.

(** [block.collapseAtStart(selection)], which each container class
    decides for itself. *)
Variable collapseAtStart : NodeKey -> M bool.

(** [updateCaretSelectionForRange(selection, isBackward, granularity, collapse)] *)
Definition updateCaretSelectionForRange (isBackward : bool)
    (granularity : Granularity) (collapse : bool) : M unit :=
  let* focus_ := getPoint TheFocus in
  (* Handle the selection movement around decorators. *)
  let* possibleDecoratorNode := getPossibleDecoratorNode focus_ isBackward in
  let* isDecorator := optNodeIs isDecoratorNode possibleDecoratorNode in
  let* handled :=
    match possibleDecoratorNode with
    | Some decorator =>
        if isDecorator then
          let* sibling :=
            if isBackward then getPreviousSibling decorator
            else getNextSibling decorator in
          let* siblingIsText := optNodeIs isTextNode sibling in
          if negb siblingIsText then
            let* blockKey := getParentOrThrow decorator in
            let* offset_ := getIndexWithinParent decorator in
            Point_set TheFocus blockKey offset_ block ;;
            when collapse (Point_set TheAnchor blockKey offset_ block) ;;
            ret true
          else ret false
        else ret false
    | None => ret false
    end in
  if handled then ret tt
  else
    let* range := gets (nativeModify collapse isBackward granularity) in
    (* Guard against no ranges *)
    match range with
    | None => ret tt
    | Some (rangeStart, rangeEnd, anchorIsStart) =>
        (* Apply the DOM selection to our Outline selection. *)
        putPoint TheAnchor rangeStart ;;
        putPoint TheFocus rangeEnd ;;
        when (negb collapse && negb anchorIsStart) swapPoints
    end.

(** [updateCaretSelectionForUnicodeCharacter(selection, isBackward)] *)
Definition updateCaretSelectionForUnicodeCharacter (isBackward : bool) : M unit :=
  let* anchor_ := getPoint TheAnchor in
  let* focus_ := getPoint TheFocus in
  let* _anchorNode := getLatest (key anchor_) in
  let* _focusNode := getLatest (key focus_) in
  if bool_decide (key anchor_ = key focus_)
     && bool_decide (type anchor_ = text) && bool_decide (type focus_ = text)
  then
    (* Handling of multibyte characters *)
    let anchorOffset := offset anchor_ in
    let focusOffset := offset focus_ in
    let isBefore := anchorOffset <? focusOffset in
    let startOffset := if isBefore then anchorOffset else focusOffset in
    let endOffset := if isBefore then focusOffset else anchorOffset in
    let characterOffset := endOffset - 1 in
    if negb (startOffset =? characterOffset) then
      let* content := getTextContent (key anchor_) in
      let t := sliceStr startOffset endOffset content in
      if negb (doesContainGrapheme t) then
        if isBackward then putPoint TheFocus (setOffset characterOffset focus_)
        else putPoint TheAnchor (setOffset characterOffset anchor_)
      else ret tt
    else ret tt
  else ret tt.

(** [updateCaretSelectionForAdjacentHashtags(selection)] *)
Definition updateCaretSelectionForAdjacentHashtags : M unit :=
  let* anchor_ := getPoint TheAnchor in
  if negb (bool_decide (type anchor_ = text)) then ret tt
  else
    let anchorNode := key anchor_ in
    let* node := getLatest anchorNode in
    let* textContent := getTextContent anchorNode in
    let anchorOffset := offset anchor_ in
    if (anchorOffset =? 0) && isSimpleText node then
      let* sibling := getPreviousSibling anchorNode in
      let* isText := optNodeIs isTextNode sibling in
      let* isHashtag := optNodeIs isHashtagNode sibling in
      match sibling with
      | Some s =>
          if isText && isHashtag then
            select s None None ;;
            let* siblingTextContent := getTextContent s in
            let* _s := TextNode.setTextContent s (siblingTextContent +:+ textContent) in
            remove anchorNode
          else ret tt
      | None => ret tt
      end
    else
      let* size := getTextContentSize anchorNode in
      if isHashtagNode node && (anchorOffset =? size) then
        let* sibling := getNextSibling anchorNode in
        let* isText := optNodeIs isTextNode sibling in
        let* isSimple := optNodeIs isSimpleText sibling in
        match sibling with
        | Some s =>
            if isText && isSimple then
              let* siblingTextContent := getTextContent s in
              let* _a := TextNode.setTextContent anchorNode
                           (textContent +:+ siblingTextContent) in
              remove s
            else ret tt
        | None => ret tt
        end
      else ret tt.

(** [focus.type === 'text' ? focus.getNode() : null] *)
Definition textNodeOf (p : Point) : M (option NodeKey) :=
  match type p with
  | text => let* _n := getLatest (key p) in ret (Some (key p))
  | block => ret None
  end.

(** [deleteCharacter(selection, isBackward)] *)
Definition deleteCharacter (fuel : nat) (isBackward : bool) : M unit :=
  let* collapsed0 := isCollapsed in
  (* [true]: go on to [removeText]; [false]: returned. *)
  let* continue_ :=
    if collapsed0 then
      updateCaretSelectionForRange isBackward character false ;;
      let* anchor_ := getPoint TheAnchor in
      let* focus_ := getPoint TheFocus in
      let* collapsed := isCollapsed in
      if negb collapsed then
        let* focusNode := textNodeOf focus_ in
        let* anchorNode := textNodeOf anchor_ in
        let* focusSegmented := optNodeIs isSegmented focusNode in
        let* anchorSegmented := optNodeIs isSegmented anchorNode in
        let anchorBranch : M bool :=
          match anchorNode with
          | Some aNode =>
              if anchorSegmented then
                let offset_ := offset anchor_ in
                let* textContentSize := getTextContentSize aNode in
                if bool_decide (Some aNode = focusNode)
                   || (isBackward && negb (offset_ =? 0))
                   || (negb isBackward && negb (offset_ =? textContentSize))
                then removeSegment aNode isBackward ;; ret true
                else ret false
              else ret false
          | None => ret false
          end in
        let* removed :=
          match focusNode with
          | Some fNode =>
              if focusSegmented then
                let offset_ := offset focus_ in
                let* textContentSize := getTextContentSize fNode in
                if bool_decide (Some fNode = anchorNode)
                   || (isBackward && negb (offset_ =? textContentSize))
                   || (negb isBackward && negb (offset_ =? 0))
                then removeSegment fNode isBackward ;; ret true
                else ret false
              else anchorBranch
          | None => anchorBranch
          end in
        if removed then ret false
        else updateCaretSelectionForUnicodeCharacter isBackward ;; ret true
      else if isBackward && (offset anchor_ =? 0) then
        (* Special handling around rich text nodes *)
        let* _n := getLatest (key anchor_) in
        let* block_ :=
          match type anchor_ with
          | block => ret (key anchor_)
          | text => getParentOrThrow (key anchor_)
          end in
        let* collapsedAtStart := collapseAtStart block_ in
        ret (negb collapsedAtStart)
      else ret true
    else ret true in
  if continue_ then
    removeText fuel ;;
    updateCaretSelectionForAdjacentHashtags
  else ret tt.

(** [deleteBackward(selection)] *)
Definition deleteBackward (fuel : nat) : M unit := deleteCharacter fuel true.

(** [deleteForward(selection)] *)
Definition deleteForward (fuel : nat) : M unit := deleteCharacter fuel false.

End Surface.

(* ================================================================== *)
(** * The view model ([OutlineView]) *)
(* ================================================================== *)

Module OutlineView.

(** Modelled from the spec: the [ViewModel] class of [OutlineView] is not in
    the sources; "an immutable-by-convention snapshot" of the map from keys
    to nodes "plus a current Selection (or null)", with the dirty set of its
    draft cycle. *)
Record ViewModel := mkViewModel {
  nodeMap : gmap string Node;
  selection : option Selection;
  dirtyNodes : gset string;
}.

#[global] Instance ViewModel_eq_dec : EqDecision ViewModel.
Proof. solve_decision. Defined.

(** Modelled from the spec: [cloneViewModel(view)] of [OutlineView] is not
    in the sources; "a new snapshot whose node mapping initially aliases
    every entry of [view]" "and whose Selection is a deep copy of [view]'s
    selection"; the dirty set is "reset at the start of each draft cycle". *)
Definition cloneViewModel (current : ViewModel) : ViewModel :=
  mkViewModel (nodeMap current) (selection current) ∅.

(** Modelled from the spec: [viewModel.hasDirtyNodes()] of [OutlineView] is
    not in the sources; whether "the draft has any dirty nodes". *)
Definition hasDirtyNodes (viewModel : ViewModel) : bool :=
  negb (bool_decide (dirtyNodes viewModel = ∅)).

(** Modelled from the spec: [viewModelHasDirtySelection(viewModel, editor)]
    of [OutlineView] is not in the sources; whether "the selection itself
    changed materially", against the selection of the current view model of
    the editor. *)
Definition viewModelHasDirtySelection (viewModel current : ViewModel) : bool :=
  negb (bool_decide (selection viewModel = selection current)).

End OutlineView.

(* ================================================================== *)
(** * [OutlineEditor.js] *)
(* ================================================================== *)

Module OutlineEditor.

Import OutlineView.

(** A reference to a view model object: its address in the store. *)
Abbreviation ViewModelRef := nat.

(** An update listener, by the order of its registration. *)
Abbreviation Listener := nat.

Section Host.

(** [React.Node], the payload of a node decorator. *)
Variable ReactNode : Type.

Record Editor := mkEditor {
  _editorElement : option nat;
  _viewModel : ViewModelRef;
  _pendingViewModel : option ViewModelRef;
  _isComposing : bool;
  _updateListeners : list Listener;
  _updateTimeStamp : Z;
  _nodeDecorators : gmap string ReactNode;
  _pendingNodeDecorators : option (gmap string ReactNode);
}.

(** A job of the microtask queue: [() => commitPendingUpdates(this)]. *)
Inductive Microtask := CommitPendingUpdates.

(** One call [listener(viewModel, nodeDecorators)]. *)
Record Notification := mkNotification {
  listener : Listener;
  notifiedViewModel : ViewModelRef;
  notifiedDecorators : gmap string ReactNode;
}.

(** The editor together with what it lives in: the store of view model
    objects, the microtask queue of the event loop, and the calls to
    update listeners made so far. *)
Record Runtime := mkRuntime {
  editor : Editor;
  store : list ViewModel;
  microtasks : list Microtask;
  notifications : list Notification;
}.

(** The parts of [OutlineView] and [OutlineSelection] that depend on the
    presentation surface or on registered plug-ins. *)

(** [createSelection(viewModel, editor)] *)
Variable createSelection : ViewModel -> Editor -> option Selection.

(** [applyTextTransforms(viewModel, editor)] *)
Variable applyTextTransforms : ViewModel -> Editor -> ViewModel.

(** [garbageCollectDetachedNodes(viewModel, editor)]: the collected
    view model and the new [_pendingNodeDecorators]. *)
Variable garbageCollectDetachedNodes :
  ViewModel -> Editor -> ViewModel * option (gmap string ReactNode).

Definition withEditor (e : Editor) (r : Runtime) : Runtime :=
  mkRuntime e (store r) (microtasks r) (notifications r).

Definition withPending (p : option ViewModelRef) (e : Editor) : Editor :=
  mkEditor (_editorElement e) (_viewModel e) p (_isComposing e)
           (_updateListeners e) (_updateTimeStamp e) (_nodeDecorators e)
           (_pendingNodeDecorators e).

Definition withTimeStamp (t : Z) (e : Editor) : Editor :=
  mkEditor (_editorElement e) (_viewModel e) (_pendingViewModel e)
           (_isComposing e) (_updateListeners e) t (_nodeDecorators e)
           (_pendingNodeDecorators e).

Definition withPendingDecorators (d : option (gmap string ReactNode))
    (e : Editor) : Editor :=
  mkEditor (_editorElement e) (_viewModel e) (_pendingViewModel e)
           (_isComposing e) (_updateListeners e) (_updateTimeStamp e)
           (_nodeDecorators e) d.

(** The view model object behind a reference. *)
Definition deref (r : Runtime) (ref : ViewModelRef) : ViewModel :=
  default (mkViewModel ∅ None ∅) (store r !! ref).

(** [new ViewModel(...)]: a new object in the store. *)
Definition alloc (v : ViewModel) (r : Runtime) : ViewModelRef * Runtime :=
  (List.length (store r),
   mkRuntime (editor r) (store r ++ [v]) (microtasks r) (notifications r)).

(** A write to the fields of a view model object. *)
Definition assign (ref : ViewModelRef) (v : ViewModel) (r : Runtime) : Runtime :=
  mkRuntime (editor r) (<[ref := v]> (store r)) (microtasks r) (notifications r).

(** Modelled from the spec: [triggerUpdateListeners(editor)] of
    [OutlineView] is not in the sources; "synchronously invoke every
    registered update listener with (newCurrentView, activeDecorators)". *)
Definition triggerUpdateListeners (r : Runtime) : Runtime :=
  let e := editor r in
  mkRuntime e (store r) (microtasks r)
    (notifications r ++
     map (fun l => mkNotification l (_viewModel e) (_nodeDecorators e))
         (_updateListeners e)).

(** Modelled from the spec: [commitPendingUpdates(editor)] of
    [OutlineView] is not in the sources; the pending view model becomes
    the current one and no draft is pending any more, then "swap
    node-decorator buffer from pending to active, then synchronously
    invoke every registered update listener"; without a pending view model
    there is nothing to commit. *)
Definition commitPendingUpdates (r : Runtime) : Runtime :=
  let e := editor r in
  match _pendingViewModel e with
  | None => r
  | Some pendingViewModel =>
      let e' :=
        mkEditor (_editorElement e) pendingViewModel None (_isComposing e)
                 (_updateListeners e) (_updateTimeStamp e)
                 (default (_nodeDecorators e) (_pendingNodeDecorators e))
                 None in
      triggerUpdateListeners (withEditor e' r)
  end.

(** [Promise.resolve().then(job)] *)
Definition queueMicrotask (job : Microtask) (r : Runtime) : Runtime :=
  mkRuntime (editor r) (store r) (microtasks r ++ [job]) (notifications r).

Definition runMicrotask (job : Microtask) (r : Runtime) : Runtime :=
  match job with
  | CommitPendingUpdates => commitPendingUpdates r
  end.

(** The event loop reaches its next scheduling point: the queued jobs
    run in order. *)
Definition runMicrotasks (r : Runtime) : Runtime :=
  fold_left (fun r' job => runMicrotask job r') (microtasks r)
    (mkRuntime (editor r) (store r) [] (notifications r)).

(** [createEditor()], with the root node in the node map.  [createRoot]
    and the constructor of [ViewModel] are not in the sources: a new view
    model has no selection and no dirty node. *)
Definition createEditor : Runtime :=
  let root := mkNode RootType "root" None noFlags [] "" 0 "" in
  let viewModel := mkViewModel (<["root" := root]> ∅) None ∅ in
  mkRuntime (mkEditor None 0%nat None false [] 0 ∅ None) [viewModel] [] [].

(** [set.add(x)] on a [Set], whose elements are kept in the order of
    their insertion: an element that is in the set is not added again. *)
Definition setAdd (x : Listener) (set : list Listener) : list Listener :=
  if bool_decide (x ∈ set) then set else set ++ [x].

(** [editor.addUpdateListener(onChange)], without the function it
    returns. *)
Definition addUpdateListener (onChange : Listener) (r : Runtime) : Runtime :=
  let e := editor r in
  withEditor
    (mkEditor (_editorElement e) (_viewModel e) (_pendingViewModel e)
              (_isComposing e) (setAdd onChange (_updateListeners e))
              (_updateTimeStamp e) (_nodeDecorators e)
              (_pendingNodeDecorators e)) r.

(** [editor.getViewModel()] *)
Definition getViewModel (r : Runtime) : ViewModelRef := _viewModel (editor r).

(** [editor.setViewModel(viewModel)] *)
Definition setViewModel (viewModel : ViewModelRef) (r : Runtime) : Runtime :=
  let r1 :=
    match _pendingViewModel (editor r) with
    | Some _ => commitPendingUpdates r
    | None => r
    end in
  commitPendingUpdates (withEditor (withPending (Some viewModel) (editor r1)) r1).

(** [this._updateTimeStamp !== timeStamp], where [timeStamp] may be
    [undefined]. *)
Definition timeStampDiffers (e : Editor) (timeStamp : option Z) : bool :=
  match timeStamp with
  | Some t => negb (_updateTimeStamp e =? t)
  | None => true
  end.

(** The work on the draft after the callback has returned: transforms
    and garbage collection, when the draft has dirty nodes. *)
Definition finishDraft (draft : ViewModel) (e : Editor)
    : ViewModel * option (gmap string ReactNode) :=
  if hasDirtyNodes draft then
    garbageCollectDetachedNodes (applyTextTransforms draft e) e
  else (draft, _pendingNodeDecorators e).

(** The draft as the callback receives it: a draft that was just cloned
    first gets its selection from [createSelection]. *)
Definition openDraft (viewModelWasCloned : bool) (draft : ViewModel)
    (e : Editor) : ViewModel :=
  if viewModelWasCloned then
    mkViewModel (nodeMap draft) (createSelection draft e) (dirtyNodes draft)
  else draft.

(** The function that [update] hands to [enterViewModelScope], on the
    pending view model.  [enterViewModelScope] is not in the sources: it
    calls the function with the view model as the active one. *)
Definition updateScope (callbackFn : ViewModel -> ViewModel)
    (viewModelWasCloned : bool) (currentPendingViewModel : ViewModelRef)
    (r : Runtime) : Runtime :=
  let draft := openDraft viewModelWasCloned
                 (deref r currentPendingViewModel) (editor r) in
  let '(draft', decorators) := finishDraft (callbackFn draft) (editor r) in
  assign currentPendingViewModel draft'
    (withEditor (withPendingDecorators decorators (editor r)) r).

(** The head of [update]: a pending draft of another time stamp is
    committed, and a given time stamp is recorded.  Returns the local
    [pendingViewModel]. *)
Definition commitOutdatedDraft (timeStamp : option Z) (r0 : Runtime)
    : option ViewModelRef * Runtime :=
  let pendingViewModel := _pendingViewModel (editor r0) in
  if timeStampDiffers (editor r0) timeStamp then
    let '(pendingViewModel', r) :=
      match pendingViewModel with
      | Some _ => (None, commitPendingUpdates r0)
      | None => (pendingViewModel, r0)
      end in
    match timeStamp with
    | Some t => (pendingViewModel', withEditor (withTimeStamp t (editor r)) r)
    | None => (pendingViewModel', r)
    end
  else (pendingViewModel, r0).

(** Without a pending view model the current one is cloned.  Returns
    the pending view model and [viewModelWasCloned]. *)
Definition ensureDraft (pendingViewModel : option ViewModelRef) (r1 : Runtime)
    : ViewModelRef * bool * Runtime :=
  match pendingViewModel with
  | None =>
      let '(ref, r) :=
        alloc (cloneViewModel (deref r1 (_viewModel (editor r1)))) r1 in
      (ref, true, withEditor (withPending (Some ref) (editor r)) r)
  | Some ref => (ref, false, r1)
  end.

(** [shouldUpdate] *)
Definition shouldUpdate (pendingViewModel : ViewModelRef) (r : Runtime) : bool :=
  hasDirtyNodes (deref r pendingViewModel)
  || viewModelHasDirtySelection (deref r pendingViewModel)
       (deref r (_viewModel (editor r))).

(** The tail of [update]: drop the draft, commit it now, or leave its
    commit to a microtask. *)
Definition settleDraft (timeStamp : option Z) (pendingViewModel : ViewModelRef)
    (viewModelWasCloned : bool) (r3 : Runtime) : bool * Runtime :=
  if negb (shouldUpdate pendingViewModel r3) then
    (false, withEditor (withPending None (editor r3)) r3)
  else
    match timeStamp with
    | None => (true, commitPendingUpdates r3)
    | Some _ =>
        if viewModelWasCloned then (true, queueMicrotask CommitPendingUpdates r3)
        else (true, r3)
    end.

(** [editor.update(callbackFn, timeStamp?)].  The callback works on the
    draft it is handed and returns. *)
Definition update (callbackFn : ViewModel -> ViewModel)
    (timeStamp : option Z) (r0 : Runtime) : bool * Runtime :=
  let '(pendingViewModel1, r1) := commitOutdatedDraft timeStamp r0 in
  let '(pendingViewModel, viewModelWasCloned, r2) :=
    ensureDraft pendingViewModel1 r1 in
  let r3 := updateScope callbackFn viewModelWasCloned pendingViewModel r2 in
  settleDraft timeStamp pendingViewModel viewModelWasCloned r3.

(** *** Vocabulary of the properties *)

(** The callback "marks no node dirty". *)
Definition marksNoNodeDirty (callbackFn : ViewModel -> ViewModel) : Prop :=
  forall v, dirtyNodes (callbackFn v) = dirtyNodes v.

(** The callback "leaves selection unchanged". *)
Definition keepsSelection (callbackFn : ViewModel -> ViewModel) : Prop :=
  forall v, selection (callbackFn v) = selection v.

(** The surface selection is the selection of the view model. *)
Definition surfaceSelectionIs (v : ViewModel) : Prop :=
  forall e, createSelection (cloneViewModel v) e = selection v.

(** The callback "does not materially change the selection" of a draft
    cloned from [current]: the draft it returns, opened on whatever
    editor, has no dirty selection against [current]. *)
Definition leavesSelectionOf (callbackFn : ViewModel -> ViewModel)
    (current : ViewModel) : Prop :=
  forall e,
    viewModelHasDirtySelection
      (callbackFn (openDraft true (cloneViewModel current) e)) current
    = false.

(** The draft of a call of [update] as the callback leaves it: the
    pending view model of the call (the clone of the current view model
    when no draft is pending, with the selection that [createSelection]
    reads for it), handed to the callback. *)
Definition draftAfterCallback (callbackFn : ViewModel -> ViewModel)
    (timeStamp : option Z) (r0 : Runtime) : ViewModel :=
  let '(pendingViewModel1, r1) := commitOutdatedDraft timeStamp r0 in
  let '(pendingViewModel, viewModelWasCloned, r2) :=
    ensureDraft pendingViewModel1 r1 in
  callbackFn (openDraft viewModelWasCloned (deref r2 pendingViewModel)
                (editor r2)).

(** The states an editor can be in: its view models are objects of the
    store, a draft is an object of its own, and the commit of a draft
    that outlives a call of [update] is queued. *)
Definition wellFormed (r : Runtime) : Prop :=
  (_viewModel (editor r) < List.length (store r))%nat
  /\ match _pendingViewModel (editor r) with
     | Some p => (p < List.length (store r))%nat
                 /\ p <> _viewModel (editor r)
                 /\ In CommitPendingUpdates (microtasks r)
     | None => True
     end.

(** The calls [listener(viewModel, decorators)] of one commit. *)
Definition notify (e : Editor) : list Notification :=
  map (fun l => mkNotification l (_viewModel e) (_nodeDecorators e))
      (_updateListeners e).

(** A draft [d] is pending and is an object of its own. *)
Definition drafting (d : ViewModelRef) (r : Runtime) : Prop :=
  _pendingViewModel (editor r) = Some d
  /\ (d < List.length (store r))%nat
  /\ d <> _viewModel (editor r)
  /\ (_viewModel (editor r) < List.length (store r))%nat.

(** The draft a call of [update] works on: the pending one, unless it
    is committed first or there is none; then a new object. *)
Definition draftOf (timeStamp : option Z) (r : Runtime) : ViewModelRef :=
  match fst (commitOutdatedDraft timeStamp r) with
  | Some p => p
  | None => List.length (store r)
  end.

(** Whether a call of [update] clones the current view model. *)
Definition clones (timeStamp : option Z) (r : Runtime) : bool :=
  match fst (commitOutdatedDraft timeStamp r) with
  | Some _ => false
  | None => true
  end.

End Host.

End OutlineEditor.

(* ================================================================== *)
(** * Vocabulary of the properties *)
(* ================================================================== *)

(** The selection with the bit of the pending format flipped. *)
Definition toggled (formatBit : Z) (s : Selection) : Selection :=
  mkSelection (anchor s) (focus s) (Z.lxor (textFormat s) formatBit).

(** A text node of the normal mutability class: it is edited in place. *)
Definition plainText (n : Node) : Prop :=
  isTextNode n = true /\ isSegmented n = false /\ isImmutable n = false
  /\ isInert n = false /\ canInsertTextAtEnd n = true.

(** The text that a splice of [t] over [delCount] characters at [offset]
    gives. *)
Definition splicedText (offset delCount : Z) (t old : string) : string :=
  sliceStr 0 offset old +:+ t +:+ sliceFrom (offset + delCount) old.

(** A string with every whitespace character replaced by one space. *)
Fixpoint singleSpaced (s : string) : string :=
  match s with
  | EmptyString => ""
  | String c rest =>
      String (if isWhitespace c then " "%char else c) (singleSpaced rest)
  end.

Fixpoint hasNoWhitespace (s : string) : bool :=
  match s with
  | EmptyString => true
  | String c rest => negb (isWhitespace c) && hasNoWhitespace rest
  end.

(** The text that [removeSegment] leaves of a text. *)
Definition withoutSegment (isBackward : bool) (t : string) : string :=
  joinSpace (dropSegment isBackward (splitWhitespace t)).

(** The extended selection has entered the segmented node of its focus (of
    text size [size]): it lies within the node, or the focus has left the
    edge of the node that faces the caret. *)
Definition entersSegmentedNode (isBackward : bool) (sel : Selection) (size : Z)
  : Prop :=
  (type (anchor sel) = text /\ key (anchor sel) = key (focus sel))
  \/ (isBackward = true /\ offset (focus sel) <> size)
  \/ (isBackward = false /\ offset (focus sel) <> 0).

(* ================================================================== *)
(** * Example documents *)
(* ================================================================== *)

Definition rootOf (children : list NodeKey) : Node :=
  mkNode RootType "root" None noFlags children "" 0 "".

Definition paragraphOf (k : NodeKey) (children : list NodeKey) : Node :=
  mkNode BlockType k (Some "root") noFlags children "" 0 "".

Definition leafOf (k parent : NodeKey) (flags : Flags) (t : string) : Node :=
  mkNode TextType k (Some parent) flags [] t 0 "".

Definition worldOf (nodes : list Node) (sel : Selection) : World :=
  mkWorld (list_to_map (map (fun n => (__key n, n)) nodes)) sel ∅ 0 ∅.

Definition caretAt (k : NodeKey) (o : Z) : Selection :=
  mkSelection (mkPoint k o text) (mkPoint k o text) 0.

(** Root -> Paragraph -> Text("ab"), the caret at offset 1. *)
Definition scenario2 : World :=
  worldOf [rootOf ["p"]; paragraphOf "p" ["t"]; leafOf "t" "p" noFlags "ab"]
          (caretAt "t" 1).

(** Root -> Paragraph -> Text("foo") + Text("bar"), selected from offset 1
    of the first leaf to offset 2 of the second. *)
Definition scenario3 : World :=
  worldOf [rootOf ["p"]; paragraphOf "p" ["foo"; "bar"];
           leafOf "foo" "p" noFlags "foo"; leafOf "bar" "p" noFlags "bar"]
          (mkSelection (mkPoint "foo" 1 text) (mkPoint "bar" 2 text) 0).

Definition composingFlags : Flags := mkFlags false false false true false.

Definition segmentedFlags : Flags := mkFlags false true false false false.

(** The document of scenario 2 during a composition in its leaf. *)
Definition composingLeaf : World :=
  worldOf [rootOf ["p"]; paragraphOf "p" ["t"]; leafOf "t" "p" composingFlags "ab"]
          (caretAt "t" 1).

(** The document of scenario 3 during a composition in its first leaf. *)
Definition composingLeaves : World :=
  worldOf [rootOf ["p"]; paragraphOf "p" ["foo"; "bar"];
           leafOf "foo" "p" composingFlags "foo"; leafOf "bar" "p" noFlags "bar"]
          (mkSelection (mkPoint "foo" 1 text) (mkPoint "bar" 2 text) 0).

(** A segmented leaf "John Smith" followed by a plain leaf, with the caret
    at the start of the plain leaf. *)
Definition mention : World :=
  worldOf [rootOf ["p"]; paragraphOf "p" ["m"; "x"];
           leafOf "m" "p" segmentedFlags "John Smith"; leafOf "x" "p" noFlags "x"]
          (caretAt "x" 0).

(** The document [mention] with the selection extended backward by one
    character: from the caret into the segmented leaf. *)
Definition mentionExtended : World :=
  setSelection (mkSelection (mkPoint "x" 0 text) (mkPoint "m" 9 text) 0) mention.

(** A segmented leaf "a b c" with the caret behind its first segment. *)
Definition insideSegments : World :=
  worldOf [rootOf ["p"]; paragraphOf "p" ["m"];
           leafOf "m" "p" segmentedFlags "a b c"]
          (caretAt "m" 1).

(** A surface for [insideSegments]: extending the caret backward by a
    character gives the range over the first character of the leaf, with
    the surface anchor at the end of the range. *)
Definition firstCharacterOfSegments (collapse isBackward : bool)
    (g : Granularity) (w : World) : option (Point * Point * bool) :=
  Some (mkPoint "m" 0 text, mkPoint "m" 1 text, false).

(** A segmented leaf "John Smith " that ends with a space, followed by a
    plain leaf, with the caret at the start of the plain leaf. *)
Definition mentionWithSpace : World :=
  worldOf [rootOf ["p"]; paragraphOf "p" ["m"; "x"];
           leafOf "m" "p" segmentedFlags "John Smith "; leafOf "x" "p" noFlags "x"]
          (caretAt "x" 0).

(** A surface for [mentionWithSpace]: extending the caret backward by a
    character gives the range from offset 10 of the segmented leaf to the
    caret, with the surface anchor at the end of the range. *)
Definition lastCharacterOfMention (collapse isBackward : bool)
    (g : Granularity) (w : World) : option (Point * Point * bool) :=
  Some (mkPoint "m" 10 text, mkPoint "x" 0 text, false).

(** A surface for the document [mention]: extending the caret backward by
    a character gives the range from offset 9 of the segmented leaf to the
    caret, with the surface anchor at the end of the range; there are no
    decorators. *)
Module ExampleSurface.

Definition nativeModify (collapse isBackward : bool) (g : Granularity)
    (w : World) : option (Point * Point * bool) :=
  Some (mkPoint "m" 9 text, mkPoint "x" 0 text, false).

Definition getPossibleDecoratorNode (p : Point) (isBackward : bool)
    : M (option NodeKey) := ret None.

Definition doesContainGrapheme (t : string) : bool := false.

Definition collapseAtStart (k : NodeKey) : M bool := ret false.

End ExampleSurface.

(** A host without transforms and decorators whose surface selection is
    the selection of the view model, with one listener. *)
Module ExampleHost.

Import OutlineView OutlineEditor.

Definition createSelection (v : ViewModel) (e : Editor unit)
    : option Selection := selection v.

Definition applyTextTransforms (v : ViewModel) (e : Editor unit)
    : ViewModel := v.

Definition garbageCollectDetachedNodes (v : ViewModel) (e : Editor unit)
    : ViewModel * option (gmap string unit) :=
  (v, _pendingNodeDecorators unit e).

Definition update :=
  OutlineEditor.update unit createSelection applyTextTransforms
    garbageCollectDetachedNodes.

(** A callback that writes the root node. *)
Definition touchRoot (v : ViewModel) : ViewModel :=
  mkViewModel (nodeMap v) (selection v) ({["root"]} ∪ dirtyNodes v).

(** A surface on which the caret stands in the root, whatever the view
    model holds. *)
Definition caretOnSurface (v : ViewModel) (e : Editor unit)
    : option Selection :=
  Some (mkSelection (mkPoint "root" 0 block) (mkPoint "root" 0 block) 0).

(** A callback that does nothing. *)
Definition nothing (v : ViewModel) : ViewModel := v.

(** A new editor with one listener. *)
Definition fresh : Runtime unit :=
  addUpdateListener unit 0%nat (createEditor unit).

(** The editor after an update under time stamp 1 has written the root:
    its draft is pending. *)
Definition drafted : Runtime unit := snd (update touchRoot (Some 1) fresh).

End ExampleHost.

(* ================================================================== *)
(** * The other methods of [OutlineEditor.js] *)
(* ================================================================== *)

Module EditorMethods.

Import OutlineView OutlineEditor.

(** An element of the presentation surface, by its identity. *)
Abbreviation HTMLElement := nat.

(** The node classes that the constructor registers, and the classes that
    [addNodeType] is given. *)
Inductive NodeClass :=
| TextNodeClass
| RootNodeClass
| ParagraphNodeClass
| ListItemNodeClass
| CustomNodeClass (name : string).

(** The fields [_keyToDOMMap] and [_registeredNodeTypes] of the editor. *)
Record Registries := mkRegistries {
  _keyToDOMMap : gmap string HTMLElement;
  _registeredNodeTypes : gmap string NodeClass;
}.

(** The two maps as the constructor sets them up. *)
Definition newRegistries : Registries :=
  mkRegistries ∅
    (<["listitem" := ListItemNodeClass]>
       (<["paragraph" := ParagraphNodeClass]>
          (<["root" := RootNodeClass]>
             (<["text" := TextNodeClass]> ∅)))).

(** [editor.addNodeType(nodeType, klass)], without the function it
    returns. *)
Definition addNodeType (nodeType : string) (klass : NodeClass)
    (g : Registries) : Registries :=
  mkRegistries (_keyToDOMMap g) (<[nodeType := klass]> (_registeredNodeTypes g)).

(** The function that [addNodeType(nodeType, klass)] returns:
    [this._registeredNodeTypes.delete(nodeType)]. *)
Definition removeNodeType (nodeType : string) (g : Registries) : Registries :=
  mkRegistries (_keyToDOMMap g) (delete nodeType (_registeredNodeTypes g)).

(** [editor.getElementByKey(key)]; the right injection is the message of
    the error thrown. *)
Definition getElementByKey (key : NodeKey) (g : Registries)
    : HTMLElement + string :=
  match _keyToDOMMap g !! key with
  | None => inr ("getElementByKey failed for key " +:+ key)
  | Some element => inl element
  end.

Section Host.

Variable ReactNode : Type.

Local Abbreviation Runtime := (Runtime ReactNode).
Local Abbreviation Editor := (Editor ReactNode).

Definition withUpdateListeners (ls : list Listener) (e : Editor) : Editor :=
  mkEditor _ (_editorElement _ e) (_viewModel _ e) (_pendingViewModel _ e)
           (_isComposing _ e) ls (_updateTimeStamp _ e) (_nodeDecorators _ e)
           (_pendingNodeDecorators _ e).

Definition withNodeDecorators (d : gmap string ReactNode) (e : Editor) : Editor :=
  mkEditor _ (_editorElement _ e) (_viewModel _ e) (_pendingViewModel _ e)
           (_isComposing _ e) (_updateListeners _ e) (_updateTimeStamp _ e) d
           (_pendingNodeDecorators _ e).

Definition withEditorElement (el : option HTMLElement) (e : Editor) : Editor :=
  mkEditor _ el (_viewModel _ e) (_pendingViewModel _ e)
           (_isComposing _ e) (_updateListeners _ e) (_updateTimeStamp _ e)
           (_nodeDecorators _ e) (_pendingNodeDecorators _ e).

(** The function that [addUpdateListener(onChange)] returns:
    [this._updateListeners.delete(onChange)]. *)
Definition removeUpdateListener (onChange : Listener) (r : Runtime) : Runtime :=
  withEditor _
    (withUpdateListeners
       (List.filter (fun l => negb (bool_decide (l = onChange)))
                    (_updateListeners _ (editor _ r)))
       (editor _ r)) r.

(** [editor.addNodeDecorator(key, decorator)] *)
Definition addNodeDecorator (key : NodeKey) (decorator : ReactNode)
    (r : Runtime) : Runtime :=
  let nodeDecorators := <[key := decorator]> (_nodeDecorators _ (editor _ r)) in
  let r1 := withEditor _ (withNodeDecorators nodeDecorators (editor _ r)) r in
  match _pendingViewModel _ (editor _ r1) with
  | None => triggerUpdateListeners _ r1
  | Some _ => r1
  end.

(** [editor.getNodeDecorators()] *)
Definition getNodeDecorators (r : Runtime) : gmap string ReactNode :=
  _nodeDecorators _ (editor _ r).

(** [editor.getEditorElement()] *)
Definition getEditorElement (r : Runtime) : option HTMLElement :=
  _editorElement _ (editor _ r).

(** [editor.setEditorElement(editorElement)] *)
Definition setEditorElement (editorElement : option HTMLElement)
    (r : Runtime) (g : Registries) : Runtime * Registries :=
  let r1 := withEditor _ (withEditorElement editorElement (editor _ r)) r in
  match editorElement with
  | None =>
      (r1, mkRegistries (delete "root" (_keyToDOMMap g)) (_registeredNodeTypes g))
  | Some element =>
      let g1 := mkRegistries (<["root" := element]> (_keyToDOMMap g))
                             (_registeredNodeTypes g) in
      match _pendingViewModel _ (editor _ r1) with
      | Some _ =>
          (commitPendingUpdates _
             (withEditor _ (withPending _ None (editor _ r1)) r1), g1)
      | None => (r1, g1)
      end
  end.

Variable createSelection : ViewModel -> Editor -> option Selection.
Variable applyTextTransforms : ViewModel -> Editor -> ViewModel.
Variable garbageCollectDetachedNodes :
  ViewModel -> Editor -> ViewModel * option (gmap string ReactNode).

(** The states of an editor that its methods lead to from
    [createEditor()], with the runs of the microtask queue in between. *)
Inductive reachable : Runtime -> Prop :=
| reach_createEditor : reachable (createEditor _)
| reach_addUpdateListener onChange r :
    reachable r -> reachable (addUpdateListener _ onChange r)
| reach_removeUpdateListener onChange r :
    reachable r -> reachable (removeUpdateListener onChange r)
| reach_addNodeDecorator key decorator r :
    reachable r -> reachable (addNodeDecorator key decorator r)
| reach_update callbackFn timeStamp r :
    reachable r ->
    reachable (snd (update _ createSelection applyTextTransforms
                      garbageCollectDetachedNodes callbackFn timeStamp r))
| reach_runMicrotasks r :
    reachable r -> reachable (runMicrotasks _ r).

End Host.

End EditorMethods.

(* ================================================================== *)
(** * The other helpers of [OutlineSelectionHelpers.js] *)
(* ================================================================== *)

(** ** Reading styles *)

(** The value of a property that the object has itself, or [undefined]. *)
Fixpoint getProperty (styleProperty : string) (styles : list (string * string))
  : option string :=
  match styles with
  | [] => None
  | (style, value) :: rest =>
      if bool_decide (style = styleProperty) then Some value
      else getProperty styleProperty rest
  end.

(** What a read [styles[styleProperty]] gives: a string of the style
    object, or the object or function that [Object.prototype] holds under
    the name, by its identity. *)
Inductive StyleValue :=
| StringValue (value : string)
| ObjectValue (object : nat).

#[global] Instance StyleValue_eq_dec : EqDecision StyleValue.
Proof. solve_decision. Defined.

Section StyleReaders.

(** [Object.prototype[name]]: what every style object inherits under a
  name such as [constructor], [toString] or [hasOwnProperty].  These are
  functions and objects, so values that are truthy and no strings;
  [None] for a name that [Object.prototype] does not have. *)
Variable prototypeProperty : string -> option nat.

(** [styles[styleProperty]]: the property of the object itself, else the
  one of [Object.prototype], else [undefined]. *)
Definition readProperty (styleProperty : string) (styles : list (string * string))
: option StyleValue :=
match getProperty styleProperty styles with
| Some value => Some (StringValue value)
| None =>
    match prototypeProperty styleProperty with
    | Some object => Some (ObjectValue object)
    | None => None
    end
end.

(** [value || defaultValue]: the empty string and [undefined] are falsy. *)
Definition orDefault (value : option StyleValue) (defaultValue : string)
: StyleValue :=
match value with
| Some (StringValue v) =>
    if bool_decide (v = "") then StringValue defaultValue else StringValue v
| Some (ObjectValue object) => ObjectValue object
| None => StringValue defaultValue
end.

(** [getNodeStyleValueForProperty(node, styleProperty, defaultValue)] *)
Definition getNodeStyleValueForProperty (node : NodeKey)
  (styleProperty defaultValue : string) : M StyleValue :=
let* css := getStyle node in
let* styleObject := getStyleObjectFromCSS css in
match styleObject with
| Some styles => ret (orDefault (readProperty styleProperty styles) defaultValue)
| None => ret (StringValue defaultValue)
end.

(** The loop of [getSelectionStyleValueForProperty] over the selected
  nodes, from the value [styleValue] found so far. *)
Fixpoint styleValueOfNodes (nodes : list NodeKey)
  (styleProperty defaultValue : string) (styleValue : option StyleValue)
: M (option StyleValue) :=
match nodes with
| [] => ret styleValue
| node :: rest =>
    let* isText := nodeIs isTextNode node in
    if isText then
      let* nodeStyleValue :=
        getNodeStyleValueForProperty node styleProperty defaultValue in
      match styleValue with
      | None =>
          styleValueOfNodes rest styleProperty defaultValue (Some nodeStyleValue)
      | Some value =>
          if negb (bool_decide (value = nodeStyleValue)) then
            (* multiple text nodes are in the selection and they don't all
               have the same font size. *)
            ret (Some (StringValue "")) (* break *)
          else styleValueOfNodes rest styleProperty defaultValue styleValue
      end
    else styleValueOfNodes rest styleProperty defaultValue styleValue
end.

(** [getSelectionStyleValueForProperty(selection, styleProperty,
  defaultValue = '')] *)
Definition getSelectionStyleValueForProperty (styleProperty defaultValue : string)
: M StyleValue :=
let* nodes := getNodes in
let* styleValue := styleValueOfNodes nodes styleProperty defaultValue None in
ret (default (StringValue defaultValue) styleValue).

(** The value of a style property of a node: the one that the memoized
  style object of the style string of the node gives, else the
  default. *)
Definition styleValueIn (w : World) (styleProperty defaultValue : string)
  (node : NodeKey) : StyleValue :=
match nodeMap w !! node with
| Some n =>
    match cssToStyles w !! __style n with
    | Some styles => orDefault (readProperty styleProperty styles) defaultValue
    | None => StringValue defaultValue
    end
| None => StringValue defaultValue
end.

End StyleReaders.

(** The names of the properties of [Object.prototype] in ECMAScript. *)
Definition objectPrototypeNames : list string :=
  ["constructor"; "__defineGetter__"; "__defineSetter__"; "hasOwnProperty";
   "__lookupGetter__"; "__lookupSetter__"; "isPrototypeOf";
   "propertyIsEnumerable"; "toString"; "valueOf"; "__proto__";
   "toLocaleString"].

(** [Object.prototype] with these properties, each an object of its own. *)
Definition standardPrototype (name : string) : option nat :=
  let i := indexOf name objectPrototypeNames in
  if i <? 0 then None else Some (Z.to_nat i).

(** *** Vocabulary *)

(** Every style string that the memo knows is the serialization of the
    style object that the memo keeps for it. *)
Definition memoConsistent (w : World) : Prop :=
  forall css styles,
    cssToStyles w !! css = Some styles -> getCSSFromStyleObject styles = css.

(** The text nodes among some nodes. *)
Definition textNodesIn (w : World) (nodes : list NodeKey) : list NodeKey :=
  List.filter (fun k => match nodeMap w !! k with
                        | Some n => isTextNode n
                        | None => false
                        end) nodes.

(** The one value that all of some values are; the empty string when they
    differ; the default when there is none. *)
Definition commonValue (values : list StyleValue) (defaultValue : string)
  : StyleValue :=
  match values with
  | [] => StringValue defaultValue
  | v :: rest =>
      if forallb (fun x => bool_decide (v = x)) rest then v else StringValue ""
  end.

(** The value that the loop ends with, from the value found so far. *)
Fixpoint styleValueOfValues (values : list StyleValue)
    (styleValue : option StyleValue) : option StyleValue :=
  match values with
  | [] => styleValue
  | v :: rest =>
      match styleValue with
      | None => styleValueOfValues rest (Some v)
      | Some value =>
          if bool_decide (value = v) then styleValueOfValues rest styleValue
          else Some (StringValue "")
      end
  end.

(** The style object that [patchNodeStyle] gives a node. *)
Definition patchedStyles (w : World) (n : Node) (patch : list (string * string))
  : list (string * string) :=
  match cssToStyles w !! __style n with
  | Some prev => spread prev patch
  | None => patch
  end.

(** A selection that covers the text of the node [n] exactly, in either
    direction. *)
Definition coversNode (sel : Selection) (k : NodeKey) (n : Node) : Prop :=
  __text n <> ""
  /\ ((anchor sel = mkPoint k 0 text /\ focus sel = mkPoint k (strlen (__text n)) text)
      \/ (anchor sel = mkPoint k (strlen (__text n)) text /\ focus sel = mkPoint k 0 text)).

(** Root -> Paragraph -> Text("ab"), with the whole text of the leaf
    selected. *)
Definition wholeLeaf : World :=
  worldOf [rootOf ["p"]; paragraphOf "p" ["t"]; leafOf "t" "p" noFlags "ab"]
          (mkSelection (mkPoint "t" 0 text) (mkPoint "t" 2 text) 0).


(** A text leaf of the paragraph ["p"] with a style string. *)
Definition styledLeaf (k : NodeKey) (t style : string) : Node :=
  mkNode TextType k (Some "p") noFlags [] t 0 style.

(** Root -> Paragraph -> Text("ab") + Text("cd"), both with the style
    string "color: red;", which the memo knows; selected from the start of
    the first leaf to the end of the second. *)
Definition redLeaves : World :=
  mkWorld (list_to_map [("root", rootOf ["p"]); ("p", paragraphOf "p" ["a"; "b"]);
                        ("a", styledLeaf "a" "ab" "color: red;");
                        ("b", styledLeaf "b" "cd" "color: red;")])
          (mkSelection (mkPoint "a" 0 text) (mkPoint "b" 2 text) 0) ∅ 0
          (<["color: red;" := [("color", "red")]]> ∅).
(** ** Editing within one text leaf *)

(** The state in which [spliceText] leaves a node and, with
    [restoreSelection], the selection. *)
Definition splicedWorld (w : World) (k : NodeKey) (n : Node)
    (offset delCount : Z) (t : string) : World :=
  setNodeMap (<[k := withText (splicedText offset delCount t (__text n)) n]> (nodeMap w))
    (markDirty k
       (setSelection
          (mkSelection (mkPoint k (offset + strlen t) text)
                       (mkPoint k (offset + strlen t) text)
                       (textFormat (selection w))) w)).

(** Root -> Paragraph -> Text("ab"), the first character selected. *)
Definition partOfLeaf : World :=
  worldOf [rootOf ["p"]; paragraphOf "p" ["t"]; leafOf "t" "p" noFlags "ab"]
          (mkSelection (mkPoint "t" 0 text) (mkPoint "t" 1 text) 0).

(** The same with the leaf immutable. *)
Definition immutableLeaf : World :=
  worldOf [rootOf ["p"]; paragraphOf "p" ["t"];
           leafOf "t" "p" (mkFlags true false false false false) "ab"]
          (mkSelection (mkPoint "t" 0 text) (mkPoint "t" 1 text) 0).

(** The same tree, both points of text type on the paragraph. *)
Definition textPointOnBlock : World :=
  worldOf [rootOf ["p"]; paragraphOf "p" ["t"]; leafOf "t" "p" noFlags "ab"]
          (mkSelection (mkPoint "p" 0 text) (mkPoint "p" 0 text) 0).

(** Root -> Paragraph -> Text("@ann", immutable) + Text("bc"), the caret at
    the end of the first leaf. *)
Definition afterMention : World :=
  worldOf [rootOf ["p"]; paragraphOf "p" ["m"; "t"];
           leafOf "m" "p" (mkFlags true false false false false) "@ann";
           leafOf "t" "p" noFlags "bc"]
          (caretAt "m" 4).

(** Root -> Paragraph -> Text(""), the caret in the leaf with the pending
    format [1]. *)
Definition emptyBoldLeaf : World :=
  worldOf [rootOf ["p"]; paragraphOf "p" ["t"]; leafOf "t" "p" noFlags ""]
          (mkSelection (mkPoint "t" 0 text) (mkPoint "t" 0 text) 1).

(** Root -> Paragraph -> Hashtag("#a") + Text("bc"), the caret at the start
    of the text. *)
Definition afterHashtag : World :=
  worldOf [rootOf ["p"]; paragraphOf "p" ["h"; "t"];
           mkNode HashtagType "h" (Some "p") noFlags [] "#a" 0 "";
           leafOf "t" "p" noFlags "bc"]
          (caretAt "t" 0).

(** The same tree, the caret at the end of the hashtag. *)
Definition atEndOfHashtag : World :=
  worldOf [rootOf ["p"]; paragraphOf "p" ["h"; "t"];
           mkNode HashtagType "h" (Some "p") noFlags [] "#a" 0 "";
           leafOf "t" "p" noFlags "bc"]
          (caretAt "h" 2).

(** The key that [createTextNode] gives the next node. *)
Definition nextKey (w : World) : NodeKey := pretty (keyCounter w).

(** Root -> Paragraph without children, the caret in the paragraph, the
    pending format [1]. *)
Definition emptyParagraph : World :=
  mkWorld (list_to_map [("root", rootOf ["p"]); ("p", paragraphOf "p" [])])
          (mkSelection (mkPoint "p" 0 block) (mkPoint "p" 0 block) 1) ∅ 7 ∅.

(** ** Moving the caret, deleting words and lines *)

Section SurfaceCommands.

(** The presentation surface, as in section [Surface]. *)
Variable nativeModify :
forall (collapse isBackward : bool) (granularity : Granularity),
  World -> option (Point * Point * bool).

(** [shared/getPossibleDecoratorNode(focus, isBackward)] *)
Variable getPossibleDecoratorNode : Point -> bool -> M (option NodeKey).

(** [moveCaretSelection(selection, isHoldingShift, isBackward, granularity)] *)
Definition moveCaretSelection (isHoldingShift isBackward : bool)
  (granularity : Granularity) : M unit :=
updateCaretSelectionForRange nativeModify getPossibleDecoratorNode
  isBackward granularity (negb isHoldingShift).

(** [deleteLineBackward(selection)] *)
Definition deleteLineBackward (fuel : nat) : M unit :=
let* collapsed := isCollapsed in
when collapsed
  (updateCaretSelectionForRange nativeModify getPossibleDecoratorNode
     true lineboundary false) ;;
removeText fuel.

(** [deleteLineForward(selection)] *)
Definition deleteLineForward (fuel : nat) : M unit :=
let* collapsed := isCollapsed in
when collapsed
  (updateCaretSelectionForRange nativeModify getPossibleDecoratorNode
     false lineboundary false) ;;
removeText fuel.

(** [deleteWordBackward(selection)] *)
Definition deleteWordBackward (fuel : nat) : M unit :=
let* collapsed := isCollapsed in
when collapsed
  (updateCaretSelectionForRange nativeModify getPossibleDecoratorNode
     true word false) ;;
removeText fuel.

(** [deleteWordForward(selection)] *)
Definition deleteWordForward (fuel : nat) : M unit :=
let* collapsed := isCollapsed in
when collapsed
  (updateCaretSelectionForRange nativeModify getPossibleDecoratorNode
     false word false) ;;
removeText fuel.

(** The four commands, each with the direction and the granularity it
  passes to the surface. *)
Definition deleteCommands : list ((nat -> M unit) * bool * Granularity) :=
[ (deleteLineBackward, true, lineboundary);
  (deleteLineForward, false, lineboundary);
  (deleteWordBackward, true, word);
  (deleteWordForward, false, word) ].

End SurfaceCommands.

(** The node has its parent in the draft, and its previous sibling, if it
    has one, is a node of the draft that is not a hashtag. *)
Definition noHashtagBefore (w : World) (k : NodeKey) (n : Node) : Prop :=
  exists pk p,
    __parent n = Some pk /\ nodeMap w !! pk = Some p /\ pk <> k
    /\ match nthZ (__children p) (indexOf k (__children p) - 1) with
       | Some sibling =>
           exists sn, nodeMap w !! sibling = Some sn /\ isHashtagNode sn = false
       | None => True
       end.

(** A surface on which the word before offset [1] of the leaf ["t"] is its
    first character. *)
Definition firstCharacterSurface (collapse isBackward : bool) (g : Granularity)
    (w : World) : option (Point * Point * bool) :=
  Some (mkPoint "t" 0 text, mkPoint "t" 1 text, false).

(** No decorator next to any point. *)
Definition noDecorator (p : Point) (isBackward : bool) : M (option NodeKey) :=
  ret None.

(** A surface without a range. *)
Definition noSurfaceRange (collapse isBackward : bool) (g : Granularity)
    (w : World) : option (Point * Point * bool) := None.

(** Example plug-ins: no text holds a grapheme, every block collapses at
    its start, the decorator ["d"] is next to every point. *)
Definition noGrapheme (t : string) : bool := false.

Definition blockCollapses (k : NodeKey) : M bool := ret true.

Definition decoratorAhead (p : Point) (isBackward : bool) : M (option NodeKey) :=
  ret (Some "d").

(** Root -> Paragraph -> Text("ab") + Decorator, the caret at the end of
    the leaf. *)
Definition leafThenDecorator : World :=
  worldOf [rootOf ["p"]; paragraphOf "p" ["t"; "d"];
           leafOf "t" "p" noFlags "ab";
           mkNode DecoratorType "d" (Some "p") noFlags [] "" 0 ""]
          (caretAt "t" 2).

(** Root -> Paragraph -> Text("ab"), the caret at the start of the leaf. *)
Definition caretAtStart : World :=
  worldOf [rootOf ["p"]; paragraphOf "p" ["t"]; leafOf "t" "p" noFlags "ab"]
          (caretAt "t" 0).

(** ** Inserting text with line breaks *)

(** [text.split(/\r?\n/)]: a line feed, with the carriage return before it
    if there is one, ends a part. *)
Fixpoint splitLinesFrom (cur s : string) : list string :=
  match s with
  | EmptyString => [cur]
  | String c rest =>
      if Ascii.eqb c "010" then cur :: splitLinesFrom "" rest
      else
        match rest with
        | String c' rest' =>
            if Ascii.eqb c "013" && Ascii.eqb c' "010"
            then cur :: splitLinesFrom "" rest'
            else splitLinesFrom (cur +:+ String c "") rest
        | EmptyString => splitLinesFrom (cur +:+ String c "") rest
        end
  end.

Definition splitLines (s : string) : list string := splitLinesFrom "" s.

(** Whether the text holds a line feed. *)
Fixpoint hasLineFeed (s : string) : bool :=
  match s with
  | EmptyString => false
  | String c rest => Ascii.eqb c "010" || hasLineFeed rest
  end.

Section RichText.

(** [createLineBreakNode()] of [OutlineLineBreakNode], which is not in the
  sources: a parameter. *)
Variable createLineBreakNode : M NodeKey.

(** [insertNodes(selection, nodes, selectStart)] of this file, which the
  properties below do not look into: a parameter. *)
Variable insertNodes : list NodeKey -> option bool -> M bool.

(** The loop of [insertRichText] over the parts: a text node for each part
  that is not empty, a line break node after each part but the last. *)
Fixpoint lineNodes (parts : list string) : M (list NodeKey) :=
match parts with
| [] => ret []
| part :: rest =>
    let* textNodes :=
      if negb (bool_decide (part = "")) then
        let* textNode := createTextNode part in ret [textNode]
      else ret [] in
    let* lineBreaks :=
      if negb (bool_decide (rest = [])) then
        let* lineBreak := createLineBreakNode in ret [lineBreak]
      else ret [] in
    let* more := lineNodes rest in
    ret (textNodes ++ lineBreaks ++ more)
end.

(** [insertRichText(selection, text)] *)
Definition insertRichText (fuel : nat) (t : string) : M unit :=
let parts := splitLines t in
if lengthZ parts =? 1 then insertText fuel t
else
  let* nodes := lineNodes parts in
  let* _inserted := insertNodes nodes None in
  ret tt.

End RichText.

(* ================================================================== *)
(** * Properties *)
(* ================================================================== *)

(** ** Running the update monad *)

Lemma bind_Ok {A B} (m : M A) (f : A -> M B) w a w' :
  m w = Ok a w' -> bind m f w = f a w'.
Proof. intros H. unfold bind. now rewrite H. Qed.

Lemma bind_Throw {A B} (m : M A) (f : A -> M B) w msg :
  m w = Throw msg -> bind m f w = Throw msg.
Proof. intros H. unfold bind. now rewrite H. Qed.

Lemma bind_assoc {A B C} (m : M A) (f : A -> M B) (g : B -> M C) w :
  bind (bind m f) g w = bind m (fun x => bind (f x) g) w.
Proof. unfold bind. now destruct (m w). Qed.

Lemma getLatest_Ok w k n :
  nodeMap w !! k = Some n -> getLatest k w = Ok n w.
Proof. intros H. unfold getLatest, getNodeByKey, gets, bind. now rewrite H. Qed.

Lemma getLatest_inv w k n w' :
  getLatest k w = Ok n w' -> w' = w /\ nodeMap w !! k = Some n.
Proof.
  unfold getLatest, getNodeByKey, gets, bind.
  destruct (nodeMap w !! k) as [n'|] eqn:E; unfold ret, throw; intros H.
  - inversion H; subst. auto.
  - discriminate.
Qed.

(** Runs are followed action by action: [mstep] lets the first action of a
    sequence return, from the facts about the state in the context;
    [mrew H] does so with the run [H] of the first action. *)
Create HintDb mrun.
#[local] Hint Resolve getLatest_Ok : mrun.

Ltac mprim := solve [ reflexivity | eauto with mrun ].

Ltac mnorm :=
  repeat lazymatch goal with
         | |- bind (bind ?m ?f) ?g ?w = _ => rewrite (bind_assoc m f g w)
         end.

Ltac mstep :=
  mnorm;
  lazymatch goal with
  | |- bind ?m ?f ?w = _ =>
      erewrite (bind_Ok m f w); [| mprim]; cbv beta iota zeta
  end.

Tactic Notation "mrew" constr(H) :=
  mnorm; rewrite (bind_Ok _ _ _ _ _ H); cbv beta iota zeta.

Lemma when_if (c : bool) (m : M unit) w wt :
  m w = Ok tt wt -> when c m w = Ok tt (if c then wt else w).
Proof. now destruct c. Qed.

(** ** Reading nodes *)

Lemma isTextNode_not_root n : isTextNode n = true -> isRootNode n = false.
Proof.
  unfold isTextNode, isRootNode. destruct (__type n); cbn; intros H;
    try discriminate; now apply bool_decide_eq_false_2.
Qed.

Lemma isTextNode_not_block n : isTextNode n = true -> isBlockNode n = false.
Proof. unfold isTextNode, isBlockNode. now destruct (__type n). Qed.

Lemma nodeIs_Ok f w k n : nodeMap w !! k = Some n -> nodeIs f k w = Ok (f n) w.
Proof. intros H. unfold nodeIs. mstep. reflexivity. Qed.

Lemma getTextContent_text w k n :
  nodeMap w !! k = Some n -> isTextNode n = true ->
  getTextContent k w = Ok (__text n) w.
Proof.
  intros H Ht. unfold getTextContent. mstep.
  unfold gets. cbn [textContentOf]. now rewrite H, Ht.
Qed.

Lemma getTextContent_total w k n :
  nodeMap w !! k = Some n -> exists t, getTextContent k w = Ok t w.
Proof. intros H. unfold getTextContent. eexists. mstep. reflexivity. Qed.

Lemma getTextContentSize_text w k n :
  nodeMap w !! k = Some n -> isTextNode n = true ->
  getTextContentSize k w = Ok (strlen (__text n)) w.
Proof.
  intros H Ht. unfold getTextContentSize.
  now rewrite (bind_Ok _ _ _ _ _ (getTextContent_text _ _ _ H Ht)).
Qed.

Lemma getTextContentSize_total w k n :
  nodeMap w !! k = Some n -> exists z, getTextContentSize k w = Ok z w.
Proof.
  intros H. destruct (getTextContent_total w k n H) as [t Ht].
  exists (strlen t). unfold getTextContentSize.
  now rewrite (bind_Ok _ _ _ _ _ Ht).
Qed.

Lemma getParent_Ok w k n :
  nodeMap w !! k = Some n -> getParent k w = Ok (__parent n) w.
Proof. intros H. unfold getParent. mstep. reflexivity. Qed.

Lemma getChildren_Ok w k n :
  nodeMap w !! k = Some n -> getChildren k w = Ok (__children n) w.
Proof. intros H. unfold getChildren. mstep. reflexivity. Qed.

Lemma getChildrenSize_Ok w k n :
  nodeMap w !! k = Some n ->
  getChildrenSize k w = Ok (lengthZ (__children n)) w.
Proof.
  intros H. unfold getChildrenSize.
  now rewrite (bind_Ok _ _ _ _ _ (getChildren_Ok _ _ _ H)).
Qed.

Lemma getParentKeys_total w k n :
  nodeMap w !! k = Some n -> exists l, getParentKeys k w = Ok l w.
Proof. intros H. unfold getParentKeys. eexists. mstep. reflexivity. Qed.

Lemma getWritable_Ok w k n :
  nodeMap w !! k = Some n -> getWritable k w = Ok n (markDirty k w).
Proof. intros H. unfold getWritable. mstep. mstep. reflexivity. Qed.

#[local] Hint Resolve getWritable_Ok getParent_Ok getChildren_Ok
  getChildrenSize_Ok : mrun.

Lemma nthZ_In {A} (l : list A) i x : nthZ l i = Some x -> In x l.
Proof.
  unfold nthZ. destruct (i <? 0); [discriminate|].
  intros H. apply list_elem_of_In. eapply list_elem_of_lookup_2. exact H.
Qed.

Lemma getNodes_Ok w : getNodes w = Ok (getNodesIn (nodeMap w) (selection w)) w.
Proof. reflexivity. Qed.

Lemma isCollapsed_Ok w : isCollapsed w = Ok (isCollapsedSel (selection w)) w.
Proof. reflexivity. Qed.

Lemma resolvePoint_text m p n :
  m !! key p = Some n -> type p = text -> resolvePoint m p = Some (key p).
Proof. intros H Ht. unfold resolvePoint. now rewrite H, Ht. Qed.

(** ** Siblings of an attached node, and its removal *)

Section Attached.

Context (w : World) (k pk : NodeKey) (n p : Node).
Context (Hn : nodeMap w !! k = Some n) (Hp : nodeMap w !! pk = Some p).
Context (Hparent : __parent n = Some pk).
Context (Hchildren : forall c, In c (__children p) -> is_Some (nodeMap w !! c)).

Lemma getPreviousSibling_Ok :
  getPreviousSibling k w
  = Ok (nthZ (__children p) (indexOf k (__children p) - 1)) w.
Proof.
  unfold getPreviousSibling. mstep. rewrite Hparent. mstep. reflexivity.
Qed.

Lemma getNextSibling_Ok :
  exists o, getNextSibling k w = Ok o w
            /\ (forall s, o = Some s -> In s (__children p)).
Proof.
  unfold getNextSibling.
  destruct (indexOf k (__children p) <? 0) eqn:E.
  - exists None. split; [|discriminate].
    mstep. rewrite Hparent. mstep. now rewrite E.
  - eexists. split.
    + mstep. rewrite Hparent. mstep. rewrite E. reflexivity.
    + intros s Hs. eapply nthZ_In; eassumption.
Qed.

Lemma getIndexWithinParent_Ok :
  getIndexWithinParent k w = Ok (indexOf k (__children p)) w.
Proof.
  unfold getIndexWithinParent. mstep. rewrite Hparent. mstep. reflexivity.
Qed.

Lemma optNodeIs_sibling f o :
  (forall s, o = Some s -> In s (__children p)) ->
  exists b, optNodeIs f o w = Ok b w.
Proof.
  intros H. destruct o as [s|]; [|now exists false].
  destruct (Hchildren s (H s eq_refl)) as [c Hc].
  exists (f c). unfold optNodeIs. now apply nodeIs_Ok.
Qed.

(** Re-pointing a selection point changes that point and nothing else. *)
Lemma moveSelectionPointToSibling_Ok which :
  exists pt, OutlineNode.moveSelectionPointToSibling which k pk w
             = Ok tt (setSelection (withPoint which pt (selection w)) w).
Proof.
  unfold OutlineNode.moveSelectionPointToSibling.
  mrew getPreviousSibling_Ok.
  destruct getNextSibling_Ok as (next & Hnext & Hin).
  mrew Hnext.
  set (prev := nthZ _ _).
  assert (Hprev : forall s, prev = Some s -> In s (__children p))
    by (intros s; apply nthZ_In).
  destruct (optNodeIs_sibling isTextNode prev Hprev) as [b1 H1].
  destruct (optNodeIs_sibling isBlockNode prev Hprev) as [b2 H2].
  destruct (optNodeIs_sibling isTextNode next Hin) as [b3 H3].
  destruct (optNodeIs_sibling isBlockNode next Hin) as [b4 H4].
  mrew H1. mrew H2. mrew H3. mrew H4.
  pose proof getIndexWithinParent_Ok as Hi.
  destruct prev as [s|] eqn:Eprev.
  - destruct (Hchildren s (Hprev s eq_refl)) as [c Hc].
    destruct b1; [|destruct b2].
    + destruct (getTextContentSize_total w s c Hc) as [z Hz].
      mrew Hz. eexists. reflexivity.
    + mrew (getChildrenSize_Ok _ _ _ Hc). eexists. reflexivity.
    + mrew Hi. eexists. reflexivity.
  - destruct next as [s|].
    + destruct b3; [|destruct b4]; try (eexists; reflexivity).
      mrew Hi. eexists. reflexivity.
    + mrew Hi. eexists. reflexivity.
Qed.

End Attached.

Lemma detachFromParent_Ok w k pk n p :
  nodeMap w !! k = Some n -> nodeMap w !! pk = Some p -> __parent n = Some pk ->
  detachFromParent k w
  = Ok tt (setNodeMap
             (<[__key n := withParent None n]>
                (<[__key p := withChildren (removeKey k (__children p)) p]>
                   (nodeMap w)))
             (markDirty pk (markDirty k w))).
Proof.
  intros Hn Hp Hpar. unfold detachFromParent. mstep. rewrite Hpar.
  mstep. mstep. reflexivity.
Qed.

(** The removal of a node under a parent whose children are in the map:
    the node loses its parent, the parent loses the child; the selection
    may move. *)
Lemma remove_attached w k pk n p :
  nodeMap w !! k = Some n -> nodeMap w !! pk = Some p -> __parent n = Some pk ->
  isRootNode n = false ->
  (forall c, In c (__children p) -> is_Some (nodeMap w !! c)) ->
  exists sel,
    remove k w
    = Ok tt (setNodeMap
               (<[__key n := withParent None n]>
                  (<[__key p := withChildren (removeKey k (__children p)) p]>
                     (nodeMap w)))
               (markDirty pk (markDirty k (setSelection sel w)))).
Proof.
  intros Hn Hp Hpar Hroot Hch.
  destruct (moveSelectionPointToSibling_Ok w k pk n p Hn Hp Hpar Hch TheAnchor)
    as [pa Ha].
  set (w1 := if bool_decide (key (anchor (selection w)) = k)
             then setSelection (withPoint TheAnchor pa (selection w)) w else w).
  assert (H1 : when (bool_decide (key (pointOf TheAnchor (selection w)) = k))
                 (OutlineNode.moveSelectionPointToSibling TheAnchor k pk) w
               = Ok tt w1)
    by exact (when_if _ _ _ _ Ha).
  assert (Hm1 : nodeMap w1 = nodeMap w).
  { unfold w1. now destruct (bool_decide (key (anchor (selection w)) = k)). }
  destruct (moveSelectionPointToSibling_Ok w1 k pk n p) with (which := TheFocus)
    as [pf Hf]; rewrite ?Hm1; auto.
  set (w2 := if bool_decide (key (focus (selection w1)) = k)
             then setSelection (withPoint TheFocus pf (selection w1)) w1 else w1).
  assert (H2 : when (bool_decide (key (pointOf TheFocus (selection w1)) = k))
                 (OutlineNode.moveSelectionPointToSibling TheFocus k pk) w1
               = Ok tt w2)
    by exact (when_if _ _ _ _ Hf).
  assert (Hm2 : nodeMap w2 = nodeMap w).
  { unfold w2. now destruct (bool_decide (key (focus (selection w1)) = k)). }
  exists (selection w2).
  unfold remove. mstep. rewrite Hroot.
  unfold OutlineNode.remove. mstep. rewrite Hpar. mstep.
  mrew H1. mstep. mrew H2.
  rewrite (detachFromParent_Ok w2 k pk n p) by (rewrite ?Hm2; auto).
  rewrite Hm2. f_equal.
  unfold setNodeMap, markDirty, setSelection. cbn. f_equal.
  all: unfold w2; destruct (bool_decide (key (focus (selection w1)) = k));
    unfold w1; destruct (bool_decide (key (anchor (selection w)) = k));
    reflexivity.
Qed.

(** ** Writing text nodes *)

Lemma select_text w k n a f :
  nodeMap w !! k = Some n -> isTextNode n = true ->
  select k a f w
  = Ok tt (setSelection
             (mkSelection (mkPoint k (default (strlen (__text n)) a) text)
                          (mkPoint k (default (strlen (__text n)) f) text)
                          (textFormat (selection w))) w).
Proof.
  intros H Ht. unfold select. mstep.
  rewrite (isTextNode_not_root _ Ht), (isTextNode_not_block _ Ht).
  unfold TextNode.select.
  now rewrite (bind_Ok _ _ _ _ _ (getTextContentSize_text _ _ _ H Ht)).
Qed.

Lemma setTextContent_Ok w k n t :
  nodeMap w !! k = Some n -> __key n = k -> isImmutableOrInert n = false ->
  TextNode.setTextContent k t w
  = Ok k (setNodeMap (<[k := withText t n]> (nodeMap w)) (markDirty k w)).
Proof.
  intros H Hk Hi. unfold TextNode.setTextContent.
  mstep. rewrite Hi. cbn [negb invariant]. mstep. mstep. mstep.
  unfold ret, setNodeMap, withText. cbn. now rewrite Hk.
Qed.

Lemma spliceText_Ok w k n o d t (restoreSelection : bool) :
  nodeMap w !! k = Some n -> __key n = k -> isImmutableOrInert n = false ->
  TextNode.spliceText k o d t restoreSelection w
  = Ok k (setNodeMap (<[k := withText (splicedText o d t (__text n)) n]> (nodeMap w))
            (markDirty k
               (if restoreSelection
                then setSelection
                       (mkSelection (mkPoint k (o + strlen t) text)
                                    (mkPoint k (o + strlen t) text)
                                    (textFormat (selection w))) w
                else w))).
Proof.
  intros H Hk Hi. unfold TextNode.spliceText.
  mstep. rewrite Hi. cbn [negb invariant]. mstep.
  destruct restoreSelection; cbn [when]; mstep;
    rewrite (setTextContent_Ok _ k n _); auto.
Qed.

(** What the closing steps of the splice do in a text node that is left
    with text: during composition the anchor offset loses the length of
    the inserted text, and that is all. *)
Lemma afterSplice_text w k n t :
  nodeMap w !! k = Some n -> isTextNode n = true -> __text n <> "" ->
  type (anchor (selection w)) = text ->
  afterSplice k t w
  = Ok tt (if isComposing n
           then setSelection
                  (setAnchor (setOffset (offset (anchor (selection w)) - strlen t)
                                        (anchor (selection w)))
                             (selection w)) w
           else w).
Proof.
  intros H Ht Hne Ha. unfold afterSplice.
  mrew (getTextContent_text _ _ _ H Ht).
  rewrite bool_decide_eq_false_2 by exact Hne.
  mrew (nodeIs_Ok isComposing _ _ _ H). mstep.
  cbn [pointOf]. rewrite Ha. rewrite bool_decide_eq_true_2 by reflexivity.
  now destruct (isComposing n).
Qed.

(** The same steps for an anchor of either type: a block anchor is left
    alone. *)
Lemma afterSplice_Ok w k n t :
  nodeMap w !! k = Some n -> isTextNode n = true -> __text n <> "" ->
  afterSplice k t w
  = Ok tt (if isComposing n && bool_decide (type (anchor (selection w)) = text)
           then setSelection
                  (setAnchor (setOffset (offset (anchor (selection w)) - strlen t)
                                        (anchor (selection w)))
                             (selection w)) w
           else w).
Proof.
  intros H Ht Hne. unfold afterSplice.
  mrew (getTextContent_text _ _ _ H Ht).
  rewrite bool_decide_eq_false_2 by exact Hne.
  mrew (nodeIs_Ok isComposing _ _ _ H). mstep.
  cbn [pointOf].
  now destruct (isComposing n && bool_decide (type (anchor (selection w)) = text)).
Qed.

(** ** The root node *)

Lemma forEach_throw_at {A} (body : A -> M unit) (xs : list A) w msg :
  (forall x, In x xs -> body x w = Ok tt w \/ body x w = Throw msg) ->
  (exists x, In x xs /\ body x w = Throw msg) ->
  forEach xs body w = Throw msg.
Proof.
  induction xs as [|x xs IH]; intros Hall [y [Hy Hthrow]].
  - destruct Hy.
  - simpl. destruct (Hall x (or_introl eq_refl)) as [Hok | Hth].
    + rewrite (bind_Ok _ _ _ _ _ Hok). apply IH.
      * intros z Hz. apply Hall. now right.
      * destruct Hy as [-> | Hy]; [congruence | eauto].
    + now rewrite (bind_Throw _ _ _ _ Hth).
Qed.

Lemma forEach_Ok_all {A} (body : A -> M unit) (P : A -> Prop) (xs : list A) :
  (forall x w w', body x w = Ok tt w' -> P x) ->
  forall w w', forEach xs body w = Ok tt w' -> Forall P xs.
Proof.
  intros Hbody. induction xs as [|x xs IH]; intros w w' H.
  - constructor.
  - simpl in H. unfold bind in H at 1.
    destruct (body x w) as [[] w1|] eqn:E; [|discriminate].
    constructor; eauto.
Qed.

Lemma appendGuard_cases w node n :
  nodeMap w !! node = Some n ->
  RootNode.appendGuard node w =
    if isBlockNode n then Ok tt w
    else Throw "rootNode.append: Only element nodes can be appended to the root node".
Proof.
  intros H. unfold RootNode.appendGuard, RootNode.isElementNode.
  unfold bind at 1. unfold bind at 1. rewrite (getLatest_Ok _ _ _ H).
  unfold ret. now destruct (isBlockNode n).
Qed.

(** C9.  On the root node, [select], [remove] and [replace] always raise
    their invariant error; [append] raises its invariant error as soon as
    one of the nodes to append is not a container; hence an [append] on the
    root that returns has appended containers only. *)
Theorem root_rejects_select_remove_replace_and_leaf_children
    (w : World) (root : NodeKey) (n : Node)
    (Hroot : nodeMap w !! root = Some n) (His : isRootNode n = true) :
  (forall anchorOffset focusOffset,
      select root anchorOffset focusOffset w
      = Throw "select: cannot be called on root nodes")
  /\ remove root w = Throw "remove: cannot be called on root nodes"
  /\ (forall replaceWith,
      replace root replaceWith w
      = Throw "replace: cannot be called on root nodes")
  /\ (forall nodesToAppend,
      (forall k, In k nodesToAppend -> is_Some (nodeMap w !! k)) ->
      (exists k c, In k nodesToAppend /\ nodeMap w !! k = Some c
                   /\ isBlockNode c = false) ->
      append root nodesToAppend w
      = Throw "rootNode.append: Only element nodes can be appended to the root node")
  /\ (forall nodesToAppend r w',
      append root nodesToAppend w = Ok r w' ->
      Forall (fun k => exists c, nodeMap w !! k = Some c /\ isBlockNode c = true)
             nodesToAppend).
Proof.
  assert (Hget : getLatest root w = Ok n w) by now apply getLatest_Ok.
  repeat split.
  - intros a f. unfold select. rewrite (bind_Ok _ _ _ _ _ Hget), His. reflexivity.
  - unfold remove. rewrite (bind_Ok _ _ _ _ _ Hget), His. reflexivity.
  - intros r. unfold replace. rewrite (bind_Ok _ _ _ _ _ Hget), His. reflexivity.
  - intros nodes Hpresent (k & c & Hin & Hk & Hleaf).
    unfold append. rewrite (bind_Ok _ _ _ _ _ Hget), His.
    unfold RootNode.append. apply bind_Throw.
    apply forEach_throw_at.
    + intros x Hx. destruct (Hpresent x Hx) as [cx Hcx].
      rewrite (appendGuard_cases _ _ _ Hcx). destruct (isBlockNode cx); auto.
    + exists k. split; [assumption|].
      now rewrite (appendGuard_cases _ _ _ Hk), Hleaf.
  - intros nodes r w' H.
    unfold append in H. rewrite (bind_Ok _ _ _ _ _ Hget), His in H.
    unfold RootNode.append in H. unfold bind in H at 1.
    destruct (forEach nodes RootNode.appendGuard w) as [[] w1|] eqn:E; [|discriminate].
    clear H. revert w1 E.
    induction nodes as [|x xs IH]; intros w1 E; [constructor|].
    simpl in E. unfold bind in E at 1.
    destruct (RootNode.appendGuard x w) as [[] w2|] eqn:Ex; [|discriminate].
    unfold RootNode.appendGuard, RootNode.isElementNode in Ex.
    unfold bind in Ex at 1. unfold bind in Ex at 1.
    destruct (getLatest x w) as [c w3|] eqn:Eg; [|discriminate].
    apply getLatest_inv in Eg as [-> Hc]. unfold ret in Ex.
    destruct (isBlockNode c) eqn:Eb; simpl in Ex; [|discriminate].
    inversion Ex; subst w2.
    constructor; [eauto | eapply IH; eassumption].
Qed.

(** ** Collapsed selections: formatting and style patching *)

Lemma formatText_collapsed w formatBit :
  isCollapsedSel (selection w) = true ->
  formatText formatBit w = Ok tt (setSelection (toggled formatBit (selection w)) w).
Proof.
  intros H. unfold formatText.
  rewrite (bind_Ok _ _ _ _ _ (getNodes_Ok w)).
  rewrite (bind_Ok _ _ _ _ _ (isCollapsed_Ok w)), H.
  reflexivity.
Qed.

Lemma toggled_collapsed formatBit s :
  isCollapsedSel (toggled formatBit s) = isCollapsedSel s.
Proof. reflexivity. Qed.

Lemma toggled_twice formatBit s : toggled formatBit (toggled formatBit s) = s.
Proof.
  destruct s as [a f fmt]. unfold toggled. simpl. f_equal.
  rewrite Z.lxor_assoc, Z.lxor_nilpotent. apply Z.lxor_0_r.
Qed.

(** C7.  On a collapsed selection [formatText] returns, changes nothing but
    the pending format of the selection, whose bit for the format type it
    flips, and leaves every node as it was; applied twice in succession it
    gives back the original state, so the original pending-format bit. *)
Theorem formatText_collapsed_toggles_pending_format
    (w : World) (formatBit : Z)
    (Hcollapsed : isCollapsedSel (selection w) = true) :
  exists w1,
    formatText formatBit w = Ok tt w1
    /\ nodeMap w1 = nodeMap w
    /\ dirtyNodes w1 = dirtyNodes w
    /\ anchor (selection w1) = anchor (selection w)
    /\ focus (selection w1) = focus (selection w)
    /\ textFormat (selection w1) = Z.lxor (textFormat (selection w)) formatBit
    /\ (forall i, Z.testbit (textFormat (selection w1)) i
                  = xorb (Z.testbit (textFormat (selection w)) i)
                         (Z.testbit formatBit i))
    /\ formatText formatBit w1 = Ok tt w.
Proof.
  exists (setSelection (toggled formatBit (selection w)) w).
  split; [now apply formatText_collapsed|].
  repeat split; try reflexivity.
  - intros i. simpl. apply Z.lxor_spec.
  - rewrite formatText_collapsed by (simpl; now rewrite toggled_collapsed).
    f_equal. destruct w as [m s d c css]. unfold setSelection. simpl.
    now rewrite toggled_twice.
Qed.

(** C10.  On a collapsed selection [patchStyleText] returns with the state
    it was called in: no node, and nothing else, is changed. *)
Theorem patchStyleText_collapsed_changes_nothing
    (w : World) (patch : list (string * string))
    (Hcollapsed : isCollapsedSel (selection w) = true) :
  patchStyleText patch w = Ok tt w.
Proof.
  unfold patchStyleText.
  rewrite (bind_Ok _ _ _ _ _ (getNodes_Ok w)).
  rewrite (bind_Ok _ _ _ _ _ (isCollapsed_Ok w)), Hcollapsed.
  reflexivity.
Qed.

(** ** The two insertion scenarios *)

(** C4.  In the document Root -> Paragraph -> Text("foo") + Text("bar"),
    with the selection from offset 1 of the first leaf to offset 2 of the
    second, [insertText(selection, "")] returns and leaves "fr" as the text
    content of the document: the first leaf reads "f", the second "r", and
    both are still the children of the paragraph. *)
Theorem insertText_across_two_leaves_scenario (fuel : nat) :
  exists w',
    insertText (S fuel) "" scenario3 = Ok tt w'
    /\ getTextContent "root" w' = Ok "fr" w'
    /\ __text <$> (nodeMap w' !! "foo") = Some "f"
    /\ __text <$> (nodeMap w' !! "bar") = Some "r"
    /\ __children <$> (nodeMap w' !! "p") = Some ["foo"; "bar"].
Proof.
  eexists. split; [vm_compute; reflexivity|].
  repeat split; vm_compute; reflexivity.
Qed.

(** C5.  In the document Root -> Paragraph -> Text("ab"), with the caret at
    offset 1 of the leaf, [insertText(selection, "X")] returns, makes "aXb"
    the text content of the leaf, and leaves the selection collapsed at
    offset 2 of that leaf. *)
Theorem insertText_collapsed_scenario (fuel : nat) :
  exists w',
    insertText (S fuel) "X" scenario2 = Ok tt w'
    /\ getTextContent "t" w' = Ok "aXb" w'
    /\ anchor (selection w') = mkPoint "t" 2 text
    /\ focus (selection w') = mkPoint "t" 2 text
    /\ isCollapsedSel (selection w') = true.
Proof.
  eexists. split; [vm_compute; reflexivity|].
  repeat split; vm_compute; reflexivity.
Qed.

(** ** Insertion during composition *)

Lemma isBefore_same_node w k n a f :
  nodeMap w !! k = Some n ->
  anchor (selection w) = mkPoint k a text ->
  focus (selection w) = mkPoint k f text ->
  (if isCollapsedSel (selection w) then ret true
   else Point_isBefore (mkPoint k a text) (mkPoint k f text)) w
  = Ok (a <=? f) w.
Proof.
  intros Hn Ha Hf. unfold isCollapsedSel, Point_is. rewrite Ha, Hf.
  destruct (decide (a = f)) as [->|Hne].
  - rewrite bool_decide_eq_true_2 by reflexivity. now rewrite Z.leb_refl.
  - rewrite bool_decide_eq_false_2 by congruence.
    unfold Point_isBefore. cbn [key]. mstep. mstep.
    unfold gets, isBeforeIn.
    rewrite !(resolvePoint_text _ _ n) by (cbn; auto).
    cbn [key offset]. rewrite bool_decide_eq_true_2 by reflexivity.
    f_equal. destruct (a <? f) eqn:E1, (a <=? f) eqn:E2; try reflexivity; lia.
Qed.

Lemma getNodes_same_node w k n a f :
  nodeMap w !! k = Some n ->
  anchor (selection w) = mkPoint k a text ->
  focus (selection w) = mkPoint k f text ->
  getNodes w = Ok [k] w.
Proof.
  intros Hn Ha Hf. unfold getNodes, gets, getNodesIn. rewrite Ha, Hf.
  rewrite !(resolvePoint_text _ _ n) by (cbn; auto).
  cbn [key]. now rewrite bool_decide_eq_true_2.
Qed.

Lemma plainText_mutable n : plainText n -> isImmutableOrInert n = false.
Proof.
  intros (_ & _ & Himm & Hinert & _). unfold isImmutableOrInert.
  now rewrite Himm, Hinert.
Qed.

(** The single-leaf branch, for a selection within one plain text leaf that
    is either a range or carries the format of the leaf. *)
Lemma insertText_single_leaf fuel w k n a f t :
  anchor (selection w) = mkPoint k a text ->
  focus (selection w) = mkPoint k f text ->
  nodeMap w !! k = Some n -> __key n = k -> plainText n ->
  (a <> f \/ __format n = textFormat (selection w)) ->
  let start := Z.min a f in
  let spliced := splicedText start (Z.max a f - start) t (__text n) in
  spliced <> "" ->
  insertText (S fuel) t w
  = Ok tt (setNodeMap (<[k := withText spliced n]> (nodeMap w))
             (markDirty k
                (setSelection
                   (mkSelection
                      (mkPoint k (start + strlen t
                                  - if isComposing n then strlen t else 0) text)
                      (mkPoint k (start + strlen t) text)
                      (textFormat (selection w))) w))).
Proof.
  intros Ha Hf Hn Hk Hplain Hfmt start spliced Hne.
  pose proof (plainText_mutable _ Hplain) as Hii.
  destruct Hplain as (Ht & Hseg & Himm & Hinert & Hend).
  cbn [insertText].
  mstep. mstep. mstep. cbn [pointOf]. rewrite Ha, Hf.
  mrew (isBefore_same_node _ _ _ _ _ Hn Ha Hf).
  cbn [type]. rewrite !(bool_decide_eq_false_2 (text = block)) by discriminate.
  rewrite !andb_false_r. mstep.
  mrew (getNodes_same_node _ _ _ _ _ Hn Ha Hf).
  mstep. mstep.
  assert (Hpts : exists s e,
    getPoint (if a <=? f then TheAnchor else TheFocus) w = Ok (mkPoint k s text) w
    /\ getPoint (if a <=? f then TheFocus else TheAnchor) w = Ok (mkPoint k e text) w
    /\ s = start /\ e = Z.max a f
    /\ (s = e -> a = f)).
  { unfold start. destruct (a <=? f) eqn:E.
    - exists a, f. unfold getPoint, gets. cbn [pointOf]. rewrite Ha, Hf.
      repeat split; lia.
    - exists f, a. unfold getPoint, gets. cbn [pointOf]. rewrite Ha, Hf.
      repeat split; lia. }
  destruct Hpts as (s & e & Hs & He & Hs' & He' & Hse).
  mrew Hs. mrew He.
  cbn [head optNodeIs]. mrew (nodeIs_Ok isTextNode _ _ _ Hn). rewrite Ht.
  mrew (getTextContent_text _ _ _ Hn Ht). mstep.
  rewrite Hseg, Himm, Hend. cbn [negb orb]. mstep.
  change (lengthZ [k] =? 1) with true. cbv iota.
  mrew (nodeIs_Ok isImmutableOrInert _ _ _ Hn). rewrite Hii.
  unfold getFormat. mstep. mstep. cbn [offset].
  assert (Hno : (s =? e) && negb (__format n =? textFormat (selection w)) = false).
  { destruct (s =? e) eqn:E; [|reflexivity]. apply Z.eqb_eq in E.
    destruct Hfmt as [Hd | ->]; [now specialize (Hse E)|].
    now rewrite Z.eqb_refl. }
  rewrite Hno. mstep.
  mrew (spliceText_Ok _ _ _ s (e - s) t true Hn Hk Hii).
  rewrite Hs', He'. fold spliced.
  rewrite (afterSplice_text _ k (withText spliced n) t);
    [| cbn; apply lookup_insert_eq | exact Ht | exact Hne | reflexivity].
  change (isComposing (withText spliced n)) with (isComposing n).
  destruct (isComposing n); [reflexivity|].
  now rewrite Z.sub_0_r.
Qed.

Lemma moveOrRemoveChildren_same_block children w k1 k2 dirtyThen :
  moveOrRemoveChildren children k1 k2 [k1; k2] dirtyThen true w = Ok tt w.
Proof.
  induction children as [|c cs IH]; [reflexivity|].
  cbn [moveOrRemoveChildren].
  destruct (bool_decide (c = k1)) eqn:E1; [reflexivity|].
  apply bool_decide_eq_false in E1.
  mstep. destruct (isAttachedIn (nodeMap w) c).
  - unfold hasNodeObject. mstep. mstep.
    destruct (decide (c = k2)) as [->|E2].
    + rewrite (bool_decide_eq_true_2 (k2 = k2)) by reflexivity.
      rewrite orb_true_r. cbn [negb]. mstep. exact IH.
    + rewrite (bool_decide_eq_false_2 (c ∈ [k1; k2])).
      * cbn [andb negb orb]. mstep. exact IH.
      * rewrite !elem_of_cons, elem_of_nil. tauto.
  - mstep. exact IH.
Qed.

(** The multi-leaf branch, for a selection that starts in one plain text
    leaf and ends inside the next selected one, a plain text leaf of the
    same container. *)
Lemma insertText_two_leaves fuel w k1 k2 pk n1 n2 p a f t :
  anchor (selection w) = mkPoint k1 a text ->
  focus (selection w) = mkPoint k2 f text ->
  k1 <> k2 ->
  isBeforeIn (nodeMap w) (mkPoint k1 a text) (mkPoint k2 f text) = true ->
  getNodesIn (nodeMap w) (selection w) = [k1; k2] ->
  nodeMap w !! k1 = Some n1 -> __key n1 = k1 -> plainText n1 ->
  nodeMap w !! k2 = Some n2 -> __key n2 = k2 -> plainText n2 ->
  __parent n1 = Some pk -> __parent n2 = Some pk -> nodeMap w !! pk = Some p ->
  f <> 0 -> f <> strlen (__text n2) ->
  let spliced1 := splicedText a (strlen (__text n1) - a) t (__text n1) in
  let spliced2 := splicedText 0 f "" (__text n2) in
  spliced1 <> "" ->
  insertText (S fuel) t w
  = Ok tt (setNodeMap
             (<[k1 := withText spliced1 n1]>
                (<[k2 := withText spliced2 n2]> (nodeMap w)))
             (markDirty k1
                (setSelection
                   (mkSelection
                      (mkPoint k1 (a + strlen t
                                   - if isComposing n1 then strlen t else 0) text)
                      (mkPoint k1 (a + strlen t) text)
                      (textFormat (selection w)))
                   (markDirty k2 w)))).
Proof.
  intros Ha Hf Hk12 Hbefore Hnodes Hn1 Hk1 Hplain1 Hn2 Hk2 Hplain2
    Hp1 Hp2 Hp Hf0 Hfsize spliced1 spliced2 Hne.
  pose proof (plainText_mutable _ Hplain1) as Hii1.
  pose proof (plainText_mutable _ Hplain2) as Hii2.
  destruct Hplain1 as (Ht1 & Hseg1 & Himm1 & Hinert1 & Hend1).
  destruct Hplain2 as (Ht2 & Hseg2 & Himm2 & Hinert2 & Hend2).
  cbn [insertText].
  mstep. mstep. mstep. cbn [pointOf]. rewrite Ha, Hf.
  assert (Hnc : isCollapsedSel (selection w) = false).
  { unfold isCollapsedSel, Point_is. rewrite Ha, Hf.
    apply bool_decide_eq_false_2. congruence. }
  rewrite Hnc.
  assert (Hib : Point_isBefore (mkPoint k1 a text) (mkPoint k2 f text) w
                = Ok true w).
  { unfold Point_isBefore. cbn [key]. mstep. mstep. unfold gets.
    now rewrite Hbefore. }
  mrew Hib.
  cbn [type]. rewrite !(bool_decide_eq_false_2 (text = block)) by discriminate.
  cbn [andb negb]. mstep.
  mrew (getNodes_Ok w). rewrite Hnodes.
  mstep. mstep. mstep. mstep. cbn [pointOf]. rewrite Ha, Hf.
  cbn [head optNodeIs]. mrew (nodeIs_Ok isTextNode _ _ _ Hn1). rewrite Ht1.
  mrew (getTextContent_text _ _ _ Hn1 Ht1). mstep.
  rewrite Hseg1, Himm1, Hend1. cbn [negb orb]. mstep.
  change (lengthZ [k1; k2] =? 1) with false. cbv iota.
  change (nthZ [k1; k2] (lengthZ [k1; k2] - 1)) with (Some k2). cbv iota.
  destruct (getParentKeys_total w k1 n1 Hn1) as [parents1 Hpk1].
  destruct (getParentKeys_total w k2 n2 Hn2) as [parents2 Hpk2].
  mrew Hpk1. mrew Hpk2.
  mrew (nodeIs_Ok isBlockNode _ _ _ Hn1). rewrite (isTextNode_not_block _ Ht1).
  unfold getParentOrThrow at 1. mrew (getParent_Ok _ _ _ Hn1). rewrite Hp1. mstep.
  mrew (nodeIs_Ok isBlockNode _ _ _ Hn2). rewrite (isTextNode_not_block _ Ht2).
  unfold getParentOrThrow at 1. mrew (getParent_Ok _ _ _ Hn2). rewrite Hp2. mstep.
  mstep. cbn [pointOf]. rewrite Hf. cbn [type offset].
  rewrite (proj2 (Z.eqb_neq f 0)) by exact Hf0. cbn [negb]. mstep.
  mstep. rewrite Ht2, Hii2. cbn [negb andb].
  mrew (getTextContentSize_text _ _ _ Hn2 Ht2). mstep.
  rewrite (proj2 (Z.eqb_neq f (strlen (__text n2)))) by exact Hfsize. cbn [negb].
  rewrite Hseg2. mstep.
  mrew (spliceText_Ok _ _ _ 0 f "" false Hn2 Hk2 Hii2). fold spliced2.
  mstep. cbn [fst snd].
  set (w2 := setNodeMap _ (markDirty k2 w)).
  assert (Hp' : nodeMap w2 !! pk
                = Some (if bool_decide (pk = k2) then withText spliced2 n2 else p)).
  { unfold w2. cbn. rewrite lookup_insert.
    destruct (decide (k2 = pk)) as [->|E].
    - now rewrite bool_decide_eq_true_2.
    - rewrite bool_decide_eq_false_2 by congruence. exact Hp. }
  mrew (getChildren_Ok _ _ _ Hp').
  rewrite (bool_decide_eq_true_2 (pk = pk)) by reflexivity.
  mrew (moveOrRemoveChildren_same_block
          (rev (__children
                  (if bool_decide (pk = k2) then withText spliced2 n2 else p)))
          w2 k1 k2 (dirtyNodes w)).
  cbn [negb]. mstep.
  assert (Hn1' : nodeMap w2 !! k1 = Some n1).
  { unfold w2. cbn. rewrite lookup_insert_ne by congruence. exact Hn1. }
  mrew (nodeIs_Ok isImmutableOrInert _ _ _ Hn1'). rewrite Hii1. cbn [negb].
  mrew (spliceText_Ok _ _ _ a (strlen (__text n1) - a) t true Hn1' Hk1 Hii1).
  fold spliced1.
  erewrite (bind_Ok _ _ _ tt); cycle 1.
  { apply (afterSplice_text _ k1 (withText spliced1 n1) t);
      [cbn; apply lookup_insert_eq | exact Ht1 | exact Hne | reflexivity]. }
  cbv beta. cbn [drop forEach].
  rewrite bool_decide_eq_true_2 by set_solver. cbn [negb].
  mstep. unfold ret.
  change (isComposing (withText spliced1 n1)) with (isComposing n1).
  destruct (isComposing n1); [reflexivity|].
  now rewrite Z.sub_0_r.
Qed.


(** ** Deleting at a segmented node *)

Lemma append_String x a b : String x a +:+ b = String x (a +:+ b).
Proof. reflexivity. Qed.

Lemma append_empty_l b : "" +:+ b = b.
Proof. reflexivity. Qed.

Lemma append_empty_r a : a +:+ "" = a.
Proof.
  induction a as [|x a IH]; [reflexivity|]. rewrite append_String.
  now rewrite IH.
Qed.

Lemma append_char_assoc a c b : (a +:+ String c "") +:+ b = a +:+ String c b.
Proof.
  induction a as [|x a IH]; [reflexivity|].
  rewrite !append_String. now rewrite IH.
Qed.

Lemma splitWhitespaceFrom_nonempty cur s : splitWhitespaceFrom cur s <> [].
Proof.
  revert cur. induction s as [|c s IH]; intros cur; cbn; [discriminate|].
  destruct (isWhitespace c); [discriminate | apply IH].
Qed.

Lemma joinSpace_cons x l :
  l <> [] -> joinSpace (x :: l) = x +:+ " " +:+ joinSpace l.
Proof. destruct l; [congruence | reflexivity]. Qed.

(** Splitting at whitespace and joining with spaces again only turns each
    whitespace character into a space. *)
Lemma joinSpace_split cur s :
  joinSpace (splitWhitespaceFrom cur s) = cur +:+ singleSpaced s.
Proof.
  revert cur. induction s as [|c s IH]; intros cur;
    cbn [splitWhitespaceFrom singleSpaced].
  - unfold joinSpace. cbn [String.concat]. now rewrite append_empty_r.
  - destruct (isWhitespace c).
    + rewrite joinSpace_cons by apply splitWhitespaceFrom_nonempty.
      now rewrite IH.
    + rewrite IH. apply append_char_assoc.
Qed.

Lemma split_no_whitespace cur b :
  hasNoWhitespace b = true -> splitWhitespaceFrom cur b = [cur +:+ b].
Proof.
  revert cur. induction b as [|c b IH]; intros cur H;
    cbn [splitWhitespaceFrom hasNoWhitespace] in *.
  - now rewrite append_empty_r.
  - apply andb_true_iff in H as [Hc Hb]. apply negb_true_iff in Hc. rewrite Hc.
    rewrite IH by exact Hb. now rewrite append_char_assoc.
Qed.

Lemma split_last cur a c b :
  isWhitespace c = true -> hasNoWhitespace b = true ->
  splitWhitespaceFrom cur (a +:+ String c b) = splitWhitespaceFrom cur a ++ [b].
Proof.
  intros Hc Hb. revert cur. induction a as [|x a IH]; intros cur.
  - rewrite append_empty_l. cbn [splitWhitespaceFrom]. rewrite Hc.
    now rewrite split_no_whitespace.
  - rewrite append_String. cbn [splitWhitespaceFrom].
    destruct (isWhitespace x); now rewrite IH.
Qed.

Lemma split_first cur b c a :
  isWhitespace c = true -> hasNoWhitespace b = true ->
  splitWhitespaceFrom cur (b +:+ String c a)
  = (cur +:+ b) :: splitWhitespaceFrom "" a.
Proof.
  intros Hc. revert cur. induction b as [|x b IH]; intros cur Hb.
  - rewrite append_empty_l. cbn [splitWhitespaceFrom]. rewrite Hc.
    now rewrite append_empty_r.
  - rewrite append_String. cbn [splitWhitespaceFrom hasNoWhitespace] in *.
    apply andb_true_iff in Hb as [Hx Hb]. apply negb_true_iff in Hx. rewrite Hx.
    rewrite IH by exact Hb. now rewrite append_char_assoc.
Qed.

(** Backward, the last segment goes, with the whitespace before it. *)
Lemma withoutSegment_backward a c b :
  isWhitespace c = true -> hasNoWhitespace b = true ->
  withoutSegment true (a +:+ String c b) = singleSpaced a.
Proof.
  intros Hc Hb. unfold withoutSegment, splitWhitespace, dropSegment.
  rewrite split_last by assumption. rewrite removelast_last.
  apply joinSpace_split.
Qed.

(** Forward, the first segment goes, with the whitespace behind it. *)
Lemma withoutSegment_forward b c a :
  isWhitespace c = true -> hasNoWhitespace b = true ->
  withoutSegment false (b +:+ String c a) = singleSpaced a.
Proof.
  intros Hc Hb. unfold withoutSegment, splitWhitespace, dropSegment.
  rewrite split_first by assumption. cbn [tl]. apply joinSpace_split.
Qed.

(** A text of one segment leaves nothing. *)
Lemma withoutSegment_single isBackward b :
  hasNoWhitespace b = true -> withoutSegment isBackward b = "".
Proof.
  intros Hb. unfold withoutSegment, splitWhitespace.
  rewrite split_no_whitespace by exact Hb. now destruct isBackward.
Qed.

Lemma removeSegment_keeps w k n isBackward :
  nodeMap w !! k = Some n -> __key n = k -> isTextNode n = true ->
  isImmutableOrInert n = false ->
  withoutSegment isBackward (__text n) <> "" ->
  let next := withoutSegment isBackward (__text n) in
  removeSegment k isBackward w
  = Ok tt (setSelection
             (mkSelection (mkPoint k (if isBackward then strlen next else 0) text)
                          (mkPoint k (if isBackward then strlen next else 0) text)
                          (textFormat (selection w)))
             (setNodeMap (<[k := withText next n]> (nodeMap w)) (markDirty k w))).
Proof.
  intros H Hk Ht Hi Hne next. unfold removeSegment.
  mrew (getTextContent_text _ _ _ H Ht).
  fold (withoutSegment isBackward (__text n)). fold next.
  rewrite bool_decide_eq_false_2 by exact Hne.
  mrew (setTextContent_Ok _ _ _ next H Hk Hi).
  set (w' := setNodeMap _ _).
  assert (H' : nodeMap w' !! k = Some (withText next n))
    by (unfold w'; cbn; apply lookup_insert_eq).
  destruct isBackward; rewrite (select_text w' k _ _ _ H' Ht); reflexivity.
Qed.

Lemma removeSegment_removes w k pk n p isBackward :
  nodeMap w !! k = Some n -> isTextNode n = true ->
  nodeMap w !! pk = Some p -> __parent n = Some pk ->
  (forall c, In c (__children p) -> is_Some (nodeMap w !! c)) ->
  withoutSegment isBackward (__text n) = "" ->
  exists sel,
    removeSegment k isBackward w
    = Ok tt (setNodeMap
               (<[__key n := withParent None n]>
                  (<[__key p := withChildren (removeKey k (__children p)) p]>
                     (nodeMap w)))
               (markDirty pk (markDirty k (setSelection sel w)))).
Proof.
  intros H Ht Hp Hpar Hch He.
  destruct (remove_attached w k pk n p H Hp Hpar (isTextNode_not_root _ Ht) Hch)
    as [sel Hsel].
  exists sel. unfold removeSegment.
  mrew (getTextContent_text _ _ _ H Ht).
  fold (withoutSegment isBackward (__text n)).
  rewrite bool_decide_eq_true_2 by exact He. exact Hsel.
Qed.

Lemma textNodeOf_text w p n :
  type p = text -> nodeMap w !! key p = Some n ->
  textNodeOf p w = Ok (Some (key p)) w.
Proof. intros Ht H. unfold textNodeOf. rewrite Ht. mstep. reflexivity. Qed.

Lemma textNodeOf_total w p :
  (type p = text -> is_Some (nodeMap w !! key p)) ->
  textNodeOf p w
  = Ok (match type p with text => Some (key p) | block => None end) w.
Proof.
  intros H. unfold textNodeOf. destruct (type p); [|reflexivity].
  destruct (H eq_refl) as [n Hn]. mstep. reflexivity.
Qed.

Section SurfaceProperties.

Context (nativeModify :
           bool -> bool -> Granularity -> World -> option (Point * Point * bool)).
Context (getPossibleDecoratorNode : Point -> bool -> M (option NodeKey)).
Context (doesContainGrapheme : string -> bool).
Context (collapseAtStart : NodeKey -> M bool).

Local Abbreviation deleteCharacter' :=
  (deleteCharacter nativeModify getPossibleDecoratorNode doesContainGrapheme
     collapseAtStart).
Local Abbreviation updateCaretSelectionForRange' :=
  (updateCaretSelectionForRange nativeModify getPossibleDecoratorNode).

(** Once the extended selection has entered the segmented node of its
    focus, [deleteCharacter] is [removeSegment] on that node. *)
Lemma deleteCharacter_segmented_focus fuel isBackward w w1 n :
  isCollapsedSel (selection w) = true ->
  updateCaretSelectionForRange' isBackward character false w = Ok tt w1 ->
  isCollapsedSel (selection w1) = false ->
  type (focus (selection w1)) = text ->
  (type (anchor (selection w1)) = text ->
     is_Some (nodeMap w1 !! key (anchor (selection w1)))) ->
  nodeMap w1 !! key (focus (selection w1)) = Some n ->
  isTextNode n = true -> isSegmented n = true ->
  entersSegmentedNode isBackward (selection w1) (strlen (__text n)) ->
  deleteCharacter' fuel isBackward w
  = removeSegment (key (focus (selection w1))) isBackward w1.
Proof.
  intros Hc Hrange Hnc Hft Ha Hn Ht Hseg Henter.
  unfold deleteCharacter.
  mstep. rewrite Hc. mrew Hrange.
  mstep. mstep. mstep. rewrite Hnc. cbn [negb pointOf].
  mrew (textNodeOf_text _ _ _ Hft Hn).
  mrew (textNodeOf_total _ _ Ha).
  unfold optNodeIs at 1.
  mrew (nodeIs_Ok isSegmented _ _ _ Hn). rewrite Hseg.
  set (anchorNode := match type (anchor (selection w1)) with
                     | text => Some (key (anchor (selection w1)))
                     | block => None
                     end).
  assert (Hanchor : exists b, optNodeIs isSegmented anchorNode w1 = Ok b w1).
  { unfold anchorNode. destruct (type (anchor (selection w1))) eqn:E;
      [|now exists false].
    destruct (Ha eq_refl) as [c Hc']. exists (isSegmented c).
    apply (nodeIs_Ok _ _ _ _ Hc'). }
  destruct Hanchor as [b Hb]. mrew Hb.
  mrew (getTextContentSize_text _ _ _ Hn Ht).
  assert (Hcond :
    bool_decide (Some (key (focus (selection w1))) = anchorNode)
    || isBackward && negb (offset (focus (selection w1)) =? strlen (__text n))
    || negb isBackward && negb (offset (focus (selection w1)) =? 0) = true).
  { destruct Henter as [[Hat Hak] | [[-> Hne] | [-> Hne]]].
    - unfold anchorNode. rewrite Hat, Hak.
      now rewrite bool_decide_eq_true_2.
    - apply Z.eqb_neq in Hne. rewrite Hne. cbn.
      now destruct (bool_decide _).
    - apply Z.eqb_neq in Hne. rewrite Hne. cbn.
      now destruct (bool_decide _). }
  rewrite Hcond. mnorm.
  unfold bind at 1.
  destruct (removeSegment _ _ w1) as [[] w2|]; reflexivity.
Qed.

(** C6 (amended).  A [deleteCharacter] on a collapsed selection whose
    extension by one character enters a segmented text node that is
    neither immutable nor inert (the focus is a text point of the node, and
    the anchor is a text point of the node too or the focus is not at the
    edge of the node that faces the caret: its end when deleting backward,
    its start when deleting forward) returns, and takes from the text of
    that node, whichever segment the caret is next to, the piece behind the
    last whitespace character with that character when deleting backward,
    and the piece before the first whitespace character with that
    character when deleting forward; each whitespace character of what
    remains is a single space; when the text has no whitespace character,
    or nothing remains, the node leaves its parent; no other node
    changes. *)
Theorem deleteCharacter_removes_segment
    (fuel : nat) (isBackward : bool) (w w1 : World) (n p : Node) (pk : NodeKey)
    (Hcollapsed : isCollapsedSel (selection w) = true)
    (Hrange : updateCaretSelectionForRange' isBackward character false w
              = Ok tt w1)
    (Hextended : isCollapsedSel (selection w1) = false)
    (Hfocus : type (focus (selection w1)) = text)
    (Hanchor : type (anchor (selection w1)) = text ->
               is_Some (nodeMap w1 !! key (anchor (selection w1))))
    (Hnode : nodeMap w1 !! key (focus (selection w1)) = Some n)
    (Hkey : __key n = key (focus (selection w1)))
    (Htext : isTextNode n = true)
    (Hsegmented : isSegmented n = true)
    (Hmutable : isImmutableOrInert n = false)
    (Hparent : __parent n = Some pk)
    (Hp : nodeMap w1 !! pk = Some p)
    (Hpkey : __key p = pk)
    (Hchildren : forall c, In c (__children p) -> is_Some (nodeMap w1 !! c))
    (Henters : entersSegmentedNode isBackward (selection w1)
                 (strlen (__text n))) :
  let k := key (focus (selection w1)) in
  let next := withoutSegment isBackward (__text n) in
  (exists w',
      deleteCharacter' fuel isBackward w = Ok tt w'
      /\ nodeMap w'
         = if bool_decide (next = "")
           then <[k := withParent None n]>
                  (<[pk := withChildren (removeKey k (__children p)) p]>
                     (nodeMap w1))
           else <[k := withText next n]> (nodeMap w1))
  /\ (forall a c b,
         isBackward = true -> __text n = a +:+ String c b ->
         isWhitespace c = true -> hasNoWhitespace b = true ->
         next = singleSpaced a)
  /\ (forall b c a,
         isBackward = false -> __text n = b +:+ String c a ->
         isWhitespace c = true -> hasNoWhitespace b = true ->
         next = singleSpaced a)
  /\ (hasNoWhitespace (__text n) = true -> next = "").
Proof.
  intros k next. repeat split.
  - rewrite (deleteCharacter_segmented_focus fuel isBackward w w1 n) by assumption.
    fold k. destruct (decide (next = "")) as [He | Hne].
    + rewrite bool_decide_eq_true_2 by exact He.
      destruct (removeSegment_removes w1 k pk n p isBackward) as [sel Hsel];
        try assumption.
      eexists. split; [exact Hsel|]. cbn. now rewrite Hkey, Hpkey.
    + rewrite bool_decide_eq_false_2 by exact Hne.
      eexists. split.
      * apply (removeSegment_keeps w1 k n isBackward); auto.
      * reflexivity.
  - intros a c b -> Hn Hc Hb. unfold next. rewrite Hn.
    now apply withoutSegment_backward.
  - intros b c a -> Hn Hc Hb. unfold next. rewrite Hn.
    now apply withoutSegment_forward.
  - intros Hb. now apply withoutSegment_single.
Qed.

End SurfaceProperties.

(** ** The editor host *)

Section HostProperties.

Import OutlineView OutlineEditor.

Context {ReactNode : Type}.
Context (createSelection : ViewModel -> Editor ReactNode -> option Selection).
Context (applyTextTransforms : ViewModel -> Editor ReactNode -> ViewModel).
Context (garbageCollectDetachedNodes :
           ViewModel -> Editor ReactNode ->
           ViewModel * option (gmap string ReactNode)).

Local Abbreviation update :=
  (update ReactNode createSelection applyTextTransforms garbageCollectDetachedNodes).
Local Abbreviation updateScope :=
  (updateScope ReactNode createSelection applyTextTransforms garbageCollectDetachedNodes).
Local Abbreviation finishDraft :=
  (finishDraft ReactNode applyTextTransforms garbageCollectDetachedNodes).
Local Abbreviation openDraft := (openDraft ReactNode createSelection).
Local Abbreviation Runtime := (Runtime ReactNode).

Lemma deref_assign_eq (r : Runtime) v ref :
  (ref < List.length (store _ r))%nat ->
  deref _ (assign _ ref v r) ref = v.
Proof.
  intros H. unfold deref, assign. simpl. now rewrite list_lookup_insert_eq.
Qed.

Lemma deref_assign_ne (r : Runtime) v ref ref' :
  ref <> ref' ->
  deref _ (assign _ ref v r) ref' = deref _ r ref'.
Proof.
  intros H. unfold deref, assign. simpl. now rewrite list_lookup_insert_ne.
Qed.

Lemma commitOutdatedDraft_idle (r : Runtime) timeStamp :
  _pendingViewModel _ (editor _ r) = None ->
  exists t,
    commitOutdatedDraft _ timeStamp r
    = (None, withEditor _ (withTimeStamp _ t (editor _ r)) r).
Proof.
  intros Hidle. unfold commitOutdatedDraft. rewrite Hidle.
  destruct r as [e st mt nt]. cbn [editor].
  destruct (timeStampDiffers _ e timeStamp), timeStamp as [t|].
  1: now exists t.
  all: exists (_updateTimeStamp _ e); now destruct e.
Qed.

(** A callback that keeps the selection it is given leaves the selection
    of the current view model when the surface selection is that one. *)
Lemma keepsSelection_leavesSelectionOf callbackFn current :
  keepsSelection callbackFn ->
  surfaceSelectionIs _ createSelection current ->
  leavesSelectionOf _ createSelection callbackFn current.
Proof.
  intros Hk Hs e. unfold viewModelHasDirtySelection.
  rewrite Hk. cbn. rewrite Hs. now rewrite bool_decide_eq_true_2.
Qed.

(** C1 (amended).  When no draft is pending, an update whose callback
    marks no node dirty, and whose draft has no dirty selection after the
    callback, returns [false], leaves no draft pending, and neither changes
    the current view model (the reference and the object behind it) nor
    calls a listener nor queues a commit.  The draft is the clone of the
    current view model with the selection that [createSelection] reads for
    it, not the selection of the current view model; its selection after
    the callback is compared with the one of the current view model. *)
Theorem update_without_change_is_not_committed
    (r : Runtime) (callbackFn : ViewModel -> ViewModel) (timeStamp : option Z)
    (Hidle : _pendingViewModel _ (editor _ r) = None)
    (Hcurrent : (_viewModel _ (editor _ r) < List.length (store _ r))%nat)
    (Hdirty : marksNoNodeDirty callbackFn)
    (Hselection : viewModelHasDirtySelection
                    (draftAfterCallback _ createSelection callbackFn timeStamp r)
                    (deref _ r (_viewModel _ (editor _ r)))
                  = false) :
  exists r',
    update callbackFn timeStamp r = (false, r')
    /\ _pendingViewModel _ (editor _ r') = None
    /\ _viewModel _ (editor _ r') = _viewModel _ (editor _ r)
    /\ deref _ r' (_viewModel _ (editor _ r')) = deref _ r (_viewModel _ (editor _ r))
    /\ notifications _ r' = notifications _ r
    /\ microtasks _ r' = microtasks _ r.
Proof.
  destruct r as [e st mt nt]. simpl in *.
  destruct (commitOutdatedDraft_idle (mkRuntime _ e st mt nt) timeStamp Hidle)
    as (t1 & Hhead).
  unfold OutlineEditor.update. rewrite Hhead.
  unfold ensureDraft, alloc, withEditor. cbn [editor store microtasks notifications fst snd].
  set (e1 := withTimeStamp _ t1 e).
  set (cur := deref _ (mkRuntime _ e st mt nt) (_viewModel _ e)) in *.
  assert (Hcur1 : deref _ (mkRuntime _ e1 st mt nt) (_viewModel _ e1) = cur)
    by reflexivity.
  rewrite Hcur1.
  set (r2 := mkRuntime _ (withPending _ (Some (List.length st)) e1)
               (st ++ [cloneViewModel cur]) mt nt).
  assert (Hdraft0 : deref _ r2 (List.length st) = cloneViewModel cur).
  { unfold deref, r2. cbn [store]. rewrite lookup_app_r by lia.
    now rewrite Nat.sub_diag. }
  unfold OutlineEditor.updateScope. rewrite Hdraft0.
  set (draft := callbackFn (openDraft true (cloneViewModel cur) (editor _ r2))).
  assert (Hd : hasDirtyNodes draft = false).
  { unfold draft, hasDirtyNodes. rewrite Hdirty. cbn.
    now rewrite bool_decide_eq_true_2. }
  assert (Hs : viewModelHasDirtySelection draft cur = false).
  { rewrite <- Hselection. f_equal.
    unfold draftAfterCallback. rewrite Hhead.
    unfold draft. rewrite <- Hdraft0. reflexivity. }
  unfold OutlineEditor.finishDraft. rewrite Hd.
  set (r3 := assign _ _ _ _).
  assert (Hnew : deref _ r3 (List.length st) = draft).
  { apply deref_assign_eq. cbn. rewrite length_app. cbn. lia. }
  assert (Hold : deref _ r3 (_viewModel _ e) = cur).
  { unfold r3. rewrite deref_assign_ne by lia. unfold deref. cbn.
    now rewrite lookup_app_l by assumption. }
  unfold settleDraft, shouldUpdate.
  replace (_viewModel _ (editor _ r3)) with (_viewModel _ e) by reflexivity.
  rewrite Hnew, Hold, Hd, Hs. cbn [negb orb].
  eexists. split; [reflexivity|].
  repeat split; try reflexivity. exact Hold.
Qed.

(** *** The phases of [update] *)

Lemma commitPendingUpdates_idle (r : Runtime) :
  _pendingViewModel _ (editor _ r) = None -> commitPendingUpdates _ r = r.
Proof. intros H. unfold commitPendingUpdates. now rewrite H. Qed.

Lemma commitPendingUpdates_drafting (r : Runtime) d :
  _pendingViewModel _ (editor _ r) = Some d ->
  let r' := commitPendingUpdates _ r in
  _viewModel _ (editor _ r') = d
  /\ _pendingViewModel _ (editor _ r') = None
  /\ _updateListeners _ (editor _ r') = _updateListeners _ (editor _ r)
  /\ _updateTimeStamp _ (editor _ r') = _updateTimeStamp _ (editor _ r)
  /\ store _ r' = store _ r
  /\ microtasks _ r' = microtasks _ r
  /\ notifications _ r' = (notifications _ r ++ notify _ (editor _ r'))%list.
Proof.
  intros H. unfold commitPendingUpdates. rewrite H. cbn. repeat split.
Qed.

Lemma commitPendingUpdates_wellFormed (r : Runtime) :
  wellFormed _ r -> wellFormed _ (commitPendingUpdates _ r).
Proof.
  intros [Hv Hp]. unfold commitPendingUpdates.
  destruct (_pendingViewModel _ (editor _ r)) as [p|] eqn:E.
  - destruct Hp as (Hlt & _ & _). split; cbn; auto.
  - split; [assumption | now rewrite E].
Qed.

Lemma commitOutdatedDraft_spec (r : Runtime) timeStamp :
  wellFormed _ r ->
  let p1 := fst (commitOutdatedDraft _ timeStamp r) in
  let r1 := snd (commitOutdatedDraft _ timeStamp r) in
  p1 = _pendingViewModel _ (editor _ r1)
  /\ wellFormed _ r1
  /\ store _ r1 = store _ r
  /\ microtasks _ r1 = microtasks _ r
  /\ _updateListeners _ (editor _ r1) = _updateListeners _ (editor _ r).
Proof.
  intros Hwf. unfold commitOutdatedDraft.
  destruct (timeStampDiffers _ (editor _ r) timeStamp).
  - destruct (_pendingViewModel _ (editor _ r)) as [p|] eqn:E.
    + pose proof (commitPendingUpdates_drafting r p E) as (H1 & H2 & H3 & H4 & H5 & H6 & H7).
      pose proof (commitPendingUpdates_wellFormed r Hwf) as Hwf'.
      destruct timeStamp as [t|]; cbn [fst snd]; repeat split;
        try (symmetry; exact H2); try exact H5; try exact H6; try exact H3;
        try exact Hwf'; try (apply Hwf').
    + destruct timeStamp as [t|]; cbn [fst snd]; repeat split;
        try (symmetry; exact E); try apply Hwf.
  - cbn [fst snd]. repeat split; apply Hwf.
Qed.

Lemma ensureDraft_spec (r1 : Runtime) :
  wellFormed _ r1 ->
  let d := fst (fst (ensureDraft _ (_pendingViewModel _ (editor _ r1)) r1)) in
  let cloned := snd (fst (ensureDraft _ (_pendingViewModel _ (editor _ r1)) r1)) in
  let r2 := snd (ensureDraft _ (_pendingViewModel _ (editor _ r1)) r1) in
  drafting _ d r2
  /\ _viewModel _ (editor _ r2) = _viewModel _ (editor _ r1)
  /\ _updateListeners _ (editor _ r2) = _updateListeners _ (editor _ r1)
  /\ microtasks _ r2 = microtasks _ r1
  /\ notifications _ r2 = notifications _ r1
  /\ (if cloned
      then d = List.length (store _ r1)
           /\ _pendingViewModel _ (editor _ r1) = None
           /\ store _ r2 = (store _ r1
                           ++ [cloneViewModel (deref _ r1 (_viewModel _ (editor _ r1)))])%list
      else r2 = r1 /\ _pendingViewModel _ (editor _ r1) = Some d
           /\ In CommitPendingUpdates (microtasks _ r1)).
Proof.
  intros [Hv Hp]. unfold ensureDraft.
  destruct (_pendingViewModel _ (editor _ r1)) as [p|] eqn:E.
  - cbn [fst snd]. destruct Hp as (Hlt & Hne & Hin).
    repeat split; auto.
  - unfold alloc, drafting. cbn. rewrite length_app. cbn.
    repeat split; auto; lia.
Qed.

Lemma updateScope_spec (r2 : Runtime) callbackFn cloned d :
  let r3 := updateScope callbackFn cloned d r2 in
  store _ r3
  = <[d := fst (finishDraft
                  (callbackFn (openDraft cloned (deref _ r2 d) (editor _ r2)))
                  (editor _ r2))]> (store _ r2)
  /\ _viewModel _ (editor _ r3) = _viewModel _ (editor _ r2)
  /\ _pendingViewModel _ (editor _ r3) = _pendingViewModel _ (editor _ r2)
  /\ _updateListeners _ (editor _ r3) = _updateListeners _ (editor _ r2)
  /\ microtasks _ r3 = microtasks _ r2
  /\ notifications _ r3 = notifications _ r2.
Proof.
  unfold OutlineEditor.updateScope.
  destruct (OutlineEditor.finishDraft _ _ _ _ _) as [draft' decorators].
  cbn. repeat split.
Qed.

Lemma updateScope_drafting (r2 : Runtime) callbackFn cloned d :
  drafting _ d r2 -> drafting _ d (updateScope callbackFn cloned d r2).
Proof.
  intros (Hp & Hlt & Hne & Hv).
  pose proof (updateScope_spec r2 callbackFn cloned d) as (Hs & Hv' & Hp' & _).
  unfold drafting. rewrite Hs, Hv', Hp', length_insert. auto.
Qed.

(** Queued commits find nothing to do once the draft is committed. *)
Lemma fold_commit_idle (jobs : list Microtask) (r : Runtime) :
  _pendingViewModel _ (editor _ r) = None ->
  fold_left (fun r' job => runMicrotask _ job r') jobs r = r.
Proof.
  intros H. induction jobs as [|[] jobs IH]; [reflexivity|].
  cbn. now rewrite commitPendingUpdates_idle.
Qed.

Lemma runMicrotasks_drafting (r : Runtime) d :
  _pendingViewModel _ (editor _ r) = Some d ->
  In CommitPendingUpdates (microtasks _ r) ->
  let r' := runMicrotasks _ r in
  _viewModel _ (editor _ r') = d
  /\ _pendingViewModel _ (editor _ r') = None
  /\ store _ r' = store _ r
  /\ microtasks _ r' = []
  /\ notifications _ r' = (notifications _ r ++ notify _ (editor _ r'))%list.
Proof.
  intros Hp Hin. unfold runMicrotasks.
  destruct (microtasks _ r) as [|[] jobs]; [destruct Hin|].
  cbn [fold_left runMicrotask].
  set (r0 := mkRuntime _ (editor _ r) (store _ r) [] (notifications _ r)).
  pose proof (commitPendingUpdates_drafting r0 d Hp) as (H1 & H2 & H3 & H4 & H5 & H6 & H7).
  rewrite fold_commit_idle by exact H2. cbn zeta. auto 10.
Qed.

Lemma settleDraft_frame (r3 : Runtime) timeStamp d cloned :
  let r' := snd (settleDraft _ timeStamp d cloned r3) in
  store _ r' = store _ r3
  /\ exists later, notifications _ r' = (notifications _ r3 ++ later)%list.
Proof.
  unfold settleDraft.
  destruct (negb (shouldUpdate _ d r3)); [|destruct timeStamp; [destruct cloned|]];
    cbn [snd]; (split; [|try (exists []; cbn; now rewrite app_nil_r)]);
    try reflexivity.
  - unfold commitPendingUpdates.
    destruct (_pendingViewModel _ (editor _ r3)); reflexivity.
  - unfold commitPendingUpdates.
    destruct (_pendingViewModel _ (editor _ r3)); cbn.
    + eexists; reflexivity.
    + exists []. now rewrite app_nil_r.
Qed.

Lemma insert_last {A} (l : list A) (x y : A) :
  <[List.length l := x]> (l ++ [y]) = (l ++ [x])%list.
Proof.
  induction l as [|a l IH]; [reflexivity|]. cbn. f_equal. exact IH.
Qed.

(** The two ways in which [update] goes on from a pending draft, by the
    guard of its first test. *)
Lemma update_from_pending_draft
    (r : Runtime) (callbackFn : ViewModel -> ViewModel) (timeStamp : option Z)
    (p : ViewModelRef)
    (Hpending : _pendingViewModel _ (editor _ r) = Some p) :
  let r' := snd (update callbackFn timeStamp r) in
  if timeStampDiffers _ (editor _ r) timeStamp then
    let committed := commitPendingUpdates _ r in
    _viewModel _ (editor _ committed) = p
    /\ exists e2 later,
         store _ r'
         = (store _ r
            ++ [fst (finishDraft
                       (callbackFn
                          (openDraft true (cloneViewModel (deref _ r p)) e2))
                       e2)])%list
         /\ notifications _ r'
            = (notifications _ r ++ notify _ (editor _ committed) ++ later)%list
  else
    store _ r'
    = <[p := fst (finishDraft (callbackFn (deref _ r p)) (editor _ r))]> (store _ r)
    /\ List.length (store _ r') = List.length (store _ r)
    /\ _viewModel _ (editor _ r') = _viewModel _ (editor _ r)
    /\ notifications _ r' = notifications _ r
    /\ microtasks _ r' = microtasks _ r.
Proof.
  unfold OutlineEditor.update, commitOutdatedDraft. rewrite Hpending.
  destruct (timeStampDiffers _ (editor _ r) timeStamp) eqn:Ediff.
  - pose proof (commitPendingUpdates_drafting r p Hpending)
      as (H1 & H2 & H3 & H4 & H5 & H6 & H7).
    cbn zeta. split; [exact H1|].
    set (rc := commitPendingUpdates _ r) in *.
    set (r1 := match timeStamp with
               | Some t => withEditor _ (withTimeStamp _ t (editor _ rc)) rc
               | None => rc
               end).
    assert (Hr1 : store _ r1 = store _ r /\ notifications _ r1 = notifications _ rc
                  /\ _viewModel _ (editor _ r1) = p).
    { unfold r1. destruct timeStamp; cbn; auto. }
    destruct Hr1 as (Hst1 & Hnt1 & Hvm1).
    replace (match timeStamp with
             | Some t => (None, withEditor _ (withTimeStamp _ t (editor _ rc)) rc)
             | None => (None, rc)
             end) with (@None ViewModelRef, r1)
      by (unfold r1; now destruct timeStamp).
    unfold ensureDraft, alloc. cbn [fst snd editor store].
    set (r2 := withEditor _ _ _).
    pose proof (updateScope_spec r2 callbackFn true (List.length (store _ r1)))
      as (Hs3 & _ & _ & _ & _ & Hn3).
    pose proof (settleDraft_frame
                  (updateScope callbackFn true (List.length (store _ r1)) r2)
                  timeStamp (List.length (store _ r1)) true) as (Hs4 & later & Hn4).
    cbn zeta in Hs4, Hn4.
    assert (Hd2 : deref _ r2 (List.length (store _ r1))
                  = cloneViewModel (deref _ r p)).
    { unfold r2. unfold deref at 1. cbn [store withEditor].
      rewrite lookup_app_r by lia. rewrite Nat.sub_diag.
      cbn [lookup list_lookup default from_option].
      unfold deref. now rewrite Hvm1, Hst1. }
    assert (Hst2 : store _ r2
                   = store _ r1
                     ++ [cloneViewModel
                           (deref _ r1 (_viewModel _ (editor _ r1)))])
      by reflexivity.
    exists (editor _ r2), later. split.
    + rewrite Hs4, Hs3, Hd2, Hst2, insert_last. now rewrite Hst1.
    + rewrite Hn4, Hn3. unfold r2. cbn [notifications withEditor].
      rewrite Hnt1, H7. now rewrite <- app_assoc.
  - unfold ensureDraft. cbn [fst snd].
    pose proof (updateScope_spec r callbackFn false p)
      as (Hs3 & Hv3 & Hp3 & _ & Hm3 & Hn3).
    set (r3 := updateScope callbackFn false p r) in *.
    destruct timeStamp as [t|]; [|discriminate].
    unfold settleDraft. cbn zeta.
    destruct (negb (shouldUpdate _ p r3)); cbn [snd withEditor editor store
      notifications microtasks withPending _viewModel];
      rewrite ?Hs3, ?length_insert; auto.
Qed.

(** C2.  A call of [update] that finds a draft pending.  When the time
    stamp of the call is not the recorded one ([timeStamp] is another
    number than [_updateTimeStamp], or is not given), the pending draft is
    committed first (it becomes the current view model and the listeners
    are called with it), and the callback then works on a new object of
    the store, cloned from that view model; the old draft object is not
    touched.  When the time stamp of the call is the recorded one, the
    callback works on the pending draft itself, the store gets no new
    object, and nothing is committed. *)
Theorem update_with_pending_draft
    (r : Runtime) (callbackFn : ViewModel -> ViewModel) (timeStamp : option Z)
    (p : ViewModelRef)
    (Hpending : _pendingViewModel _ (editor _ r) = Some p) :
  let r' := snd (update callbackFn timeStamp r) in
  (timeStamp <> Some (_updateTimeStamp _ (editor _ r)) ->
   let committed := commitPendingUpdates _ r in
   _viewModel _ (editor _ committed) = p
   /\ exists e2 later,
        store _ r'
        = (store _ r
           ++ [fst (finishDraft
                      (callbackFn
                         (openDraft true (cloneViewModel (deref _ r p)) e2))
                      e2)])%list
        /\ notifications _ r'
           = (notifications _ r ++ notify _ (editor _ committed) ++ later)%list)
  /\ (timeStamp = Some (_updateTimeStamp _ (editor _ r)) ->
      store _ r'
      = <[p := fst (finishDraft (callbackFn (deref _ r p)) (editor _ r))]> (store _ r)
      /\ List.length (store _ r') = List.length (store _ r)
      /\ _viewModel _ (editor _ r') = _viewModel _ (editor _ r)
      /\ notifications _ r' = notifications _ r
      /\ microtasks _ r' = microtasks _ r).
Proof.
  pose proof (update_from_pending_draft r callbackFn timeStamp p Hpending) as H.
  cbn zeta in *. split.
  - intros Hother.
    replace (timeStampDiffers _ (editor _ r) timeStamp) with true in H;
      [exact H|].
    unfold timeStampDiffers. destruct timeStamp as [t|]; [|reflexivity].
    symmetry. apply negb_true_iff, Z.eqb_neq. congruence.
  - intros ->.
    replace (timeStampDiffers _ (editor _ r)
               (Some (_updateTimeStamp _ (editor _ r)))) with false in H;
      [exact H|].
    unfold timeStampDiffers. now rewrite Z.eqb_refl.
Qed.


(** The editor states stay well formed. *)
Lemma createEditor_wellFormed : wellFormed _ (createEditor ReactNode).
Proof. split; cbn; [lia | exact I]. Qed.

Lemma update_wellFormed (r : Runtime) callbackFn timeStamp :
  wellFormed _ r -> wellFormed _ (snd (update callbackFn timeStamp r)).
Proof.
  intros Hwf. unfold OutlineEditor.update.
  pose proof (commitOutdatedDraft_spec r timeStamp Hwf)
    as (Hp1 & Hwf1 & Hst1 & Hmt1 & _).
  destruct (commitOutdatedDraft _ timeStamp r) as [p1 r1] eqn:Ehead.
  cbn [fst snd] in *. subst p1.
  pose proof (ensureDraft_spec r1 Hwf1) as (Hdr & Hv2 & _ & Hm2 & Hn2 & Hcl).
  destruct (ensureDraft _ (_pendingViewModel _ (editor _ r1)) r1)
    as [[d cloned] r2] eqn:Edraft.
  cbn [fst snd] in *.
  pose proof (updateScope_drafting r2 callbackFn cloned d Hdr)
    as (Hp3 & Hlt3 & Hne3 & Hv3).
  pose proof (updateScope_spec r2 callbackFn cloned d)
    as (_ & _ & _ & _ & Hm3 & Hn3).
  set (r3 := updateScope callbackFn cloned d r2) in *.
  unfold settleDraft.
  destruct (negb (shouldUpdate _ d r3)); [|destruct timeStamp as [t|]; [destruct cloned|]];
    cbn [snd].
  - split; cbn; [exact Hv3 | exact I].
  - split; cbn; [exact Hv3|]. rewrite Hp3. repeat split; auto.
    apply in_or_app. right. now left.
  - split; [exact Hv3|]. rewrite Hp3. repeat split; auto.
    destruct Hcl as (-> & _ & Hin). now rewrite Hm3.
  - pose proof (commitPendingUpdates_drafting r3 d Hp3)
      as (H1 & H2 & _ & _ & H5 & _ & _).
    split; [now rewrite H1, H5 | now rewrite H2].
Qed.

Lemma runMicrotasks_wellFormed (r : Runtime) :
  wellFormed _ r -> wellFormed _ (runMicrotasks _ r).
Proof.
  intros [Hv Hp].
  destruct (_pendingViewModel _ (editor _ r)) as [d|] eqn:E.
  - destruct Hp as (Hlt & Hne & Hin).
    pose proof (runMicrotasks_drafting r d E Hin) as (H1 & H2 & H3 & _).
    split; [now rewrite H1, H3 | now rewrite H2].
  - unfold runMicrotasks. rewrite fold_commit_idle by exact E.
    split; cbn; [exact Hv | now rewrite E].
Qed.

End HostProperties.

(* ================================================================== *)
(** * The properties on the example documents *)
(* ================================================================== *)

Lemma root_rejects_witness :
  nodeMap scenario2 !! "root" = Some (rootOf ["p"])
  /\ isRootNode (rootOf ["p"]) = true
  /\ remove "root" scenario2 = Throw "remove: cannot be called on root nodes"
  /\ append "root" ["t"] scenario2
     = Throw "rootNode.append: Only element nodes can be appended to the root node".
Proof.
  assert (H1 : nodeMap scenario2 !! "root" = Some (rootOf ["p"]))
    by (vm_compute; reflexivity).
  assert (H2 : isRootNode (rootOf ["p"]) = true) by reflexivity.
  pose proof (root_rejects_select_remove_replace_and_leaf_children
                scenario2 "root" (rootOf ["p"]) H1 H2)
    as (_ & Hremove & _ & Happend & _).
  split; [exact H1 | split; [exact H2 | split; [exact Hremove |]]].
  apply Happend.
  - intros k [<- | []]. eexists. vm_compute. reflexivity.
  - exists "t", (leafOf "t" "p" noFlags "ab").
    split; [now left | split; [vm_compute; reflexivity | reflexivity]].
Defined.

Lemma formatText_collapsed_witness :
  isCollapsedSel (selection scenario2) = true
  /\ exists w1,
       formatText 1 scenario2 = Ok tt w1
       /\ nodeMap w1 = nodeMap scenario2
       /\ dirtyNodes w1 = dirtyNodes scenario2
       /\ anchor (selection w1) = anchor (selection scenario2)
       /\ focus (selection w1) = focus (selection scenario2)
       /\ textFormat (selection w1) = Z.lxor (textFormat (selection scenario2)) 1
       /\ (forall i, Z.testbit (textFormat (selection w1)) i
                     = xorb (Z.testbit (textFormat (selection scenario2)) i)
                            (Z.testbit 1 i))
       /\ formatText 1 w1 = Ok tt scenario2.
Proof.
  split; [reflexivity|].
  apply (formatText_collapsed_toggles_pending_format scenario2 1).
  reflexivity.
Defined.

Lemma patchStyleText_collapsed_witness :
  isCollapsedSel (selection scenario2) = true
  /\ patchStyleText [("color", "red")] scenario2 = Ok tt scenario2.
Proof.
  split; [reflexivity|].
  apply (patchStyleText_collapsed_changes_nothing scenario2 [("color", "red")]).
  reflexivity.
Defined.

Lemma plainText_leafOf k parent composing t :
  plainText (leafOf k parent (mkFlags false false false composing false) t).
Proof. repeat split. Qed.


Lemma deleteCharacter_removes_segment_witness :
  exists w',
    deleteCharacter ExampleSurface.nativeModify
      ExampleSurface.getPossibleDecoratorNode ExampleSurface.doesContainGrapheme
      ExampleSurface.collapseAtStart 1 true mention = Ok tt w'
    /\ nodeMap w'
       = if bool_decide (withoutSegment true "John Smith" = "")
         then <["m" := withParent None (leafOf "m" "p" segmentedFlags "John Smith")]>
                (<["p" := withChildren (removeKey "m" ["m"; "x"])
                            (paragraphOf "p" ["m"; "x"])]>
                   (nodeMap mentionExtended))
         else <["m" := withText (withoutSegment true "John Smith")
                         (leafOf "m" "p" segmentedFlags "John Smith")]>
                (nodeMap mentionExtended).
Proof.
  apply (deleteCharacter_removes_segment
           ExampleSurface.nativeModify ExampleSurface.getPossibleDecoratorNode
           ExampleSurface.doesContainGrapheme ExampleSurface.collapseAtStart
           1 true mention mentionExtended
           (leafOf "m" "p" segmentedFlags "John Smith")
           (paragraphOf "p" ["m"; "x"]) "p").
  - reflexivity.
  - vm_compute. reflexivity.
  - reflexivity.
  - reflexivity.
  - intros _. eexists. vm_compute. reflexivity.
  - vm_compute. reflexivity.
  - reflexivity.
  - reflexivity.
  - reflexivity.
  - reflexivity.
  - reflexivity.
  - vm_compute. reflexivity.
  - reflexivity.
  - intros c [<- | [<- | []]]; eexists; vm_compute; reflexivity.
  - right. left. split; [reflexivity | vm_compute; discriminate].
Defined.

(** After a backward delete from behind "John Smith" the segmented leaf
    reads "John". *)
Example deleteBackward_mention :
  exists w',
    deleteBackward ExampleSurface.nativeModify
      ExampleSurface.getPossibleDecoratorNode ExampleSurface.doesContainGrapheme
      ExampleSurface.collapseAtStart 1 mention = Ok tt w'
    /\ getTextContent "root" w' = Ok "Johnx" w'.
Proof. eexists. split; vm_compute; reflexivity. Qed.

(** C6, as stated, fails.  With the caret behind the first segment of the
    segmented leaf "a b c", a backward delete leaves "a b": the segment
    next to the caret stays and the last one goes.  And a backward delete
    that enters the segmented leaf "John Smith " through its end takes the
    space at the end only, one character, so that all segments stay. *)
Lemma deleteCharacter_adjacent_segment_counterexample :
  (isCollapsedSel (selection insideSegments) = true
   /\ (isSegmented <$> nodeMap insideSegments !! "m") = Some true
   /\ exists w',
        deleteCharacter firstCharacterOfSegments
          ExampleSurface.getPossibleDecoratorNode
          ExampleSurface.doesContainGrapheme ExampleSurface.collapseAtStart
          1 true insideSegments = Ok tt w'
        /\ (__text <$> nodeMap w' !! "m") = Some "a b")
  /\ (isCollapsedSel (selection mentionWithSpace) = true
      /\ (isSegmented <$> nodeMap mentionWithSpace !! "m") = Some true
      /\ exists w',
           deleteCharacter lastCharacterOfMention
             ExampleSurface.getPossibleDecoratorNode
             ExampleSurface.doesContainGrapheme ExampleSurface.collapseAtStart
             1 true mentionWithSpace = Ok tt w'
           /\ (__text <$> nodeMap w' !! "m") = Some "John Smith").
Proof.
  split; (split; [reflexivity|]); (split; [reflexivity|]);
    eexists; split; vm_compute; reflexivity.
Qed.

Section ExampleHostProperties.

Import OutlineView OutlineEditor ExampleHost.

(** C1, as stated, fails when a draft is pending.  In the editor [drafted]
    a draft of time stamp 1 is pending.  The callback [nothing] marks no
    node dirty and keeps the selection, whatever view model is cloned;
    yet an update with it under time stamp 2 commits the pending draft
    first, so that the current view model changes and the listener is
    called; and an update with it under time stamp 1 returns [true]. *)
Lemma update_without_change_counterexample :
  marksNoNodeDirty nothing
  /\ keepsSelection nothing
  /\ (forall v, leavesSelectionOf unit createSelection nothing v)
  /\ fst (update nothing (Some 2) drafted) = false
  /\ _viewModel unit (editor unit (snd (update nothing (Some 2) drafted)))
     <> _viewModel unit (editor unit drafted)
  /\ notifications unit (snd (update nothing (Some 2) drafted))
     <> notifications unit drafted
  /\ fst (update nothing (Some 1) drafted) = true.
Proof.
  repeat split; try (intros v; reflexivity); try reflexivity.
  - intros v e. unfold viewModelHasDirtySelection, nothing. cbn.
    now rewrite bool_decide_eq_true_2.
  - vm_compute. discriminate.
  - vm_compute. discriminate.
Qed.

(** Also without a draft pending the callback [nothing] can end in a
    commit: the new draft starts from the selection of the surface, here a
    caret in the root, while the current view model has no selection; so
    the draft has a dirty selection although the callback keeps the
    selection it is given.  The update returns [true]; without a time stamp
    the listener is called, with one a commit is queued. *)
Example update_reads_the_surface_selection :
  marksNoNodeDirty nothing
  /\ keepsSelection nothing
  /\ _pendingViewModel unit (editor unit fresh) = None
  /\ fst (OutlineEditor.update unit caretOnSurface applyTextTransforms
            garbageCollectDetachedNodes nothing None fresh) = true
  /\ notifications unit
       (snd (OutlineEditor.update unit caretOnSurface applyTextTransforms
               garbageCollectDetachedNodes nothing None fresh))
     <> notifications unit fresh
  /\ fst (OutlineEditor.update unit caretOnSurface applyTextTransforms
            garbageCollectDetachedNodes nothing (Some 5) fresh) = true
  /\ microtasks unit
       (snd (OutlineEditor.update unit caretOnSurface applyTextTransforms
               garbageCollectDetachedNodes nothing (Some 5) fresh))
     = [CommitPendingUpdates].
Proof.
  repeat split; try (intros v; reflexivity); try reflexivity.
  vm_compute. discriminate.
Qed.

Lemma fresh_wellFormed : wellFormed unit fresh.
Proof. split; cbn; [lia | exact I]. Qed.

Lemma drafted_wellFormed : wellFormed unit drafted.
Proof.
  split; [vm_compute; lia|]. vm_compute.
  repeat split; [lia | discriminate | now left].
Qed.

Lemma update_without_change_witness :
  exists r',
    update nothing (Some 5) fresh = (false, r')
    /\ _pendingViewModel unit (editor unit r') = None
    /\ _viewModel unit (editor unit r') = _viewModel unit (editor unit fresh)
    /\ deref unit r' (_viewModel unit (editor unit r'))
       = deref unit fresh (_viewModel unit (editor unit fresh))
    /\ notifications unit r' = notifications unit fresh
    /\ microtasks unit r' = microtasks unit fresh.
Proof.
  apply (update_without_change_is_not_committed
           createSelection applyTextTransforms garbageCollectDetachedNodes
           fresh nothing (Some 5)).
  - reflexivity.
  - cbn. lia.
  - intros v. reflexivity.
  - reflexivity.
Defined.

Lemma update_with_pending_draft_witness :
  _pendingViewModel unit (editor unit drafted) = Some 1%nat
  /\ _updateTimeStamp unit (editor unit drafted) = 1
  /\ (let r' := snd (update nothing (Some 2) drafted) in
      let committed := commitPendingUpdates unit drafted in
      _viewModel unit (editor unit committed) = 1%nat
      /\ exists e2 later,
           store unit r'
           = store unit drafted
             ++ [fst (finishDraft unit applyTextTransforms
                        garbageCollectDetachedNodes
                        (nothing
                           (openDraft unit createSelection true
                              (cloneViewModel (deref unit drafted 1%nat)) e2))
                        e2)]
           /\ notifications unit r'
              = notifications unit drafted
                ++ notify unit (editor unit committed) ++ later)
  /\ (let r' := snd (update nothing (Some 1) drafted) in
      store unit r'
      = <[1%nat := fst (finishDraft unit applyTextTransforms
                          garbageCollectDetachedNodes
                          (nothing (deref unit drafted 1%nat))
                          (editor unit drafted))]> (store unit drafted)
      /\ List.length (store unit r') = List.length (store unit drafted)
      /\ _viewModel unit (editor unit r') = _viewModel unit (editor unit drafted)
      /\ notifications unit r' = notifications unit drafted
      /\ microtasks unit r' = microtasks unit drafted).
Proof.
  split; [reflexivity|]. split; [reflexivity|]. split.
  - apply (proj1 (update_with_pending_draft
                    createSelection applyTextTransforms
                    garbageCollectDetachedNodes
                    drafted nothing (Some 2) 1%nat eq_refl)).
    discriminate.
  - apply (proj2 (update_with_pending_draft
                    createSelection applyTextTransforms
                    garbageCollectDetachedNodes
                    drafted nothing (Some 1) 1%nat eq_refl)).
    reflexivity.
Defined.


End ExampleHostProperties.
(* ================================================================== *)
(** * More properties of the editor host *)
(* ================================================================== *)

Section HostMore.

Import OutlineView OutlineEditor EditorMethods.

Context {ReactNode : Type}.
Context (createSelection : ViewModel -> Editor ReactNode -> option Selection).
Context (applyTextTransforms : ViewModel -> Editor ReactNode -> ViewModel).
Context (garbageCollectDetachedNodes :
           ViewModel -> Editor ReactNode ->
           ViewModel * option (gmap string ReactNode)).

Local Abbreviation update :=
  (update ReactNode createSelection applyTextTransforms garbageCollectDetachedNodes).
Local Abbreviation reachable :=
  (reachable ReactNode createSelection applyTextTransforms garbageCollectDetachedNodes).
Local Abbreviation Runtime := (Runtime ReactNode).

Lemma runMicrotasks_settles (r : Runtime) :
  wellFormed _ r ->
  _pendingViewModel _ (editor _ (runMicrotasks _ r)) = None.
Proof.
  intros [Hv Hp].
  destruct (_pendingViewModel _ (editor _ r)) as [d|] eqn:E.
  - destruct Hp as (_ & _ & Hin).
    now apply (runMicrotasks_drafting r d E Hin).
  - unfold runMicrotasks. rewrite fold_commit_idle by exact E. exact E.
Qed.

(** X1.  In every state that an editor reaches from [createEditor()] by
    [addUpdateListener] and the function it returns, [addNodeDecorator],
    [update] and runs of the microtask queue, the current view model is an
    object of the store and a pending draft is another object of the store
    whose commit is queued; so that once the microtask queue has run, no
    draft is pending. *)
Theorem reachable_wellFormed (r : Runtime) (Hreach : reachable r) :
  wellFormed _ r
  /\ _pendingViewModel _ (editor _ (runMicrotasks _ r)) = None.
Proof.
  assert (Hwf : wellFormed _ r).
  { induction Hreach as [|l r _ IH|l r _ IH|k d r _ IH|cb ts r _ IH|r _ IH].
    - apply createEditor_wellFormed.
    - exact IH.
    - exact IH.
    - unfold addNodeDecorator. cbn.
      destruct (_pendingViewModel _ (editor _ r)) eqn:E.
      + destruct IH as [Hv Hp]. split; cbn; [exact Hv|]. now rewrite E in *.
      + destruct IH as [Hv Hp]. split; cbn; [exact Hv|]. now rewrite E.
    - now apply update_wellFormed.
    - now apply runMicrotasks_wellFormed. }
  split; [exact Hwf | now apply runMicrotasks_settles].
Qed.


Lemma commitPendingUpdates_settled (r : Runtime) :
  let r0 := commitPendingUpdates _ r in
  _pendingViewModel _ (editor _ r0) = None
  /\ store _ r0 = store _ r
  /\ microtasks _ r0 = microtasks _ r
  /\ _updateTimeStamp _ (editor _ r0) = _updateTimeStamp _ (editor _ r)
  /\ _updateListeners _ (editor _ r0) = _updateListeners _ (editor _ r).
Proof.
  unfold commitPendingUpdates.
  destruct (_pendingViewModel _ (editor _ r)) eqn:E; cbn; auto.
Qed.

Lemma commitOutdatedDraft_None (r : Runtime) :
  commitOutdatedDraft _ None r = (None, commitPendingUpdates _ r).
Proof.
  unfold commitOutdatedDraft, commitPendingUpdates. cbn.
  now destruct (_pendingViewModel _ (editor _ r)).
Qed.

(** X2.  An [update] without a time stamp is settled when it returns,
    whatever the callback and the state: no draft is pending, nothing was
    added to the microtask queue, the recorded time stamp is the old one;
    the current view model is the new draft when [update] returns [true],
    and otherwise what it was once a draft that was pending at the call
    had been committed; and the listeners were called for that pending
    draft, and then for the new one exactly when [update] returns
    [true]. *)
Theorem update_without_time_stamp_settles
    (r : Runtime) (callbackFn : ViewModel -> ViewModel) :
  let r0 := commitPendingUpdates _ r in
  let b := fst (update callbackFn None r) in
  let r' := snd (update callbackFn None r) in
  _pendingViewModel _ (editor _ r') = None
  /\ microtasks _ r' = microtasks _ r
  /\ _updateTimeStamp _ (editor _ r') = _updateTimeStamp _ (editor _ r)
  /\ _viewModel _ (editor _ r')
     = (if b then List.length (store _ r) else _viewModel _ (editor _ r0))
  /\ notifications _ r'
     = notifications _ r0 ++ (if b then notify _ (editor _ r') else []).
Proof.
  cbn zeta. unfold OutlineEditor.update. rewrite commitOutdatedDraft_None.
  pose proof (commitPendingUpdates_settled r) as (Hp & Hs & Hm & Ht & Hl).
  set (r0 := commitPendingUpdates _ r) in *.
  unfold ensureDraft, alloc. cbn [fst snd editor store].
  set (d := List.length (store _ r0)).
  set (r2 := withEditor _ _ _).
  pose proof (updateScope_spec createSelection applyTextTransforms
                garbageCollectDetachedNodes r2 callbackFn true d)
    as (Hs3 & Hv3 & Hp3 & Hl3 & Hm3 & Hn3).
  set (r3 := updateScope _ _ _ _ _ _ _ r2) in *.
  assert (Ht3 : _updateTimeStamp _ (editor _ r3) = _updateTimeStamp _ (editor _ r0)).
  { unfold r3, updateScope. destruct (finishDraft _ _ _ _ _). reflexivity. }
  assert (Hp3' : _pendingViewModel _ (editor _ r3) = Some d) by (now rewrite Hp3).
  unfold settleDraft.
  destruct (negb (shouldUpdate _ d r3)); cbn [fst snd].
  - cbn. rewrite Hm3, Hn3, Hv3, Ht3, app_nil_r. cbn. repeat split; auto.
  - pose proof (commitPendingUpdates_drafting r3 d Hp3')
      as (H1 & H2 & _ & H4 & _ & H6 & H7).
    rewrite H1, H2, H4, H6, H7, Hm3, Hn3, Ht3. cbn.
    repeat split; auto. unfold d. now rewrite Hs.
Qed.


Lemma commitOutdatedDraft_idle_stamped (r : Runtime) t :
  _pendingViewModel _ (editor _ r) = None ->
  let r1 := snd (commitOutdatedDraft _ (Some t) r) in
  fst (commitOutdatedDraft _ (Some t) r) = None
  /\ _pendingViewModel _ (editor _ r1) = None
  /\ _updateTimeStamp _ (editor _ r1) = t
  /\ _viewModel _ (editor _ r1) = _viewModel _ (editor _ r)
  /\ store _ r1 = store _ r
  /\ microtasks _ r1 = microtasks _ r
  /\ notifications _ r1 = notifications _ r.
Proof.
  intros Hidle. unfold commitOutdatedDraft, timeStampDiffers. rewrite Hidle.
  destruct (_updateTimeStamp _ (editor _ r) =? t) eqn:E; cbn.
  - apply Z.eqb_eq in E. repeat split; auto.
  - repeat split; auto.
Qed.

Lemma commitOutdatedDraft_same (r : Runtime) t :
  _updateTimeStamp _ (editor _ r) = t ->
  commitOutdatedDraft _ (Some t) r = (_pendingViewModel _ (editor _ r), r).
Proof.
  intros <-. unfold commitOutdatedDraft, timeStampDiffers.
  now rewrite Z.eqb_refl.
Qed.

Lemma updateScope_timeStamp (r2 : Runtime) callbackFn cloned d :
  _updateTimeStamp _
    (editor _ (updateScope _ createSelection applyTextTransforms
                 garbageCollectDetachedNodes callbackFn cloned d r2))
  = _updateTimeStamp _ (editor _ r2).
Proof. unfold updateScope. destruct (finishDraft _ _ _ _ _). reflexivity. Qed.

(** X3.  Two successive calls of [update] with one time stamp, from a
    state without a draft, which both return [true], work on one draft,
    the second callback on what the first call left of it; they queue one
    commit and call no listener; the run of the microtask queue then
    makes that draft the current view model and calls the listeners
    once. *)
Theorem update_same_time_stamp_coalesces
    (r r1 r2 : Runtime) (f g : ViewModel -> ViewModel) (t : Z)
    (Hidle : _pendingViewModel _ (editor _ r) = None)
    (Hfirst : update f (Some t) r = (true, r1))
    (Hsecond : update g (Some t) r1 = (true, r2)) :
  let d := List.length (store _ r) in
  _pendingViewModel _ (editor _ r2) = Some d
  /\ _viewModel _ (editor _ r2) = _viewModel _ (editor _ r)
  /\ microtasks _ r2 = microtasks _ r ++ [CommitPendingUpdates]
  /\ notifications _ r2 = notifications _ r
  /\ (exists draft1,
       store _ r1 = store _ r ++ [draft1]
       /\ store _ r2
          = store _ r
            ++ [fst (finishDraft _ applyTextTransforms garbageCollectDetachedNodes
                       (g draft1) (editor _ r1))])
  /\ let r3 := runMicrotasks _ r2 in
     _viewModel _ (editor _ r3) = d
     /\ _pendingViewModel _ (editor _ r3) = None
     /\ notifications _ r3 = notifications _ r ++ notify _ (editor _ r3).
Proof.
  intros d.
  (* the first call *)
  unfold OutlineEditor.update in Hfirst.
  pose proof (commitOutdatedDraft_idle_stamped r t Hidle)
    as (Hc0 & Hc1 & Hc2 & Hc3 & Hc4 & Hc5 & Hc6).
  destruct (commitOutdatedDraft _ (Some t) r) as [p0 ra] eqn:Ea.
  cbn [fst snd] in *. subst p0.
  unfold ensureDraft, alloc in Hfirst. cbn [fst snd editor store] in Hfirst.
  rewrite Hc4 in Hfirst. fold d in Hfirst.
  set (rb := withEditor _ _ _) in Hfirst.
  pose proof (updateScope_spec createSelection applyTextTransforms
                garbageCollectDetachedNodes rb f true d)
    as (Hs3 & Hv3 & Hp3 & Hl3 & Hm3 & Hn3).
  pose proof (updateScope_timeStamp rb f true d) as Ht3.
  set (rc := updateScope _ _ _ _ _ _ _ rb) in *.
  unfold settleDraft in Hfirst.
  destruct (negb (shouldUpdate _ d rc)); [discriminate|].
  injection Hfirst as Hr1.
  assert (Hst1 : store _ r1 = <[d := fst (finishDraft _ applyTextTransforms
                  garbageCollectDetachedNodes
                  (f (openDraft _ createSelection true (deref _ rb d) (editor _ rb)))
                  (editor _ rb))]> (store _ rb))
    by (rewrite <- Hr1; exact Hs3).
  assert (Hstb : store _ rb
                 = store _ r ++ [cloneViewModel (deref _ ra (_viewModel _ (editor _ ra)))])
    by reflexivity.
  rewrite Hstb in Hst1. unfold d in Hst1 at 1. rewrite insert_last in Hst1.
  set (draft1 := fst (finishDraft _ _ _ _ _)) in Hst1.
  assert (Hp1 : _pendingViewModel _ (editor _ r1) = Some d)
    by (rewrite <- Hr1; cbn; now rewrite Hp3).
  assert (Ht1 : _updateTimeStamp _ (editor _ r1) = t)
    by (rewrite <- Hr1; cbn; now rewrite Ht3).
  assert (Hv1 : _viewModel _ (editor _ r1) = _viewModel _ (editor _ r))
    by (rewrite <- Hr1; cbn; now rewrite Hv3).
  assert (Hm1 : microtasks _ r1 = microtasks _ r ++ [CommitPendingUpdates])
    by (rewrite <- Hr1; cbn; now rewrite Hm3; cbn; rewrite Hc5).
  assert (Hn1 : notifications _ r1 = notifications _ r)
    by (rewrite <- Hr1; cbn; now rewrite Hn3; cbn; rewrite Hc6).
  clear Hr1.
  (* the second call *)
  unfold OutlineEditor.update in Hsecond.
  rewrite (commitOutdatedDraft_same r1 t Ht1), Hp1 in Hsecond.
  unfold ensureDraft in Hsecond.
  pose proof (updateScope_spec createSelection applyTextTransforms
                garbageCollectDetachedNodes r1 g false d)
    as (Hs3' & Hv3' & Hp3' & Hl3' & Hm3' & Hn3').
  set (rd := updateScope _ _ _ _ _ _ _ r1) in *.
  unfold settleDraft in Hsecond.
  destruct (negb (shouldUpdate _ d rd)); [discriminate|].
  inversion Hsecond as [Hr2]. subst r2.
  assert (Hd1 : deref _ r1 d = draft1).
  { unfold deref. rewrite Hst1. rewrite lookup_app_r by (unfold d; lia).
    unfold d. now rewrite Nat.sub_diag. }
  assert (Hin : In CommitPendingUpdates (microtasks _ rd)).
  { rewrite Hm3', Hm1. apply in_or_app. right. now left. }
  assert (Hpd : _pendingViewModel _ (editor _ rd) = Some d) by (now rewrite Hp3').
  repeat split.
  - exact Hpd.
  - now rewrite Hv3'.
  - now rewrite Hm3'.
  - now rewrite Hn3'.
  - exists draft1. split; [exact Hst1|].
    rewrite Hs3'. cbn [openDraft]. rewrite Hd1, Hst1. unfold d.
    now rewrite insert_last.
  - now apply (runMicrotasks_drafting rd d Hpd Hin).
  - now apply (runMicrotasks_drafting rd d Hpd Hin).
  - pose proof (runMicrotasks_drafting rd d Hpd Hin) as (_ & _ & _ & _ & H).
    cbn zeta in H. now rewrite H, Hn3', Hn1.
Qed.


(** X4.  [setViewModel(viewModel)] makes the given view model the current
    one at once: [getViewModel()] returns it, no draft is pending, and the
    listeners have been called with it, after they were called for a draft
    that was pending at the call, which is committed first; the microtask
    queue is as it was. *)
Theorem setViewModel_commits (r : Runtime) (viewModel : ViewModelRef) :
  let r' := setViewModel _ viewModel r in
  getViewModel _ r' = viewModel
  /\ _pendingViewModel _ (editor _ r') = None
  /\ store _ r' = store _ r
  /\ microtasks _ r' = microtasks _ r
  /\ notifications _ r'
     = notifications _ (commitPendingUpdates _ r) ++ notify _ (editor _ r').
Proof.
  cbn zeta. unfold setViewModel, getViewModel.
  assert (Hr1 : match _pendingViewModel _ (editor _ r) with
                | Some _ => commitPendingUpdates _ r
                | None => r
                end = commitPendingUpdates _ r).
  { unfold commitPendingUpdates.
    now destruct (_pendingViewModel _ (editor _ r)). }
  rewrite Hr1.
  pose proof (commitPendingUpdates_settled r) as (Hp & Hs & Hm & Ht & Hl).
  set (r0 := commitPendingUpdates _ r) in *.
  set (r1 := withEditor _ _ r0).
  pose proof (commitPendingUpdates_drafting r1 viewModel eq_refl)
    as (H1 & H2 & _ & _ & H5 & H6 & H7).
  rewrite H1, H2, H5, H6, H7. cbn. auto.
Qed.

(** X5.  The function that [addUpdateListener(onChange)] returns takes
    the listener out again: called right after the registration of a
    listener that was not registered before, it leaves the listeners as
    they were; and a commit after it calls every other listener, in
    order, and never the removed one. *)
Theorem removed_listener_is_not_called (r : Runtime) (onChange : Listener) :
  (~ In onChange (_updateListeners _ (editor _ r)) ->
   _updateListeners _ (editor _ (removeUpdateListener _ onChange
                                   (addUpdateListener _ onChange r)))
   = _updateListeners _ (editor _ r))
  /\ (forall d,
        _pendingViewModel _ (editor _ r) = Some d ->
        let r' := commitPendingUpdates _ (removeUpdateListener _ onChange r) in
        exists calls,
          notifications _ r' = notifications _ r ++ calls
          /\ Forall (fun n => listener _ n <> onChange) calls
          /\ map (listener _) calls
             = List.filter (fun l => negb (bool_decide (l = onChange)))
                           (_updateListeners _ (editor _ r))).
Proof.
  split.
  - intros Hnot. cbn. unfold setAdd.
    rewrite bool_decide_eq_false_2 by (rewrite list_elem_of_In; exact Hnot).
    rewrite List.filter_app. cbn.
    rewrite bool_decide_eq_true_2 by reflexivity. cbn. rewrite app_nil_r.
    induction (_updateListeners _ (editor _ r)) as [|l ls IH]; [reflexivity|].
    cbn. rewrite bool_decide_eq_false_2 by (intros ->; apply Hnot; now left).
    cbn. f_equal. apply IH. intros H. apply Hnot. now right.
  - intros d Hd. cbn zeta.
    pose proof (commitPendingUpdates_drafting (removeUpdateListener _ onChange r) d Hd)
      as (_ & _ & Hl & _ & _ & _ & Hn).
    eexists. split; [exact Hn|].
    unfold notify. rewrite Hl. cbn [removeUpdateListener withEditor editor
      withUpdateListeners _updateListeners].
    split.
    + apply Forall_map. apply List.Forall_forall. intros l Hin.
      apply List.filter_In in Hin as [_ Hne]. cbn.
      apply negb_true_iff, bool_decide_eq_false in Hne. exact Hne.
    + rewrite map_map. cbn. now rewrite map_id.
Qed.

(** X6.  After [setEditorElement(element)], [getElementByKey('root')] and
    [getEditorElement()] return the element; after
    [setEditorElement(null)], [getElementByKey('root')] throws
    "getElementByKey failed for key root" and [getEditorElement()] returns
    [null]; no other key is affected; and in a new editor
    [getElementByKey] throws for every key. *)
Theorem getElementByKey_after_setEditorElement
    (r : Runtime) (g : Registries) (element : HTMLElement) :
  getElementByKey "root" (snd (setEditorElement _ (Some element) r g)) = inl element
  /\ getEditorElement _ (fst (setEditorElement _ (Some element) r g)) = Some element
  /\ getElementByKey "root" (snd (setEditorElement _ None r g))
     = inr "getElementByKey failed for key root"
  /\ getEditorElement _ (fst (setEditorElement _ None r g)) = None
  /\ (forall key editorElement,
        key <> "root" ->
        getElementByKey key (snd (setEditorElement _ editorElement r g))
        = getElementByKey key g)
  /\ (forall key,
        getElementByKey key newRegistries
        = inr ("getElementByKey failed for key " +:+ key)).
Proof.
  repeat split.
  - unfold setEditorElement, getElementByKey.
    destruct (_pendingViewModel _ _); cbn; now rewrite lookup_insert_eq.
  - unfold setEditorElement, getEditorElement.
    destruct (_pendingViewModel _ _) eqn:E; cbn; [|reflexivity].
    unfold commitPendingUpdates. cbn. reflexivity.
  - unfold setEditorElement, getElementByKey. cbn. now rewrite lookup_delete_eq.
  - intros key el Hne. unfold setEditorElement, getElementByKey.
    destruct el as [el|]; [destruct (_pendingViewModel _ _)|]; cbn.
    + now rewrite lookup_insert_ne by congruence.
    + now rewrite lookup_insert_ne by congruence.
    + now rewrite lookup_delete_ne by congruence.
Qed.

(** X7.  After [addNodeType(nodeType, klass)] the type name is registered
    with the class; the function that [addNodeType] returns then leaves
    the type name unregistered, also when it was registered before the
    call (as the four types of the constructor are), and the other type
    names as they were. *)
Theorem removeNodeType_forgets_the_type
    (g : Registries) (nodeType : string) (klass : NodeClass) :
  _registeredNodeTypes (addNodeType nodeType klass g) !! nodeType = Some klass
  /\ _registeredNodeTypes (removeNodeType nodeType (addNodeType nodeType klass g))
       !! nodeType = None
  /\ (forall other,
        other <> nodeType ->
        _registeredNodeTypes (removeNodeType nodeType (addNodeType nodeType klass g))
          !! other = _registeredNodeTypes g !! other).
Proof.
  repeat split; cbn.
  - apply lookup_insert_eq.
  - apply lookup_delete_eq.
  - intros other Hne. rewrite lookup_delete_ne by congruence.
    now rewrite lookup_insert_ne by congruence.
Qed.

End HostMore.

Section ExampleHostMore.

Import OutlineView OutlineEditor EditorMethods ExampleHost.

Lemma reachable_wellFormed_witness :
  wellFormed unit drafted
  /\ _pendingViewModel unit (editor unit (runMicrotasks unit drafted)) = None.
Proof.
  apply (reachable_wellFormed createSelection applyTextTransforms
           garbageCollectDetachedNodes drafted).
  apply (reach_update unit createSelection applyTextTransforms
           garbageCollectDetachedNodes touchRoot (Some 1) fresh).
  apply reach_addUpdateListener. apply reach_createEditor.
Defined.

Lemma update_same_time_stamp_witness :
  exists r2,
    update touchRoot (Some 1) drafted = (true, r2)
    /\ _pendingViewModel unit (editor unit r2) = Some 1%nat
    /\ microtasks unit r2 = [CommitPendingUpdates]
    /\ notifications unit r2 = []
    /\ notifications unit (runMicrotasks unit r2)
       = notify unit (editor unit (runMicrotasks unit r2)).
Proof.
  eexists. split; [vm_compute; reflexivity|].
  pose proof (update_same_time_stamp_coalesces
                createSelection applyTextTransforms garbageCollectDetachedNodes
                fresh drafted _ touchRoot touchRoot 1
                eq_refl eq_refl eq_refl)
    as (H1 & _ & H3 & H4 & _ & _ & _ & H7).
  repeat split; assumption.
Defined.

Lemma removed_listener_witness :
  _updateListeners unit
    (editor unit (removeUpdateListener unit 1%nat
                    (addUpdateListener unit 1%nat fresh)))
  = _updateListeners unit (editor unit fresh)
  /\ exists calls,
       notifications unit
         (commitPendingUpdates unit (removeUpdateListener unit 0%nat drafted))
       = notifications unit drafted ++ calls
       /\ Forall (fun n => listener unit n <> 0%nat) calls
       /\ map (listener unit) calls
          = List.filter (fun l => negb (bool_decide (l = 0%nat)))
                        (_updateListeners unit (editor unit drafted)).
Proof.
  split.
  - apply (proj1 (removed_listener_is_not_called fresh 1%nat)).
    cbn. intros [H | []]. discriminate.
  - apply (proj2 (removed_listener_is_not_called drafted 0%nat) 1%nat).
    reflexivity.
Defined.

Lemma getElementByKey_witness :
  getElementByKey "p" (snd (setEditorElement unit (Some 7%nat) fresh newRegistries))
  = getElementByKey "p" newRegistries.
Proof.
  apply (proj1 (proj2 (proj2 (proj2 (proj2
           (getElementByKey_after_setEditorElement fresh newRegistries 7%nat)))))
           "p" (Some 7%nat)).
  discriminate.
Defined.

Lemma removeNodeType_witness :
  _registeredNodeTypes newRegistries !! "text" = Some TextNodeClass
  /\ _registeredNodeTypes
       (removeNodeType "text" (addNodeType "text" (CustomNodeClass "mention")
                                 newRegistries)) !! "text" = None
  /\ _registeredNodeTypes
       (removeNodeType "text" (addNodeType "text" (CustomNodeClass "mention")
                                 newRegistries)) !! "root"
     = _registeredNodeTypes newRegistries !! "root".
Proof.
  pose proof (removeNodeType_forgets_the_type newRegistries "text"
                (CustomNodeClass "mention")) as (_ & H2 & H3).
  split; [reflexivity | split; [exact H2 | apply H3; discriminate]].
Defined.

End ExampleHostMore.
(** ** The root node: the other overrides *)

Lemma forEach_appendGuard_Ok w nodes :
  Forall (fun k => exists c, nodeMap w !! k = Some c /\ isBlockNode c = true) nodes ->
  forEach nodes RootNode.appendGuard w = Ok tt w.
Proof.
  induction 1 as [|k ks (c & Hc & Hb) _ IH]; [reflexivity|].
  simpl. rewrite (bind_Ok _ _ w tt w); [exact IH|].
  now rewrite (appendGuard_cases _ _ _ Hc), Hb.
Qed.

(** X8.  On the root node, [insertBefore] and [insertAfter] always raise
    their invariant error, whatever node is to be inserted; and when every
    node to append is a container of the draft, [append] on the root passes
    its guard and is the [append] of the container class. *)
Theorem root_rejects_siblings_and_appends_containers
    (w : World) (root : NodeKey) (n : Node)
    (Hroot : nodeMap w !! root = Some n) (His : isRootNode n = true) :
  (forall nodeToInsert,
      insertBefore root nodeToInsert w
      = Throw "insertBefore: cannot be called on root nodes")
  /\ (forall nodeToInsert,
      insertAfter root nodeToInsert w
      = Throw "insertAfter: cannot be called on root nodes")
  /\ (forall nodesToAppend,
      Forall (fun k => exists c, nodeMap w !! k = Some c /\ isBlockNode c = true)
             nodesToAppend ->
      append root nodesToAppend w = BlockNode.append root nodesToAppend w).
Proof.
  assert (Hget : getLatest root w = Ok n w) by now apply getLatest_Ok.
  split; [|split].
  - intros x. unfold insertBefore. now rewrite (bind_Ok _ _ _ _ _ Hget), His.
  - intros x. unfold insertAfter. now rewrite (bind_Ok _ _ _ _ _ Hget), His.
  - intros nodes Hall. unfold append. rewrite (bind_Ok _ _ _ _ _ Hget), His.
    unfold RootNode.append.
    now rewrite (bind_Ok _ _ _ _ _ (forEach_appendGuard_Ok _ _ Hall)).
Qed.

Lemma root_rejects_siblings_witness :
  insertBefore "root" "t" wholeLeaf
  = Throw "insertBefore: cannot be called on root nodes"
  /\ insertAfter "root" "t" wholeLeaf
     = Throw "insertAfter: cannot be called on root nodes"
  /\ append "root" ["p"] wholeLeaf = BlockNode.append "root" ["p"] wholeLeaf.
Proof.
  destruct (root_rejects_siblings_and_appends_containers wholeLeaf "root"
              (rootOf ["p"]) eq_refl eq_refl) as (Hb & Ha & Happ).
  split; [apply Hb | split; [apply Ha | apply Happ]].
  constructor; [|constructor]. eexists. split; reflexivity.
Defined.

(* ================================================================== *)
(** * More properties of the selection helpers *)
(* ================================================================== *)

(** ** Styles *)

Lemma getStyle_Ok w k n : nodeMap w !! k = Some n -> getStyle k w = Ok (__style n) w.
Proof. intros H. unfold getStyle. mstep. reflexivity. Qed.

Lemma getProperty_setProperty p k v o :
  getProperty p (setProperty k v o)
  = if bool_decide (k = p) then Some v else getProperty p o.
Proof.
  induction o as [|[k' v'] o IH]; cbn.
  - reflexivity.
  - destruct (decide (k' = k)) as [->|Hne].
    + rewrite bool_decide_eq_true_2 by reflexivity. cbn.
      now destruct (bool_decide (k = p)).
    + rewrite bool_decide_eq_false_2 by exact Hne. cbn. rewrite IH.
      destruct (decide (k' = p)) as [->|Hne'].
      * rewrite bool_decide_eq_true_2 by reflexivity.
        now rewrite bool_decide_eq_false_2 by congruence.
      * now rewrite (bool_decide_eq_false_2 (k' = p)) by exact Hne'.
Qed.

Lemma getProperty_absent p (o : list (string * string)) :
  ~ In p (map fst o) -> getProperty p o = None.
Proof.
  induction o as [|[k v] o IH]; [reflexivity|]. cbn. intros H.
  rewrite bool_decide_eq_false_2 by (intros ->; apply H; now left).
  apply IH. intros Hin. apply H. now right.
Qed.

Lemma getProperty_spread p prev patch :
  List.NoDup (map fst patch) ->
  getProperty p (spread prev patch)
  = match getProperty p patch with
    | Some v => Some v
    | None => getProperty p prev
    end.
Proof.
  unfold spread. revert prev.
  induction patch as [|[k v] patch IH]; intros prev Hnd; [reflexivity|].
  cbn [fold_left fst snd map] in *. inversion Hnd as [|? ? Hk Hnd']; subst.
  rewrite IH by exact Hnd'. cbn [getProperty].
  destruct (decide (k = p)) as [->|Hne].
  - rewrite bool_decide_eq_true_2 by reflexivity.
    rewrite (getProperty_absent p patch Hk).
    rewrite getProperty_setProperty. now rewrite bool_decide_eq_true_2.
  - rewrite bool_decide_eq_false_2 by exact Hne.
    destruct (getProperty p patch); [reflexivity|].
    rewrite getProperty_setProperty. now rewrite bool_decide_eq_false_2.
Qed.

Lemma setStyle_Ok w k n style :
  nodeMap w !! k = Some n -> __key n = k -> isImmutable n = false ->
  TextNode.setStyle k style w
  = Ok k (setNodeMap (<[k := withStyle style n]> (nodeMap w)) (markDirty k w)).
Proof.
  intros H Hk Hi. unfold TextNode.setStyle.
  mstep. rewrite Hi. cbn [negb invariant]. mstep. mstep. mstep.
  unfold ret, setNodeMap, withStyle. cbn. now rewrite Hk.
Qed.

Lemma patchNodeStyle_Ok w k n patch :
  nodeMap w !! k = Some n -> __key n = k -> isImmutable n = false ->
  let styles := patchedStyles w n patch in
  let css := getCSSFromStyleObject styles in
  patchNodeStyle k patch w
  = Ok tt (mkWorld (<[k := withStyle css n]> (nodeMap w)) (selection w)
                   ({[k]} ∪ dirtyNodes w) (keyCounter w)
                   (<[css := styles]> (cssToStyles w))).
Proof.
  intros H Hk Hi styles css. unfold patchNodeStyle.
  mrew (getStyle_Ok _ _ _ H). unfold getStyleObjectFromCSS. mstep.
  fold (patchedStyles w n patch). fold styles. fold css.
  mrew (setStyle_Ok _ _ _ css H Hk Hi). reflexivity.
Qed.

(** X9.  [patchNodeStyle] keeps the memo [cssToStyles] consistent: when
    every style string of the memo is the serialization of the style object
    kept for it, this is so afterwards too, and the new style string of the
    node is in the memo. *)
Theorem patchNodeStyle_keeps_memo_consistent
    (w : World) (k : NodeKey) (n : Node) (patch : list (string * string))
    (Hnode : nodeMap w !! k = Some n) (Hkey : __key n = k)
    (Hmutable : isImmutable n = false)
    (Hmemo : memoConsistent w) :
  exists w',
    patchNodeStyle k patch w = Ok tt w'
    /\ memoConsistent w'
    /\ exists n' styles,
         nodeMap w' !! k = Some n'
         /\ cssToStyles w' !! __style n' = Some styles
         /\ getCSSFromStyleObject styles = __style n'.
Proof.
  eexists. split; [apply (patchNodeStyle_Ok w k n patch); assumption|].
  split.
  - intros css styles. cbn [cssToStyles].
    destruct (decide (getCSSFromStyleObject (patchedStyles w n patch) = css))
      as [<-|Hne].
    + rewrite lookup_insert_eq. now intros [= <-].
    + rewrite lookup_insert_ne by exact Hne. apply Hmemo.
  - eexists _, _. cbn [nodeMap cssToStyles].
    split; [apply lookup_insert_eq|].
    cbn [withStyle __style]. split; [apply lookup_insert_eq | reflexivity].
Qed.

(** ** Ranges over one whole text node *)

Lemma Point_isBefore_same_node w k n a f :
  nodeMap w !! k = Some n ->
  Point_isBefore (mkPoint k a text) (mkPoint k f text) w = Ok (a <? f) w.
Proof.
  intros Hn. unfold Point_isBefore. cbn [key]. mstep. mstep.
  unfold gets, isBeforeIn.
  rewrite !(resolvePoint_text _ _ n) by (cbn; auto).
  cbn [key offset]. now rewrite bool_decide_eq_true_2.
Qed.

Lemma strlen_pos t : t <> "" -> 0 < strlen t.
Proof. destruct t; [congruence|]. intros _. unfold strlen. cbn. lia. Qed.

Lemma coversNode_offsets sel k n :
  coversNode sel k n ->
  exists a f,
    anchor sel = mkPoint k a text /\ focus sel = mkPoint k f text
    /\ a <> f
    /\ (if a <? f then a else f) = 0
    /\ (if f <? a then f else a) = 0
    /\ (if f <? a then a else f) = strlen (__text n).
Proof.
  intros [Hne [[Ha Hf]|[Ha Hf]]]; pose proof (strlen_pos _ Hne) as Hpos.
  - exists 0, (strlen (__text n)). repeat split; auto; try lia.
    + now rewrite (proj2 (Z.ltb_lt _ _) Hpos).
    + now rewrite (proj2 (Z.ltb_ge _ _)) by lia.
    + now rewrite (proj2 (Z.ltb_ge _ _)) by lia.
  - exists (strlen (__text n)), 0. repeat split; auto; try lia.
    + now rewrite (proj2 (Z.ltb_ge _ _)) by lia.
    + now rewrite (proj2 (Z.ltb_lt _ _) Hpos).
    + now rewrite (proj2 (Z.ltb_lt _ _) Hpos).
Qed.

Lemma patchStyleText_whole_node w k n patch :
  nodeMap w !! k = Some n -> __key n = k -> isTextNode n = true ->
  isImmutable n = false -> coversNode (selection w) k n ->
  let styles := patchedStyles w n patch in
  let css := getCSSFromStyleObject styles in
  patchStyleText patch w
  = Ok tt (mkWorld (<[k := withStyle css n]> (nodeMap w))
                   (mkSelection (mkPoint k 0 text)
                                (mkPoint k (strlen (__text n)) text)
                                (textFormat (selection w)))
                   ({[k]} ∪ dirtyNodes w) (keyCounter w)
                   (<[css := styles]> (cssToStyles w))).
Proof.
  intros Hn Hk Ht Hi Hcov styles css.
  pose proof (strlen_pos _ (proj1 Hcov)) as Hpos.
  destruct (coversNode_offsets _ _ _ Hcov) as (a & f & Ha & Hf & Hne & H1 & H2 & H3).
  unfold patchStyleText.
  mrew (getNodes_same_node _ _ _ _ _ Hn Ha Hf).
  mrew (isCollapsed_Ok w).
  assert (Hnc : isCollapsedSel (selection w) = false).
  { unfold isCollapsedSel, Point_is. rewrite Ha, Hf.
    apply bool_decide_eq_false_2. congruence. }
  rewrite Hnc. mstep. mstep. cbn [pointOf]. rewrite Ha, Hf.
  change (nthZ [k] 0) with (Some k). cbn [orTypeError]. mstep.
  mrew (getTextContent_text _ _ _ Hn Ht).
  mrew (Point_isBefore_same_node w k n a f Hn). cbn [offset].
  mrew (getTextContentSize_text _ _ _ Hn Ht).
  rewrite H1. rewrite (proj2 (Z.eqb_neq 0 (strlen (__text n)))) by lia.
  mstep. rewrite (bool_decide_eq_false_2 (is_Some None))
    by (intros [? ?]; discriminate).
  cbn [default from_option].
  change (nthZ [k] (lengthZ [k] - 1)) with (Some k).
  rewrite bool_decide_eq_true_2 by reflexivity.
  mrew (nodeIs_Ok isTextNode _ _ _ Hn). rewrite Ht.
  rewrite H2, H3.
  rewrite (proj2 (Z.eqb_neq 0 (strlen (__text n)))) by lia.
  rewrite !Z.eqb_refl. cbn [andb].
  mrew (patchNodeStyle_Ok w k n patch Hn Hk Hi). fold styles css.
  rewrite (select_text _ k (withStyle css n))
    by (cbn [nodeMap]; try apply lookup_insert_eq; exact Ht).
  reflexivity.
Qed.

Lemma getNodesIn_same_node m sel k n a f :
  m !! k = Some n ->
  anchor sel = mkPoint k a text -> focus sel = mkPoint k f text ->
  getNodesIn m sel = [k].
Proof.
  intros Hn Ha Hf. unfold getNodesIn. rewrite Ha, Hf.
  rewrite !(resolvePoint_text _ _ n) by (cbn; auto).
  cbn [key]. now rewrite bool_decide_eq_true_2.
Qed.

(** ** Reading styles *)

Lemma styleValueOfValues_Some values value :
  styleValueOfValues values (Some value)
  = Some (if forallb (fun x => bool_decide (value = x)) values
          then value else StringValue "").
Proof.
  induction values as [|v rest IH]; [reflexivity|]. cbn.
  destruct (decide (value = v)) as [<-|Hne].
  - now rewrite bool_decide_eq_true_2 by reflexivity.
  - now rewrite bool_decide_eq_false_2 by exact Hne.
Qed.

Section StyleProperties.

Context (prototypeProperty : string -> option nat).

Local Abbreviation readProperty' := (readProperty prototypeProperty).
Local Abbreviation styleValueIn' := (styleValueIn prototypeProperty).
Local Abbreviation getNodeStyleValueForProperty' :=
(getNodeStyleValueForProperty prototypeProperty).
Local Abbreviation getSelectionStyleValueForProperty' :=
(getSelectionStyleValueForProperty prototypeProperty).

Lemma getNodeStyleValueForProperty_Ok w k n styleProperty defaultValue :
nodeMap w !! k = Some n ->
getNodeStyleValueForProperty' k styleProperty defaultValue w
= Ok (styleValueIn' w styleProperty defaultValue k) w.
Proof.
intros H. unfold getNodeStyleValueForProperty, styleValueIn.
mrew (getStyle_Ok _ _ _ H). unfold getStyleObjectFromCSS. mstep.
rewrite H. now destruct (cssToStyles w !! __style n).
Qed.

Lemma styleValueOfNodes_Ok w styleProperty defaultValue nodes styleValue :
Forall (fun k => is_Some (nodeMap w !! k)) nodes ->
styleValueOfNodes prototypeProperty nodes styleProperty defaultValue styleValue w
= Ok (styleValueOfValues
        (map (styleValueIn' w styleProperty defaultValue) (textNodesIn w nodes))
        styleValue) w.
Proof.
intros Hall. revert styleValue.
induction Hall as [|k nodes [n Hn] _ IH]; intros styleValue; [reflexivity|].
cbn [styleValueOfNodes textNodesIn List.filter].
mrew (nodeIs_Ok isTextNode _ _ _ Hn). rewrite Hn.
destruct (isTextNode n); [|apply IH].
mrew (getNodeStyleValueForProperty_Ok _ _ _ styleProperty defaultValue Hn).
cbn [map styleValueOfValues].
destruct styleValue as [value|]; [|apply IH].
destruct (bool_decide (value = styleValueIn' w styleProperty defaultValue k));
  [apply IH | reflexivity].
Qed.

(** The value read is the one the loop over the nodes ends with, or the
  default. *)
Lemma getSelectionStyleValueForProperty_Ok w styleProperty defaultValue :
Forall (fun k => is_Some (nodeMap w !! k))
       (getNodesIn (nodeMap w) (selection w)) ->
getSelectionStyleValueForProperty' styleProperty defaultValue w
= Ok (match styleValueOfValues
              (map (styleValueIn' w styleProperty defaultValue)
                   (textNodesIn w (getNodesIn (nodeMap w) (selection w))))
              None with
      | Some value => value
      | None => StringValue defaultValue
      end) w.
Proof.
intros Hpresent. unfold getSelectionStyleValueForProperty.
mrew (getNodes_Ok w).
mrew (styleValueOfNodes_Ok w styleProperty defaultValue _ None Hpresent).
reflexivity.
Qed.

(** A read on a spread object: the patch first, then the object before. *)
Lemma readProperty_spread p prev patch :
List.NoDup (map fst patch) ->
readProperty' p (spread prev patch)
= match getProperty p patch with
  | Some v => Some (StringValue v)
  | None => readProperty' p prev
  end.
Proof.
intros Hnd. unfold readProperty. rewrite getProperty_spread by exact Hnd.
now destruct (getProperty p patch).
Qed.

(** What [patchNodeStyle] leaves to read of a property. *)
Lemma readProperty_patchedStyles w n patch p :
List.NoDup (map fst patch) ->
readProperty' p (patchedStyles w n patch)
= match getProperty p patch with
  | Some value => Some (StringValue value)
  | None =>
      match cssToStyles w !! __style n with
      | Some prev => readProperty' p prev
      | None => readProperty' p []
      end
  end.
Proof.
intros Hnd. unfold patchedStyles.
destruct (cssToStyles w !! __style n) as [prev|].
- now apply readProperty_spread.
- unfold readProperty. now destruct (getProperty p patch).
Qed.

(** X11.  [getSelectionStyleValueForProperty], for every property name
  and whatever [Object.prototype] holds, changes nothing and returns the
  value that the text nodes of the selection have in common: the default
  value when the selection has no text node, the value of the text nodes
  when they all have the same one, and the empty string as soon as two
  of them differ.  The value of a text node is what the read of the
  property on the memoized style object of its style string gives, which
  is a string of the object, or for a name that the object does not have
  itself and [Object.prototype] has (as [constructor]) that object or
  function and no string; the default stands in for the empty string and
  for a missing value or style object. *)
Theorem getSelectionStyleValueForProperty_common
  (w : World) (styleProperty defaultValue : string)
  (Hpresent : Forall (fun k => is_Some (nodeMap w !! k))
                     (getNodesIn (nodeMap w) (selection w))) :
getSelectionStyleValueForProperty' styleProperty defaultValue w
= Ok (commonValue
        (map (styleValueIn' w styleProperty defaultValue)
             (textNodesIn w (getNodesIn (nodeMap w) (selection w))))
        defaultValue) w.
Proof.
rewrite (getSelectionStyleValueForProperty_Ok w _ _ Hpresent).
f_equal. unfold commonValue.
destruct (map _ _) as [|v rest]; [reflexivity|].
cbn [styleValueOfValues]. now rewrite styleValueOfValues_Some.
Qed.

(** X10.  After [patchNodeStyle(node, patch)],
  [getNodeStyleValueForProperty] reads for a property, whatever its
  name: the string that the patch gives it; or else the string that the
  memoized style object of the old style string gives it; or else, for a
  name that [Object.prototype] has (as [constructor]), the object or
  function that every object inherits under it, which is no string; and
  the default when that is the empty string or there is none.  When the
  memo does not know the old style string, the old styles are lost and
  the new style string is the serialization of the patch alone, in the
  order of [for ... in]. *)
Theorem patchNodeStyle_then_read
  (w : World) (k : NodeKey) (n : Node) (patch : list (string * string))
  (styleProperty defaultValue : string)
  (Hnode : nodeMap w !! k = Some n) (Hkey : __key n = k)
  (Hmutable : isImmutable n = false)
  (Hobject : List.NoDup (map fst patch)) :
exists w',
  patchNodeStyle k patch w = Ok tt w'
  /\ getNodeStyleValueForProperty' k styleProperty defaultValue w'
     = Ok (orDefault
             (match getProperty styleProperty patch with
              | Some value => Some (StringValue value)
              | None =>
                  match cssToStyles w !! __style n with
                  | Some prev => readProperty' styleProperty prev
                  | None => readProperty' styleProperty []
                  end
              end) defaultValue) w'
  /\ (cssToStyles w !! __style n = None ->
      __style <$> (nodeMap w' !! k) = Some (getCSSFromStyleObject patch)).
Proof.
eexists. split; [apply (patchNodeStyle_Ok w k n patch); assumption|].
split.
- erewrite getNodeStyleValueForProperty_Ok
    by (cbn [nodeMap]; apply lookup_insert_eq).
  f_equal. unfold styleValueIn. cbn [nodeMap cssToStyles].
  rewrite lookup_insert_eq. cbn [withStyle __style]. rewrite lookup_insert_eq.
  now rewrite readProperty_patchedStyles by exact Hobject.
- intros Hnone. cbn [nodeMap]. rewrite lookup_insert_eq. cbn.
  unfold patchedStyles. now rewrite Hnone.
Qed.

(** X12.  [patchStyleText] on a selection that covers exactly the text of
  one text node, in either direction, patches the style of that node
  without splitting it: the text of the node and every other node are as
  before, the selection runs forward over the node, and
  [getSelectionStyleValueForProperty] then reads for a property,
  whatever its name: the string that the patch gives it; or else the
  string that the memoized style object of the old style string gives
  it; or else, for a name that [Object.prototype] has, the object or
  function that every object inherits under it; and the default when
  that is the empty string or there is none. *)
Theorem patchStyleText_then_read
  (w : World) (k : NodeKey) (n : Node) (patch : list (string * string))
  (styleProperty defaultValue : string)
  (Hnode : nodeMap w !! k = Some n) (Hkey : __key n = k)
  (Htext : isTextNode n = true) (Hmutable : isImmutable n = false)
  (Hcovers : coversNode (selection w) k n)
  (Hobject : List.NoDup (map fst patch)) :
exists w',
  patchStyleText patch w = Ok tt w'
  /\ __text <$> (nodeMap w' !! k) = Some (__text n)
  /\ (forall k', k' <> k -> nodeMap w' !! k' = nodeMap w !! k')
  /\ selection w'
     = mkSelection (mkPoint k 0 text) (mkPoint k (strlen (__text n)) text)
                   (textFormat (selection w))
  /\ getSelectionStyleValueForProperty' styleProperty defaultValue w'
     = Ok (orDefault
             (match getProperty styleProperty patch with
              | Some value => Some (StringValue value)
              | None =>
                  match cssToStyles w !! __style n with
                  | Some prev => readProperty' styleProperty prev
                  | None => readProperty' styleProperty []
                  end
              end) defaultValue) w'.
Proof.
eexists. split;
  [apply (patchStyleText_whole_node w k n patch); assumption|].
cbn [nodeMap selection].
split; [now rewrite lookup_insert_eq|].
split; [intros k' Hne; now rewrite lookup_insert_ne by congruence|].
split; [reflexivity|].
set (w' := mkWorld _ _ _ _ _).
assert (Hn' : nodeMap w' !! k
              = Some (withStyle (getCSSFromStyleObject (patchedStyles w n patch)) n))
  by (cbn; apply lookup_insert_eq).
assert (Hnodes : getNodesIn (nodeMap w') (selection w') = [k])
  by (eapply getNodesIn_same_node; [exact Hn'| reflexivity | reflexivity]).
rewrite getSelectionStyleValueForProperty_Ok
  by (rewrite Hnodes; repeat constructor; now rewrite Hn').
rewrite Hnodes. unfold textNodesIn. cbn [List.filter]. rewrite Hn'.
change (isTextNode (withStyle _ n)) with (isTextNode n). rewrite Htext.
cbn [map styleValueOfValues]. f_equal.
unfold styleValueIn. rewrite Hn'. cbn [withStyle __style cssToStyles w'].
rewrite lookup_insert_eq.
now rewrite readProperty_patchedStyles by exact Hobject.
Qed.

End StyleProperties.

(** ** Formatting one whole text node *)

Lemma setFormat_Ok w k n format :
  nodeMap w !! k = Some n -> __key n = k -> isImmutable n = false ->
  TextNode.setFormat k format w
  = Ok k (setNodeMap (<[k := withFormat format n]> (nodeMap w)) (markDirty k w)).
Proof.
  intros H Hk Hi. unfold TextNode.setFormat.
  mstep. rewrite Hi. cbn [negb invariant]. mstep. mstep. mstep.
  unfold ret, setNodeMap, withFormat. cbn. now rewrite Hk.
Qed.

Lemma formatText_whole_node w k n formatBit :
  nodeMap w !! k = Some n -> __key n = k -> isTextNode n = true ->
  isImmutable n = false -> coversNode (selection w) k n ->
  formatText formatBit w
  = Ok tt (mkWorld (<[k := withFormat (Z.lxor (__format n) formatBit) n]> (nodeMap w))
                   (mkSelection (mkPoint k 0 text)
                                (mkPoint k (strlen (__text n)) text)
                                (textFormat (selection w)))
                   ({[k]} ∪ dirtyNodes w) (keyCounter w) (cssToStyles w)).
Proof.
  intros Hn Hk Ht Hi Hcov.
  pose proof (strlen_pos _ (proj1 Hcov)) as Hpos.
  destruct (coversNode_offsets _ _ _ Hcov) as (a & f & Ha & Hf & Hne & H1 & H2 & H3).
  unfold formatText.
  mrew (getNodes_same_node _ _ _ _ _ Hn Ha Hf).
  mrew (isCollapsed_Ok w).
  assert (Hnc : isCollapsedSel (selection w) = false).
  { unfold isCollapsedSel, Point_is. rewrite Ha, Hf.
    apply bool_decide_eq_false_2. congruence. }
  rewrite Hnc. mstep. mstep. cbn [pointOf]. rewrite Ha, Hf.
  change (nthZ [k] 0) with (Some k). cbn [orTypeError]. mstep.
  mrew (getTextContent_text _ _ _ Hn Ht).
  cbn [firstTextNode]. mrew (nodeIs_Ok isTextNode _ _ _ Hn). rewrite Ht. mstep.
  unfold TextNode.getTextNodeFormat at 1. mstep. mstep.
  mrew (Point_isBefore_same_node w k n a f Hn). cbn [offset].
  mrew (getTextContentSize_text _ _ _ Hn Ht).
  rewrite H1. rewrite (proj2 (Z.eqb_neq 0 (strlen (__text n)))) by lia.
  mstep. rewrite (bool_decide_eq_false_2 (is_Some None))
    by (intros [? ?]; discriminate).
  cbn [default from_option]. mstep.
  change (nthZ [k] (lengthZ [k] - 1)) with (Some k).
  rewrite bool_decide_eq_true_2 by reflexivity.
  mrew (nodeIs_Ok isTextNode _ _ _ Hn). rewrite Ht.
  rewrite H2, H3.
  rewrite (proj2 (Z.eqb_neq 0 (strlen (__text n)))) by lia.
  rewrite !Z.eqb_refl. cbn [andb].
  mrew (setFormat_Ok w k n (toggleFormat (__format n) formatBit None) Hn Hk Hi).
  rewrite (select_text _ k (withFormat (toggleFormat (__format n) formatBit None) n))
    by (cbn [nodeMap]; try apply lookup_insert_eq; exact Ht).
  reflexivity.
Qed.

Lemma withFormat_same n : withFormat (__format n) n = n.
Proof. now destruct n. Qed.

(** X13.  [formatText] on a selection that covers exactly the text of one
    text node, in either direction, flips the bit of the format type in the
    format of that node and changes no other field and no other node; the
    selection runs forward over the node afterwards; and a second
    [formatText] with the same type gives back the node map it started
    from. *)
Theorem formatText_whole_node_toggles
    (w : World) (k : NodeKey) (n : Node) (formatBit : Z)
    (Hnode : nodeMap w !! k = Some n) (Hkey : __key n = k)
    (Htext : isTextNode n = true) (Hmutable : isImmutable n = false)
    (Hcovers : coversNode (selection w) k n) :
  exists w1 w2,
    formatText formatBit w = Ok tt w1
    /\ nodeMap w1 = <[k := withFormat (Z.lxor (__format n) formatBit) n]> (nodeMap w)
    /\ selection w1
       = mkSelection (mkPoint k 0 text) (mkPoint k (strlen (__text n)) text)
                     (textFormat (selection w))
    /\ formatText formatBit w1 = Ok tt w2
    /\ nodeMap w2 = nodeMap w
    /\ selection w2 = selection w1.
Proof.
  set (n1 := withFormat (Z.lxor (__format n) formatBit) n).
  eexists _, _. split;
    [apply (formatText_whole_node w k n formatBit); assumption|].
  split; [reflexivity|]. split; [reflexivity|].
  split.
  - apply (formatText_whole_node _ k n1 formatBit).
    + cbn [nodeMap]. apply lookup_insert_eq.
    + exact Hkey.
    + exact Htext.
    + exact Hmutable.
    + split; [exact (proj1 Hcovers)|]. left. split; reflexivity.
  - cbn [nodeMap selection textFormat]. split; [|reflexivity].
    rewrite insert_insert_eq.
    replace (withFormat (Z.lxor (__format n1) formatBit) n1) with n.
    + now apply insert_id.
    + unfold n1. cbn [withFormat __format __type __key __parent __flags
        __children __text __style].
      rewrite Z.lxor_assoc, Z.lxor_nilpotent, Z.lxor_0_r.
      now destruct n.
Qed.

Lemma memoConsistent_empty w : cssToStyles w = ∅ -> memoConsistent w.
Proof. intros H css styles. rewrite H. now rewrite lookup_empty. Qed.

Lemma patchNodeStyle_memo_witness :
  exists w',
    patchNodeStyle "t" [("color", "red")] scenario2 = Ok tt w'
    /\ memoConsistent w'
    /\ exists n' styles,
         nodeMap w' !! "t" = Some n'
         /\ cssToStyles w' !! __style n' = Some styles
         /\ getCSSFromStyleObject styles = __style n'.
Proof.
  apply (patchNodeStyle_keeps_memo_consistent scenario2 "t"
           (leafOf "t" "p" noFlags "ab") [("color", "red")]).
  - vm_compute. reflexivity.
  - reflexivity.
  - reflexivity.
  - apply memoConsistent_empty. reflexivity.
Defined.

Lemma NoDup_color : List.NoDup (map fst [("color", "red")]).
Proof. repeat constructor. intros []. Qed.

Lemma redLeaves_present :
  Forall (fun k => is_Some (nodeMap redLeaves !! k))
         (getNodesIn (nodeMap redLeaves) (selection redLeaves)).
Proof. vm_compute. repeat constructor; eexists; reflexivity. Qed.

Lemma getSelectionStyleValueForProperty_witness :
  getSelectionStyleValueForProperty standardPrototype "color" "black" redLeaves
  = Ok (StringValue "red") redLeaves
  /\ getSelectionStyleValueForProperty standardPrototype "constructor" "black"
       redLeaves
     = Ok (ObjectValue 0) redLeaves.
Proof.
  split.
  - refine (eq_trans (getSelectionStyleValueForProperty_common standardPrototype
                        redLeaves "color" "black" redLeaves_present) _).
    vm_compute. reflexivity.
  - refine (eq_trans (getSelectionStyleValueForProperty_common standardPrototype
                        redLeaves "constructor" "black" redLeaves_present) _).
    vm_compute. reflexivity.
Defined.

Lemma NoDup_b_2 : List.NoDup (map fst [("b", "1"); ("2", "x")]).
Proof.
  repeat constructor; cbn; intros H; repeat destruct H as [H|H];
    try discriminate H; exact H.
Qed.

Lemma patchNodeStyle_then_read_witness :
  exists w',
    patchNodeStyle "t" [("b", "1"); ("2", "x")] scenario2 = Ok tt w'
    /\ getNodeStyleValueForProperty standardPrototype "t" "b" "0" w'
       = Ok (StringValue "1") w'
    /\ __style <$> (nodeMap w' !! "t") = Some "2: x;b: 1;".
Proof.
  destruct (patchNodeStyle_then_read standardPrototype scenario2 "t"
              (leafOf "t" "p" noFlags "ab") [("b", "1"); ("2", "x")] "b" "0")
    as (w' & H & Hread & Hstyle).
  - vm_compute. reflexivity.
  - reflexivity.
  - reflexivity.
  - exact NoDup_b_2.
  - exists w'. split; [exact H|]. split; [exact Hread|].
    apply Hstyle. reflexivity.
Defined.

Lemma coversNode_wholeLeaf :
  coversNode (selection wholeLeaf) "t" (leafOf "t" "p" noFlags "ab").
Proof. split; [discriminate|]. left. split; reflexivity. Qed.

Lemma patchStyleText_then_read_witness :
  exists w',
    patchStyleText [("color", "red")] wholeLeaf = Ok tt w'
    /\ __text <$> (nodeMap w' !! "t") = Some "ab"
    /\ getSelectionStyleValueForProperty standardPrototype "color" "black" w'
       = Ok (StringValue "red") w'.
Proof.
  destruct (patchStyleText_then_read standardPrototype wholeLeaf "t"
              (leafOf "t" "p" noFlags "ab") [("color", "red")] "color" "black")
    as (w' & H1 & H2 & _ & _ & H5).
  - vm_compute. reflexivity.
  - reflexivity.
  - reflexivity.
  - reflexivity.
  - exact coversNode_wholeLeaf.
  - exact NoDup_color.
  - exists w'. split; [exact H1 | split; [exact H2 | exact H5]].
Defined.

Lemma formatText_whole_node_witness :
  exists w1 w2,
    formatText 1 wholeLeaf = Ok tt w1
    /\ nodeMap w1
       = <["t" := withFormat (Z.lxor 0 1) (leafOf "t" "p" noFlags "ab")]>
           (nodeMap wholeLeaf)
    /\ selection w1
       = mkSelection (mkPoint "t" 0 text) (mkPoint "t" 2 text) 0
    /\ formatText 1 w1 = Ok tt w2
    /\ nodeMap w2 = nodeMap wholeLeaf
    /\ selection w2 = selection w1.
Proof.
  apply (formatText_whole_node_toggles wholeLeaf "t" (leafOf "t" "p" noFlags "ab") 1).
  - vm_compute. reflexivity.
  - reflexivity.
  - reflexivity.
  - reflexivity.
  - exact coversNode_wholeLeaf.
Defined.

(** ** [insertText]: errors and removals *)

(** X14.  [insertText] with both points of the selection of text type, on
    nodes of the draft, raises the invariant error "insertText: first node is
    not a text node" when the selection covers no node or its first node is
    not a text node; nothing is inserted. *)
Theorem insertText_requires_text_node
    (fuel : nat) (t : string) (w : World)
    (Hanchor : type (anchor (selection w)) = text)
    (Hfocus : type (focus (selection w)) = text)
    (Hpoints : is_Some (nodeMap w !! key (anchor (selection w)))
               /\ is_Some (nodeMap w !! key (focus (selection w))))
    (Hfirst : match head (getNodesIn (nodeMap w) (selection w)) with
              | Some k => exists n, nodeMap w !! k = Some n /\ isTextNode n = false
              | None => True
              end) :
  insertText (S fuel) t w = Throw "insertText: first node is not a text node".
Proof.
  destruct Hpoints as [[na Hna] [nf Hnf]].
  cbn [insertText].
  mstep. mstep. mstep. cbn [pointOf].
  assert (Hb : exists b,
    (if isCollapsedSel (selection w) then ret true
     else Point_isBefore (anchor (selection w)) (focus (selection w))) w = Ok b w).
  { destruct (isCollapsedSel (selection w)); [now exists true|].
    eexists. unfold Point_isBefore. mstep. mstep. reflexivity. }
  destruct Hb as [b Hb]. mrew Hb.
  rewrite Hanchor, Hfocus.
  rewrite !(bool_decide_eq_false_2 (text = block)) by discriminate.
  rewrite !andb_false_r. mstep.
  mrew (getNodes_Ok w). mstep. mstep. mstep. mstep.
  destruct (head (getNodesIn (nodeMap w) (selection w))) as [k|].
  - destruct Hfirst as (n & Hn & Ht). cbn [optNodeIs].
    mrew (nodeIs_Ok isTextNode _ _ _ Hn). now rewrite Ht.
  - cbn [optNodeIs]. mstep. reflexivity.
Qed.

(** Within one plain text leaf, [insertText] is the splice of the selected
    range followed by the closing steps. *)
Lemma insertText_splices fuel w k n a f t :
  anchor (selection w) = mkPoint k a text ->
  focus (selection w) = mkPoint k f text ->
  nodeMap w !! k = Some n -> __key n = k -> plainText n ->
  (a <> f \/ __format n = textFormat (selection w)) ->
  insertText (S fuel) t w
  = afterSplice k t (splicedWorld w k n (Z.min a f) (Z.max a f - Z.min a f) t).
Proof.
  intros Ha Hf Hn Hk Hplain Hfmt.
  pose proof (plainText_mutable _ Hplain) as Hii.
  destruct Hplain as (Ht & Hseg & Himm & Hinert & Hend).
  cbn [insertText].
  mstep. mstep. mstep. cbn [pointOf]. rewrite Ha, Hf.
  mrew (isBefore_same_node _ _ _ _ _ Hn Ha Hf).
  cbn [type]. rewrite !(bool_decide_eq_false_2 (text = block)) by discriminate.
  rewrite !andb_false_r. mstep.
  mrew (getNodes_same_node _ _ _ _ _ Hn Ha Hf).
  mstep. mstep.
  assert (Hpts : exists s e,
    getPoint (if a <=? f then TheAnchor else TheFocus) w = Ok (mkPoint k s text) w
    /\ getPoint (if a <=? f then TheFocus else TheAnchor) w = Ok (mkPoint k e text) w
    /\ s = Z.min a f /\ e = Z.max a f
    /\ (s = e -> a = f)).
  { destruct (a <=? f) eqn:E.
    - exists a, f. unfold getPoint, gets. cbn [pointOf]. rewrite Ha, Hf.
      repeat split; lia.
    - exists f, a. unfold getPoint, gets. cbn [pointOf]. rewrite Ha, Hf.
      repeat split; lia. }
  destruct Hpts as (s & e & Hs & He & Hs' & He' & Hse).
  mrew Hs. mrew He.
  cbn [head optNodeIs]. mrew (nodeIs_Ok isTextNode _ _ _ Hn). rewrite Ht.
  mrew (getTextContent_text _ _ _ Hn Ht). mstep.
  rewrite Hseg, Himm, Hend. cbn [negb orb]. mstep.
  change (lengthZ [k] =? 1) with true. cbv iota.
  mrew (nodeIs_Ok isImmutableOrInert _ _ _ Hn). rewrite Hii.
  unfold getFormat. mstep. mstep. cbn [offset].
  assert (Hno : (s =? e) && negb (__format n =? textFormat (selection w)) = false).
  { destruct (s =? e) eqn:E; [|reflexivity]. apply Z.eqb_eq in E.
    destruct Hfmt as [Hd | ->]; [now specialize (Hse E)|].
    now rewrite Z.eqb_refl. }
  rewrite Hno. mstep.
  mrew (spliceText_Ok _ _ _ s (e - s) t true Hn Hk Hii).
  now rewrite Hs', He'.
Qed.

Lemma insertText_leaf fuel w k n a f t :
  anchor (selection w) = mkPoint k a text ->
  focus (selection w) = mkPoint k f text ->
  nodeMap w !! k = Some n -> __key n = k ->
  plainText n -> isComposing n = false ->
  (a <> f \/ __format n = textFormat (selection w)) ->
  splicedText (Z.min a f) (Z.max a f - Z.min a f) t (__text n) <> "" ->
  insertText (S fuel) t w
  = Ok tt (splicedWorld w k n (Z.min a f) (Z.max a f - Z.min a f) t).
Proof.
  intros Ha Hf Hn Hk Hplain Hcomp Hfmt Hleft.
  rewrite (insertText_splices fuel w k n a f t) by assumption.
  rewrite (afterSplice_Ok _ k (withText (splicedText (Z.min a f)
             (Z.max a f - Z.min a f) t (__text n)) n) t);
    [| cbn; apply lookup_insert_eq | exact (proj1 Hplain) | exact Hleft].
  change (isComposing (withText _ n)) with (isComposing n).
  now rewrite Hcomp.
Qed.

(** X15.  Within one plain text leaf that is not composing, [insertText]
    replaces the selected range (from the smaller to the larger of the two
    offsets, whichever of anchor and focus comes first) by the text, changes
    no other node, and leaves the selection collapsed right behind the
    inserted text with the same pending format.  For a collapsed selection
    the format of the leaf must be the pending format of the selection, and
    the leaf must not end up empty. *)
Theorem insertText_replaces_range
    (fuel : nat) (w : World) (k : NodeKey) (n : Node) (a f : Z) (t : string)
    (Hanchor : anchor (selection w) = mkPoint k a text)
    (Hfocus : focus (selection w) = mkPoint k f text)
    (Hnode : nodeMap w !! k = Some n) (Hkey : __key n = k)
    (Hplain : plainText n) (Hcomposing : isComposing n = false)
    (Hformat : a <> f \/ __format n = textFormat (selection w))
    (Hleft : splicedText (Z.min a f) (Z.max a f - Z.min a f) t (__text n) <> "") :
  let start := Z.min a f in
  let spliced := splicedText start (Z.max a f - start) t (__text n) in
  exists w',
    insertText (S fuel) t w = Ok tt w'
    /\ nodeMap w' = <[k := withText spliced n]> (nodeMap w)
    /\ selection w'
       = mkSelection (mkPoint k (start + strlen t) text)
                     (mkPoint k (start + strlen t) text)
                     (textFormat (selection w))
    /\ isCollapsedSel (selection w') = true.
Proof.
  intros start spliced. eexists. split.
  - apply (insertText_leaf fuel w k n a f t); assumption.
  - cbn. repeat split. unfold isCollapsedSel, Point_is.
    now apply bool_decide_eq_true_2.
Qed.

(** X16.  When the edit leaves the text of the leaf empty (the whole text
    selected and replaced by nothing), [insertText] removes the leaf: it is
    taken out of the children of its parent and its parent link is cleared;
    the other nodes are unchanged. *)
Theorem insertText_removes_emptied_leaf
    (fuel : nat) (w : World) (k pk : NodeKey) (n p : Node) (a f : Z) (t : string)
    (Hanchor : anchor (selection w) = mkPoint k a text)
    (Hfocus : focus (selection w) = mkPoint k f text)
    (Hnode : nodeMap w !! k = Some n) (Hkey : __key n = k)
    (Hplain : plainText n)
    (Hformat : a <> f \/ __format n = textFormat (selection w))
    (Hparent : __parent n = Some pk)
    (Hp : nodeMap w !! pk = Some p) (Hpkey : __key p = pk)
    (Hblock : isBlockNode p = true)
    (Hchildren : forall c, In c (__children p) -> is_Some (nodeMap w !! c))
    (Hempty : splicedText (Z.min a f) (Z.max a f - Z.min a f) t (__text n) = "") :
  exists w',
    insertText (S fuel) t w = Ok tt w'
    /\ nodeMap w'
       = <[k := withParent None (withText "" n)]>
           (<[pk := withChildren (removeKey k (__children p)) p]>
              (<[k := withText "" n]> (nodeMap w))).
Proof.
  assert (Hne : k <> pk).
  { intros <-. rewrite Hnode in Hp. injection Hp as <-.
    rewrite (isTextNode_not_block _ (proj1 Hplain)) in Hblock. discriminate. }
  rewrite (insertText_splices fuel w k n a f t) by assumption.
  set (ws := splicedWorld w k n _ _ t).
  assert (Hn' : nodeMap ws !! k = Some (withText "" n)).
  { unfold ws, splicedWorld. cbn. rewrite Hempty. apply lookup_insert_eq. }
  assert (Hp' : nodeMap ws !! pk = Some p).
  { unfold ws, splicedWorld. cbn. now rewrite lookup_insert_ne by exact Hne. }
  assert (Hch' : forall c, In c (__children p) -> is_Some (nodeMap ws !! c)).
  { intros c Hc. unfold ws, splicedWorld. cbn.
    destruct (decide (k = c)) as [->|Hkc].
    - rewrite lookup_insert_eq. eauto.
    - rewrite lookup_insert_ne by exact Hkc. now apply Hchildren. }
  destruct (remove_attached ws k pk (withText "" n) p Hn' Hp' Hparent
              (isTextNode_not_root _ (proj1 Hplain)) Hch') as [sel Hsel].
  unfold afterSplice.
  mrew (getTextContent_text _ _ _ Hn' (proj1 Hplain)).
  cbn [withText __text]. rewrite bool_decide_eq_true_2 by reflexivity.
  rewrite Hsel. eexists. split; [reflexivity|].
  cbn [nodeMap setNodeMap markDirty setSelection withText __key].
  rewrite Hkey, Hpkey. unfold ws, splicedWorld. cbn. now rewrite Hempty.
Qed.

(** X17.  A range inside a single immutable or inert text node that is not
    segmented: [insertText] does not write into the node, it removes the
    node from its parent; the text to insert is dropped and the text of the
    node is kept. *)
Theorem insertText_removes_immutable_node
    (fuel : nat) (w : World) (k pk : NodeKey) (n p : Node) (a f : Z) (t : string)
    (Hanchor : anchor (selection w) = mkPoint k a text)
    (Hfocus : focus (selection w) = mkPoint k f text)
    (Hrange : a <> f)
    (Hnode : nodeMap w !! k = Some n) (Hkey : __key n = k)
    (Htext : isTextNode n = true)
    (Hsegmented : isSegmented n = false)
    (Hrejects : isImmutableOrInert n = true)
    (Hparent : __parent n = Some pk)
    (Hp : nodeMap w !! pk = Some p) (Hpkey : __key p = pk)
    (Hchildren : forall c, In c (__children p) -> is_Some (nodeMap w !! c)) :
  exists w',
    insertText (S fuel) t w = Ok tt w'
    /\ nodeMap w'
       = <[k := withParent None n]>
           (<[pk := withChildren (removeKey k (__children p)) p]> (nodeMap w)).
Proof.
  destruct (remove_attached w k pk n p Hnode Hp Hparent
              (isTextNode_not_root _ Htext) Hchildren) as [sel Hsel].
  exists (setNodeMap
            (<[k := withParent None n]>
               (<[pk := withChildren (removeKey k (__children p)) p]> (nodeMap w)))
            (markDirty pk (markDirty k (setSelection sel w)))).
  split; [|reflexivity].
  rewrite Hkey, Hpkey in Hsel. rewrite <- Hsel.
  assert (Hnc : isCollapsedSel (selection w) = false).
  { unfold isCollapsedSel, Point_is. rewrite Hanchor, Hfocus.
    apply bool_decide_eq_false_2. congruence. }
  cbn [insertText].
  mstep. mstep. mstep. cbn [pointOf]. rewrite Hanchor, Hfocus.
  mrew (isBefore_same_node _ _ _ _ _ Hnode Hanchor Hfocus).
  cbn [type]. rewrite !(bool_decide_eq_false_2 (text = block)) by discriminate.
  rewrite !andb_false_r. mstep.
  mrew (getNodes_same_node _ _ _ _ _ Hnode Hanchor Hfocus).
  mstep. mstep. mstep. mstep.
  cbn [head optNodeIs]. mrew (nodeIs_Ok isTextNode _ _ _ Hnode). rewrite Htext.
  mrew (getTextContent_text _ _ _ Hnode Htext). mstep.
  rewrite Hsegmented. cbn [orb andb].
  destruct (isImmutable n || negb (canInsertTextAtEnd n)).
  - mstep. mrew (isCollapsed_Ok w). rewrite Hnc. cbn [andb]. mstep.
    change (lengthZ [k] =? 1) with true. cbv iota.
    mrew (nodeIs_Ok isImmutableOrInert _ _ _ Hnode). now rewrite Hrejects.
  - mstep.
    change (lengthZ [k] =? 1) with true. cbv iota.
    mrew (nodeIs_Ok isImmutableOrInert _ _ _ Hnode). now rewrite Hrejects.
Qed.


(** ** Cutting and restoring text *)

Lemma length_append a b :
  String.length (a +:+ b) = (String.length a + String.length b)%nat.
Proof.
  induction a as [|x a IH]; [reflexivity|]. rewrite append_String. cbn.
  now rewrite IH.
Qed.

Lemma substring_0_all s : substring 0 (String.length s) s = s.
Proof. induction s as [|x s IH]; [reflexivity|]. cbn. now rewrite IH. Qed.

Lemma substring_0_append a b : substring 0 (String.length a) (a +:+ b) = a.
Proof.
  induction a as [|x a IH]; [now destruct b|]. rewrite append_String. cbn.
  now rewrite IH.
Qed.

Lemma substring_skip_append a b m :
  substring (String.length a) m (a +:+ b) = substring 0 m b.
Proof.
  induction a as [|x a IH]; [reflexivity|]. rewrite append_String. cbn.
  exact IH.
Qed.

Lemma length_substring_0 s n :
  (n <= String.length s)%nat -> String.length (substring 0 n s) = n.
Proof.
  revert n. induction s as [|x s IH]; intros [|n] H; cbn in *; try lia.
  rewrite IH; lia.
Qed.

Lemma substring_split s n m :
  substring 0 n s +:+ substring n m s = substring 0 (n + m) s.
Proof.
  revert n. induction s as [|x s IH]; intros [|n].
  - now destruct m.
  - now destruct m.
  - reflexivity.
  - cbn [substring Nat.add]. rewrite append_String. now rewrite IH.
Qed.

Lemma append_assoc' a b c : (a +:+ b) +:+ c = a +:+ (b +:+ c).
Proof.
  induction a as [|x a IH]; [reflexivity|]. rewrite !append_String.
  now rewrite IH.
Qed.

Lemma splice_back s lo hi :
  0 <= lo -> lo <= hi -> hi <= strlen s ->
  splicedText lo 0 (sliceStr lo hi s) (splicedText lo (hi - lo) "" s) = s.
Proof.
  intros H0 H1 H2. unfold splicedText, sliceStr, sliceFrom, strlen in *.
  replace (lo + (hi - lo)) with hi by lia.
  replace (lo + 0) with lo by lia.
  rewrite !Z.sub_0_r, append_empty_l. change (Z.to_nat 0) with 0%nat.
  set (a := substring 0 (Z.to_nat lo) s).
  set (b := substring (Z.to_nat hi) (String.length s - Z.to_nat hi) s).
  assert (Ha : String.length a = Z.to_nat lo)
    by (apply length_substring_0; lia).
  rewrite <- Ha.
  rewrite substring_0_append, substring_skip_append, length_append.
  replace (String.length a + String.length b - String.length a)%nat
    with (String.length b) by lia.
  rewrite substring_0_all, Ha. unfold a, b.
  rewrite <- append_assoc', substring_split.
  replace (Z.to_nat lo + Z.to_nat (hi - lo))%nat with (Z.to_nat hi) by lia.
  rewrite substring_split.
  replace (Z.to_nat hi + (String.length s - Z.to_nat hi))%nat
    with (String.length s) by lia.
  apply substring_0_all.
Qed.

Lemma length_substring s n m :
  (n + m <= String.length s)%nat -> String.length (substring n m s) = m.
Proof.
  revert n m. induction s as [|x s IH]; intros [|n] [|m] H; cbn in *; try lia.
  - rewrite (IH 0%nat m); lia.
  - apply (IH n 0%nat); lia.
  - apply (IH n (S m)); lia.
Qed.

Lemma withText_same n : withText (__text n) n = n.
Proof. now destruct n. Qed.

Lemma withText_withText s t n : withText s (withText t n) = withText s n.
Proof. reflexivity. Qed.

(** X18.  In a plain text leaf that is not composing and has the pending
    format of the selection, with a range that is not empty inside its text
    and does not cover the whole text: [removeText] cuts the range out and
    leaves the caret at its start, and [insertText] of the cut text then
    gives back the node map of before, with the caret at the end of the
    former range. *)
Theorem removeText_then_insertText_restores
    (fuel : nat) (w : World) (k : NodeKey) (n : Node) (a f : Z)
    (Hanchor : anchor (selection w) = mkPoint k a text)
    (Hfocus : focus (selection w) = mkPoint k f text)
    (Hrange : a <> f)
    (Hbounds : 0 <= Z.min a f /\ Z.max a f <= strlen (__text n))
    (Hnode : nodeMap w !! k = Some n) (Hkey : __key n = k)
    (Hplain : plainText n) (Hcomposing : isComposing n = false)
    (Hformat : __format n = textFormat (selection w))
    (Hleft : splicedText (Z.min a f) (Z.max a f - Z.min a f) "" (__text n) <> "") :
  exists w1 w2,
    removeText (S fuel) w = Ok tt w1
    /\ selection w1
       = mkSelection (mkPoint k (Z.min a f) text) (mkPoint k (Z.min a f) text)
                     (textFormat (selection w))
    /\ insertText (S fuel) (sliceStr (Z.min a f) (Z.max a f) (__text n)) w1
       = Ok tt w2
    /\ nodeMap w2 = nodeMap w
    /\ selection w2
       = mkSelection (mkPoint k (Z.max a f) text) (mkPoint k (Z.max a f) text)
                     (textFormat (selection w)).
Proof.
  destruct Hbounds as [Hlo Hhi].
  set (lo := Z.min a f) in *. set (hi := Z.max a f) in *.
  set (cut := sliceStr lo hi (__text n)).
  set (n1 := withText (splicedText lo (hi - lo) "" (__text n)) n).
  assert (Hlohi : lo <= hi) by (unfold lo, hi; lia).
  assert (Hcut : strlen cut = hi - lo).
  { unfold cut, sliceStr, strlen in *. rewrite length_substring; lia. }
  assert (Hback : splicedText lo 0 cut (__text n1) = __text n)
    by (apply splice_back; assumption).
  pose (w1 := splicedWorld w k n lo (hi - lo) "").
  assert (H1 : removeText (S fuel) w = Ok tt w1).
  { unfold removeText. apply (insertText_leaf fuel w k n a f "");
      try assumption. now left. }
  assert (Hn1 : nodeMap w1 !! k = Some n1)
    by (cbn; apply lookup_insert_eq).
  assert (Hsel1 : selection w1
                  = mkSelection (mkPoint k lo text) (mkPoint k lo text)
                                (textFormat (selection w))).
  { cbn. change (strlen "") with 0. now rewrite Z.add_0_r. }
  assert (Hplain1 : plainText n1) by exact Hplain.
  exists w1. eexists. split; [exact H1|]. split; [exact Hsel1|].
  assert (H2 := insertText_leaf fuel w1 k n1 lo lo cut).
  rewrite Z.min_id, Z.max_id, Z.sub_diag in H2.
  rewrite H2; clear H2.
  - split; [reflexivity|]. split.
    + unfold splicedWorld at 1.
      cbn [nodeMap setNodeMap markDirty setSelection].
      rewrite Hback. unfold n1. rewrite withText_withText, withText_same.
      unfold w1, splicedWorld. cbn [nodeMap setNodeMap markDirty setSelection].
      rewrite insert_insert_eq. now apply insert_id.
    + unfold splicedWorld at 1. cbn [selection setNodeMap markDirty setSelection].
      rewrite Hcut, Hsel1. cbn [textFormat].
      now replace (lo + (hi - lo)) with hi by lia.
  - now rewrite Hsel1.
  - now rewrite Hsel1.
  - exact Hn1.
  - exact Hkey.
  - exact Hplain1.
  - exact Hcomposing.
  - right. rewrite Hsel1. exact Hformat.
  - rewrite Hback. intros E. rewrite E in Hhi. change (strlen "") with 0 in Hhi.
    apply Hrange. unfold lo, hi in *. lia.
Qed.

Lemma plainText_plain_leaf k p t : plainText (leafOf k p noFlags t).
Proof. now repeat split. Qed.

Lemma insertText_requires_text_node_witness :
  insertText 1 "x" textPointOnBlock
  = Throw "insertText: first node is not a text node".
Proof.
  apply (insertText_requires_text_node 0 "x" textPointOnBlock);
    [reflexivity | reflexivity | split; eexists; reflexivity |].
  vm_compute. eexists. split; reflexivity.
Defined.

Lemma insertText_replaces_range_witness :
  exists w',
    insertText 1 "X" wholeLeaf = Ok tt w'
    /\ nodeMap w' !! "t" = Some (leafOf "t" "p" noFlags "X")
    /\ selection w' = caretAt "t" 1.
Proof.
  destruct (insertText_replaces_range 0 wholeLeaf "t" (leafOf "t" "p" noFlags "ab")
              0 2 "X") as (w' & H & Hm & Hs & _);
    try reflexivity.
  - apply plainText_plain_leaf.
  - now left.
  - discriminate.
  - exists w'. split; [exact H|]. split.
    + rewrite Hm. now rewrite lookup_insert_eq.
    + exact Hs.
Defined.

Lemma insertText_removes_emptied_leaf_witness :
  exists w',
    insertText 1 "" wholeLeaf = Ok tt w'
    /\ nodeMap w' !! "p" = Some (paragraphOf "p" [])
    /\ (__parent <$> nodeMap w' !! "t") = Some None.
Proof.
  destruct (insertText_removes_emptied_leaf 0 wholeLeaf "t" "p"
              (leafOf "t" "p" noFlags "ab") (paragraphOf "p" ["t"]) 0 2 "")
    as (w' & H & Hm); try reflexivity.
  - apply plainText_plain_leaf.
  - now left.
  - intros c [<- | []]. eexists. reflexivity.
  - exists w'. split; [exact H|]. rewrite Hm. split; reflexivity.
Defined.

Lemma insertText_removes_immutable_node_witness :
  exists w',
    insertText 1 "X" immutableLeaf = Ok tt w'
    /\ nodeMap w' !! "p" = Some (paragraphOf "p" [])
    /\ (__text <$> nodeMap w' !! "t") = Some "ab".
Proof.
  destruct (insertText_removes_immutable_node 0 immutableLeaf "t" "p"
              (leafOf "t" "p" (mkFlags true false false false false) "ab")
              (paragraphOf "p" ["t"]) 0 1 "X")
    as (w' & H & Hm); try reflexivity.
  - discriminate.
  - intros c [<- | []]. eexists. reflexivity.
  - exists w'. split; [exact H|]. rewrite Hm. split; reflexivity.
Defined.

Lemma removeText_then_insertText_witness :
  exists w1 w2,
    removeText 1 partOfLeaf = Ok tt w1
    /\ insertText 1 "a" w1 = Ok tt w2
    /\ nodeMap w2 = nodeMap partOfLeaf
    /\ selection w2 = caretAt "t" 1.
Proof.
  destruct (removeText_then_insertText_restores 0 partOfLeaf "t"
              (leafOf "t" "p" noFlags "ab") 0 1)
    as (w1 & w2 & H1 & _ & H2 & Hm & Hs); try reflexivity.
  - discriminate.
  - split; [reflexivity | discriminate].
  - apply plainText_plain_leaf.
  - discriminate.
  - exists w1, w2. repeat split; assumption.
Defined.

(** ** [insertText] next to a node that takes no text, and into an empty leaf *)

Lemma substring_0_0 s : substring 0 0 s = "".
Proof. now destruct s. Qed.

Lemma splice_at_start t s : splicedText 0 0 t s = t +:+ s.
Proof.
  unfold splicedText, sliceStr, sliceFrom.
  change (Z.to_nat (0 - 0)) with 0%nat. change (Z.to_nat (0 + 0)) with 0%nat.
  change (Z.to_nat 0) with 0%nat.
  rewrite Nat.sub_0_r, substring_0_all, substring_0_0.
  now rewrite append_empty_l.
Qed.

Lemma splice_at_end t s : splicedText (strlen s) 0 t s = s +:+ t.
Proof.
  unfold splicedText, sliceStr, sliceFrom, strlen.
  rewrite Z.add_0_r, Z.sub_0_r, Nat2Z.id. change (Z.to_nat 0) with 0%nat.
  rewrite substring_0_all, Nat.sub_diag.
  replace (substring (String.length s) 0 s) with "".
  - now rewrite append_empty_r.
  - clear. induction s as [|c s IH]; [reflexivity|]. exact IH.
Qed.

(** X26.  A caret at the end (or at the start) of a text node that is
    segmented, immutable or takes no text at its end, with a plain text
    node that is not composing and has the pending format of the selection
    as next (or previous) sibling: [insertText] of a text that is not
    empty leaves the node as it is and inserts the text at the start (or at
    the end) of the sibling, with the caret behind the inserted text; no
    other node changes.  The end is tried first, so for the start the node
    must not be empty. *)
Theorem insertText_next_to_rejecting_node_goes_to_sibling
    (fuel : nat) (atEnd : bool) (t : string) (w : World) (k sibling : NodeKey)
    (n sn : Node)
    (Hanchor : anchor (selection w)
               = mkPoint k (if atEnd then strlen (__text n) else 0) text)
    (Hfocus : focus (selection w) = anchor (selection w))
    (Hnode : nodeMap w !! k = Some n) (Htext : isTextNode n = true)
    (Hnotempty : atEnd = false -> __text n <> "")
    (Hrejects : isSegmented n || isImmutable n || negb (canInsertTextAtEnd n)
                = true)
    (Hnext : (if atEnd then getNextSibling k else getPreviousSibling k) w
             = Ok (Some sibling) w)
    (Hsibling : nodeMap w !! sibling = Some sn) (Hkey : __key sn = sibling)
    (Hplain : plainText sn) (Hcomposing : isComposing sn = false)
    (Hformat : __format sn = textFormat (selection w))
    (Hsome : t <> "") :
  let caret :=
    mkPoint sibling
      (if atEnd then strlen t else strlen (__text sn) + strlen t) text in
  exists w',
    insertText (S (S fuel)) t w = Ok tt w'
    /\ nodeMap w'
       = <[sibling := withText (if atEnd then t +:+ __text sn
                                else __text sn +:+ t) sn]> (nodeMap w)
    /\ selection w' = mkSelection caret caret (textFormat (selection w)).
Proof.
  intros caret.
  pose proof (plainText_mutable _ Hplain) as Hii.
  set (o := if atEnd then strlen (__text n) else 0) in *.
  set (so := if atEnd then 0 else strlen (__text sn)).
  rewrite Hanchor in Hfocus.
  pose (w1 := setSelection
                (mkSelection (mkPoint sibling so text) (mkPoint sibling so text)
                   (textFormat (selection w))) w).
  assert (Hc : isCollapsedSel (selection w) = true).
  { unfold isCollapsedSel, Point_is. rewrite Hanchor, Hfocus.
    now apply bool_decide_eq_true_2. }
  assert (Hlen : strlen (__text n) <> 0 -> __text n <> "").
  { intros H E. now rewrite E in H. }
  assert (Hrun : forall fuel0, insertText (S fuel0) t w = insertText fuel0 t w1).
  { intros fuel0. cbn [insertText].
    mstep. mstep. mstep. cbn [pointOf]. rewrite Hanchor, Hfocus.
    mrew (isBefore_same_node _ _ _ _ _ Hnode Hanchor Hfocus).
    cbn [type]. rewrite !(bool_decide_eq_false_2 (text = block)) by discriminate.
    rewrite !andb_false_r. mstep.
    mrew (getNodes_same_node _ _ _ _ _ Hnode Hanchor Hfocus).
    mstep. mstep. rewrite Z.leb_refl. mstep. mstep.
    cbn [head optNodeIs]. mrew (nodeIs_Ok isTextNode _ _ _ Hnode). rewrite Htext.
    mrew (getTextContent_text _ _ _ Hnode Htext). mstep.
    rewrite Hrejects. mstep. cbn [pointOf]. rewrite Hanchor. cbn [offset].
    mrew (isCollapsed_Ok w). rewrite Hc. cbn [andb].
    destruct atEnd; subst o so.
    - rewrite Z.eqb_refl.
      mrew Hnext. cbn [optNodeIs].
      mrew (nodeIs_Ok isTextNode _ _ _ Hsibling).
      mrew (nodeIs_Ok isImmutableOrInert _ _ _ Hsibling).
      mrew (nodeIs_Ok isSegmented _ _ _ Hsibling).
      rewrite (proj1 Hplain), Hii, (proj1 (proj2 Hplain)). cbn [negb orb].
      mstep.
      mrew (select_text w sibling sn (Some 0) (Some 0) Hsibling (proj1 Hplain)).
      cbn [default from_option id]. fold w1.
      rewrite (bool_decide_eq_false_2 (t = "")) by exact Hsome. cbn [negb].
      mnorm. unfold bind at 1.
      destruct (insertText fuel0 t w1) as [[] w2|]; reflexivity.
    - replace (0 =? strlen (__text n)) with false.
      2: { symmetry. apply Z.eqb_neq. intros E.
           apply (Hnotempty eq_refl). destruct (__text n); [reflexivity|].
           discriminate. }
      cbn [Z.eqb].
      mrew Hnext. cbn [optNodeIs].
      mrew (nodeIs_Ok isTextNode _ _ _ Hsibling).
      mrew (nodeIs_Ok isImmutableOrInert _ _ _ Hsibling).
      mrew (nodeIs_Ok isSegmented _ _ _ Hsibling).
      rewrite (proj1 Hplain), Hii, (proj1 (proj2 Hplain)). cbn [negb orb].
      mstep.
      mrew (select_text w sibling sn None None Hsibling (proj1 Hplain)).
      cbn [default from_option id]. fold w1.
      rewrite (bool_decide_eq_false_2 (t = "")) by exact Hsome. cbn [negb].
      mnorm. unfold bind at 1.
      destruct (insertText fuel0 t w1) as [[] w2|]; reflexivity. }
  rewrite Hrun.
  pose proof (insertText_leaf fuel w1 sibling sn so so t eq_refl eq_refl Hsibling
                Hkey Hplain Hcomposing (or_intror Hformat)) as H2.
  rewrite Z.min_id, Z.max_id, Z.sub_diag in H2.
  assert (Hsp : splicedText so 0 t (__text sn)
                = if atEnd then t +:+ __text sn else __text sn +:+ t).
  { unfold so. destruct atEnd; [apply splice_at_start | apply splice_at_end]. }
  rewrite H2.
  - eexists. split; [reflexivity|]. unfold splicedWorld. rewrite Hsp.
    split; [reflexivity|]. unfold caret, so. now destruct atEnd.
  - rewrite Hsp. destruct t as [|c t']; [congruence|].
    destruct atEnd.
    + rewrite append_String. discriminate.
    + destruct (__text sn); [rewrite append_empty_l|rewrite append_String];
        discriminate.
Qed.

Lemma insertText_sibling_witness :
  exists w',
    insertText 2 "a" afterMention = Ok tt w'
    /\ nodeMap w' !! "t" = Some (leafOf "t" "p" noFlags "abc")
    /\ nodeMap w' !! "m" = nodeMap afterMention !! "m"
    /\ selection w' = caretAt "t" 1.
Proof.
  destruct (insertText_next_to_rejecting_node_goes_to_sibling 0 true "a"
              afterMention "m" "t"
              (leafOf "m" "p" (mkFlags true false false false false) "@ann")
              (leafOf "t" "p" noFlags "bc"))
    as (w' & H & Hm & Hs); try reflexivity.
  - discriminate.
  - apply plainText_plain_leaf.
  - discriminate.
  - exists w'. split; [exact H|]. rewrite Hm. repeat split. exact Hs.
Defined.

(** In an empty plain text leaf the pending format is written first when it
    differs from the format of the leaf, and the text is spliced in then. *)
Lemma insertText_empty_leaf fuel t w k n :
  anchor (selection w) = mkPoint k 0 text ->
  focus (selection w) = mkPoint k 0 text ->
  nodeMap w !! k = Some n -> __key n = k ->
  plainText n -> isComposing n = false -> __text n = "" -> t <> "" ->
  exists w1,
    nodeMap w1 = <[k := withFormat (textFormat (selection w)) n]> (nodeMap w)
    /\ selection w1 = selection w
    /\ insertText (S fuel) t w
       = Ok tt (splicedWorld w1 k (withFormat (textFormat (selection w)) n) 0 0 t).
Proof.
  intros Hanchor Hfocus Hnode Hkey Hplain Hcomposing Hempty Hsome.
  assert (Hsp : splicedText 0 0 t "" = t).
  { rewrite splice_at_start. apply append_empty_r. }
  destruct (decide (__format n = textFormat (selection w))) as [Hfmt | Hfmt].
  - exists w. rewrite <- Hfmt, withFormat_same.
    split; [now rewrite insert_id|]. split; [reflexivity|].
    pose proof (insertText_leaf fuel w k n 0 0 t Hanchor Hfocus Hnode Hkey
                  Hplain Hcomposing (or_intror Hfmt)) as H.
    rewrite Z.min_id, Z.max_id, Z.sub_diag, Hempty, Hsp in H.
    exact (H Hsome).
  - pose proof (plainText_mutable _ Hplain) as Hii.
    destruct Hplain as (Ht & Hseg & Himm & Hinert & Hend).
    set (n1 := withFormat (textFormat (selection w)) n).
    set (w1 := setNodeMap (<[k := n1]> (nodeMap w)) (markDirty k w)).
    assert (Hn1 : nodeMap w1 !! k = Some n1) by (cbn; apply lookup_insert_eq).
    exists w1. split; [reflexivity|]. split; [reflexivity|].
    assert (Hrun : insertText (S fuel) t w = afterSplice k t
                     (splicedWorld w1 k n1 0 0 t)).
    { cbn [insertText].
      mstep. mstep. mstep. cbn [pointOf]. rewrite Hanchor, Hfocus.
      mrew (isBefore_same_node _ _ _ _ _ Hnode Hanchor Hfocus).
      cbn [type]. rewrite !(bool_decide_eq_false_2 (text = block)) by discriminate.
      rewrite !andb_false_r. mstep.
      mrew (getNodes_same_node _ _ _ _ _ Hnode Hanchor Hfocus).
      mstep. mstep. rewrite Z.leb_refl. mstep. mstep.
      cbn [head optNodeIs]. mrew (nodeIs_Ok isTextNode _ _ _ Hnode). rewrite Ht.
      mrew (getTextContent_text _ _ _ Hnode Ht). mstep.
      rewrite Hseg, Himm, Hend. cbn [negb orb]. mstep.
      change (lengthZ [k] =? 1) with true. cbv iota.
      mrew (nodeIs_Ok isImmutableOrInert _ _ _ Hnode). rewrite Hii.
      unfold getFormat. mstep. mstep. cbn [pointOf].
      rewrite Hanchor, Hfocus. cbn [offset Z.eqb andb].
      replace (__format n =? textFormat (selection w)) with false
        by (symmetry; now apply Z.eqb_neq).
      cbn [negb]. mrew (getTextContent_text _ _ _ Hnode Ht).
      rewrite Hempty, bool_decide_eq_true_2 by reflexivity.
      mrew (setFormat_Ok w k n (textFormat (selection w)) Hnode Hkey Himm).
      fold n1 w1. mstep.
      mrew (spliceText_Ok w1 k n1 0 (0 - 0) t true Hn1 Hkey Hii).
      reflexivity. }
    rewrite Hrun.
    assert (Htext1 : __text n1 = "") by exact Hempty.
    rewrite (afterSplice_Ok _ k (withText t n1) t).
    + change (isComposing (withText t n1)) with (isComposing n).
      now rewrite Hcomposing.
    + unfold splicedWorld. cbn [nodeMap setNodeMap markDirty setSelection].
      rewrite Htext1, Hsp. apply lookup_insert_eq.
    + exact Ht.
    + exact Hsome.
Qed.

(** X27.  [insertText] of a text that is not empty with the caret in an
    empty plain text leaf that is not composing: the leaf gets the text
    and the pending format of the selection, whatever its format was; no
    other node changes and the caret is behind the text. *)
Theorem insertText_into_empty_leaf_takes_pending_format
    (fuel : nat) (t : string) (w : World) (k : NodeKey) (n : Node)
    (Hanchor : anchor (selection w) = mkPoint k 0 text)
    (Hfocus : focus (selection w) = mkPoint k 0 text)
    (Hnode : nodeMap w !! k = Some n) (Hkey : __key n = k)
    (Hplain : plainText n) (Hcomposing : isComposing n = false)
    (Hempty : __text n = "")
    (Hsome : t <> "") :
  exists w',
    insertText (S fuel) t w = Ok tt w'
    /\ nodeMap w'
       = <[k := withText t (withFormat (textFormat (selection w)) n)]> (nodeMap w)
    /\ selection w'
       = mkSelection (mkPoint k (strlen t) text) (mkPoint k (strlen t) text)
                     (textFormat (selection w)).
Proof.
  destruct (insertText_empty_leaf fuel t w k n Hanchor Hfocus Hnode Hkey Hplain
              Hcomposing Hempty Hsome) as (w1 & Hm1 & Hs1 & Hrun).
  eexists. split; [exact Hrun|].
  unfold splicedWorld. cbn [nodeMap selection setNodeMap markDirty setSelection].
  change (__text (withFormat (textFormat (selection w)) n)) with (__text n).
  rewrite Hm1, Hs1, Hempty, splice_at_start, append_empty_r, insert_insert_eq.
  split; reflexivity.
Qed.

Lemma insertText_empty_leaf_witness :
  exists w',
    insertText 1 "x" emptyBoldLeaf = Ok tt w'
    /\ nodeMap w' !! "t" = Some (mkNode TextType "t" (Some "p") noFlags [] "x" 1 "")
    /\ selection w' = mkSelection (mkPoint "t" 1 text) (mkPoint "t" 1 text) 1.
Proof.
  destruct (insertText_into_empty_leaf_takes_pending_format 0 "x" emptyBoldLeaf
              "t" (leafOf "t" "p" noFlags ""))
    as (w' & H & Hm & Hs); try reflexivity.
  - apply plainText_plain_leaf.
  - discriminate.
  - exists w'. split; [exact H|]. split; [|exact Hs].
    rewrite Hm. now rewrite lookup_insert_eq.
Defined.

(** ** [insertText] at a block point *)

Lemma createTextNode_Ok w t :
  createTextNode t w
  = Ok (nextKey w)
       (markDirty (nextKey w)
          (setNodeMap
             (<[nextKey w := mkNode TextType (nextKey w) None noFlags [] t 0 ""]>
                (nodeMap w))
             (mkWorld (nodeMap w) (selection w) (dirtyNodes w)
                      (N.succ (keyCounter w)) (cssToStyles w)))).
Proof.
  unfold createTextNode, generateKey. mstep. mstep. mstep. mstep.
  fold (nextKey w).
  set (n := mkNode TextType (nextKey w) None noFlags [] t 0 "").
  set (w1 := setNodeMap _ _).
  assert (H : nodeMap w1 !! nextKey w = Some n) by (cbn; apply lookup_insert_eq).
  mrew (getWritable_Ok _ _ _ H). reflexivity.
Qed.

Lemma transfer_appends w p pn o :
  anchor (selection w) = mkPoint p o block ->
  focus (selection w) = mkPoint p o block ->
  nodeMap w !! p = Some pn -> __key pn = p -> isRootNode pn = false ->
  nthZ (__children pn) o = None ->
  nodeMap w !! nextKey w = None ->
  exists w1,
    transferStartingBlockPointToTextPoint TheAnchor TheFocus w = Ok tt w1
    /\ nodeMap w1
       = <[nextKey w := mkNode TextType (nextKey w) (Some p) noFlags [] "" 0 ""]>
           (<[p := withChildren (__children pn ++ [nextKey w]) pn]> (nodeMap w))
    /\ selection w1
       = mkSelection (mkPoint (nextKey w) 0 text) (mkPoint (nextKey w) 0 text)
                     (textFormat (selection w)).
Proof.
  intros Ha Hf Hp Hk Hroot Hnone Hfresh.
  set (kf := nextKey w) in *.
  assert (Hne : kf <> p) by (intros E; rewrite E in Hfresh; congruence).
  unfold transferStartingBlockPointToTextPoint.
  eexists. split.
  - mstep. cbn [pointOf]. rewrite Ha. cbn [key offset].
    mstep. unfold getChildAtIndex. mstep. mstep. rewrite Hnone.
    mrew (createTextNode_Ok w ""). fold kf.
    set (leaf := mkNode TextType kf None noFlags [] "" 0 "").
    set (wc := markDirty kf _).
    assert (Hpc : nodeMap wc !! p = Some pn).
    { unfold wc. cbn. now rewrite lookup_insert_ne. }
    assert (Hkc : nodeMap wc !! kf = Some leaf).
    { unfold wc. cbn. apply lookup_insert_eq. }
    unfold append. mrew (getLatest_Ok _ _ _ Hpc). rewrite Hroot.
    unfold BlockNode.append. cbn [forEach]. unfold BlockNode.append1.
    mrew (getWritable_Ok _ _ _ Hpc).
    unfold detachFromParent.
    assert (Hkc1 : nodeMap (markDirty p wc) !! kf = Some leaf) by exact Hkc.
    mrew (getWritable_Ok _ _ _ Hkc1). cbn [__parent leaf]. mstep.
    set (wd := markDirty kf (markDirty p wc)).
    assert (Hpd : nodeMap wd !! p = Some pn) by exact Hpc.
    mrew (getWritable_Ok _ _ _ Hpd). mstep.
    set (we := setNodeMap _ _).
    assert (Hke : nodeMap we !! kf = Some leaf).
    { unfold we. cbn. rewrite Hk. now rewrite lookup_insert_ne. }
    mrew (getWritable_Ok _ _ _ Hke). mstep. mstep. mstep. mstep. mstep.
    cbn [pointOf selection setSelection setNodeMap markDirty wc we wd].
    rewrite Hf. cbn [type key offset].
    set (wf := setNodeMap _ _).
    assert (Hpf : nodeMap wf !! p = Some (withChildren (__children pn ++ [kf]) pn)).
    { unfold wf. cbn. rewrite lookup_insert_ne by congruence.
      rewrite Hk. apply lookup_insert_eq. }
    mrew (getLatest_Ok _ _ _ Hpf). mstep.
    rewrite bool_decide_eq_true_2 by reflexivity. cbn [when].
    rewrite Z.eqb_refl. unfold Point_set. mstep. reflexivity.
  - cbn. rewrite Hk. split; [|reflexivity].
    rewrite (insert_insert_ne _ p kf) by congruence.
    now rewrite insert_insert_eq.
Qed.

Lemma insertText_after_transfer fuel t w w1 :
  isCollapsedSel (selection w) = true ->
  type (anchor (selection w)) = block ->
  transferStartingBlockPointToTextPoint TheAnchor TheFocus w = Ok tt w1 ->
  isCollapsedSel (selection w1) = true ->
  type (anchor (selection w1)) = text ->
  insertText (S fuel) t w = insertText (S fuel) t w1.
Proof.
  intros Hc Hb Htr Hc1 Ht1. cbn [insertText].
  mstep. mstep. mstep. rewrite Hc. mstep. cbn [pointOf]. rewrite Hb.
  rewrite bool_decide_eq_true_2 by reflexivity. cbn [andb].
  mrew Htr. symmetry.
  mstep. mstep. mstep. rewrite Hc1. mstep. cbn [pointOf]. rewrite Ht1.
  rewrite (bool_decide_eq_false_2 (text = block)) by discriminate.
  cbn [andb negb]. mstep. reflexivity.
Qed.

Lemma transfer_on_root w p pn o :
  anchor (selection w) = mkPoint p o block ->
  nodeMap w !! p = Some pn -> isRootNode pn = true ->
  nthZ (__children pn) o = None ->
  nodeMap w !! nextKey w = None ->
  transferStartingBlockPointToTextPoint TheAnchor TheFocus w
  = Throw "rootNode.append: Only element nodes can be appended to the root node".
Proof.
  intros Ha Hp Hroot Hnone Hfresh.
  set (kf := nextKey w) in *.
  assert (Hne : kf <> p) by (intros E; rewrite E in Hfresh; congruence).
  unfold transferStartingBlockPointToTextPoint.
  mstep. cbn [pointOf]. rewrite Ha. cbn [key offset].
  mstep. unfold getChildAtIndex. mstep. mstep. rewrite Hnone.
  mrew (createTextNode_Ok w ""). fold kf.
  set (leaf := mkNode TextType kf None noFlags [] "" 0 "").
  set (wc := markDirty kf _).
  assert (Hpc : nodeMap wc !! p = Some pn).
  { unfold wc. cbn. now rewrite lookup_insert_ne. }
  assert (Hkc : nodeMap wc !! kf = Some leaf).
  { unfold wc. cbn. apply lookup_insert_eq. }
  unfold append. mrew (getLatest_Ok _ _ _ Hpc). rewrite Hroot.
  unfold RootNode.append. cbn [forEach].
  mnorm. apply bind_Throw.
  now rewrite (appendGuard_cases _ _ _ Hkc).
Qed.

(** X30.  [insertText] of a text that is not empty with the caret as a
    block point past the children of a container (an empty paragraph, or
    the end of one), when the next node key is unused: in a container other
    than the root a new text node with the text and the pending format
    becomes the last child of the container and holds the caret behind the
    text, and nothing else changes; on the root the call raises "rootNode.append:
    Only element nodes can be appended to the root node". *)
Theorem insertText_into_block_creates_text_node
    (fuel : nat) (t : string) (w : World) (p : NodeKey) (pn : Node) (o : Z)
    (Hanchor : anchor (selection w) = mkPoint p o block)
    (Hfocus : focus (selection w) = mkPoint p o block)
    (Hnode : nodeMap w !! p = Some pn) (Hkey : __key pn = p)
    (Hpast : nthZ (__children pn) o = None)
    (Hfresh : nodeMap w !! nextKey w = None)
    (Hsome : t <> "") :
  let created :=
    mkNode TextType (nextKey w) (Some p) noFlags [] t
           (textFormat (selection w)) "" in
  (isRootNode pn = false ->
   exists w',
     insertText (S fuel) t w = Ok tt w'
     /\ nodeMap w'
        = <[nextKey w := created]>
            (<[p := withChildren (__children pn ++ [nextKey w]) pn]> (nodeMap w))
     /\ selection w'
        = mkSelection (mkPoint (nextKey w) (strlen t) text)
                      (mkPoint (nextKey w) (strlen t) text)
                      (textFormat (selection w)))
  /\ (isRootNode pn = true ->
      insertText (S fuel) t w
      = Throw "rootNode.append: Only element nodes can be appended to the root node").
Proof.
  intros created.
  assert (Hc : isCollapsedSel (selection w) = true).
  { unfold isCollapsedSel, Point_is. rewrite Hanchor, Hfocus.
    now apply bool_decide_eq_true_2. }
  split; intros Hroot.
  - destruct (transfer_appends w p pn o Hanchor Hfocus Hnode Hkey Hroot Hpast
                Hfresh) as (w1 & Htr & Hm1 & Hs1).
    rewrite (insertText_after_transfer fuel t w w1 Hc); try assumption.
    + set (leaf := mkNode TextType (nextKey w) (Some p) noFlags [] "" 0 "").
      destruct (insertText_empty_leaf fuel t w1 (nextKey w) leaf)
        as (w2 & Hm2 & Hs2 & Hrun); try reflexivity.
      * now rewrite Hs1.
      * now rewrite Hs1.
      * rewrite Hm1. apply lookup_insert_eq.
      * now repeat split.
      * exact Hsome.
      * eexists. split; [exact Hrun|].
        unfold splicedWorld.
        cbn [nodeMap selection setNodeMap markDirty setSelection].
        rewrite Hm2, Hs2, Hm1, Hs1, splice_at_start, append_empty_r.
        rewrite !insert_insert_eq. split; reflexivity.
    + now rewrite Hanchor.
    + rewrite Hs1. unfold isCollapsedSel, Point_is.
      now apply bool_decide_eq_true_2.
    + now rewrite Hs1.
  - cbn [insertText].
    mstep. mstep. mstep. rewrite Hc. mstep. cbn [pointOf]. rewrite Hanchor.
    cbn [type]. rewrite bool_decide_eq_true_2 by reflexivity. cbn [andb].
    mnorm. apply bind_Throw.
    now apply (transfer_on_root w p pn o).
Qed.

Lemma insertText_into_block_witness :
  exists w',
    insertText 1 "x" emptyParagraph = Ok tt w'
    /\ nodeMap w' !! "7" = Some (mkNode TextType "7" (Some "p") noFlags [] "x" 1 "")
    /\ nodeMap w' !! "p" = Some (paragraphOf "p" ["7"])
    /\ selection w' = mkSelection (mkPoint "7" 1 text) (mkPoint "7" 1 text) 1.
Proof.
  destruct (insertText_into_block_creates_text_node 0 "x" emptyParagraph "p"
              (paragraphOf "p" []) 0)
    as [Hblock _]; try reflexivity.
  - discriminate.
  - destruct (Hblock eq_refl) as (w' & H & Hm & Hs).
    exists w'. split; [exact H|]. rewrite Hm. repeat split. exact Hs.
Defined.

(** ** Moving the caret, deleting words, lines and characters *)

Lemma splice_nothing s o :
  0 <= o -> o <= strlen s -> splicedText o 0 "" s = s.
Proof.
  intros H0 H1. unfold splicedText, sliceStr, sliceFrom, strlen in *.
  rewrite append_empty_l, Z.sub_0_r, Z.add_0_r.
  change (Z.to_nat 0) with 0%nat. rewrite substring_split.
  replace (Z.to_nat o + (String.length s - Z.to_nat o))%nat
    with (String.length s) by lia.
  apply substring_0_all.
Qed.

Section SurfaceCommandsProperties.

Context (nativeModify :
         bool -> bool -> Granularity -> World -> option (Point * Point * bool)).
Context (getPossibleDecoratorNode : Point -> bool -> M (option NodeKey)).

Local Abbreviation updateCaretSelectionForRange2 :=
(updateCaretSelectionForRange nativeModify getPossibleDecoratorNode).

(** Without a decorator next to the focus, the selection becomes the range
  of the surface, in the direction of the surface. *)
Lemma updateCaretSelectionForRange_surface w isBackward g collapse :
getPossibleDecoratorNode (focus (selection w)) isBackward w = Ok None w ->
updateCaretSelectionForRange2 isBackward g collapse w
= Ok tt
    match nativeModify collapse isBackward g w with
    | None => w
    | Some (rangeStart, rangeEnd, anchorIsStart) =>
        setSelection
          (if negb collapse && negb anchorIsStart
           then mkSelection rangeEnd rangeStart (textFormat (selection w))
           else mkSelection rangeStart rangeEnd (textFormat (selection w))) w
    end.
Proof.
intros Hd. unfold updateCaretSelectionForRange.
mstep. cbn [pointOf]. mrew Hd. cbn [optNodeIs]. mstep. mstep.
unfold bind at 1, gets.
destruct (nativeModify collapse isBackward g w) as [[[ps pe] ais]|];
  [|reflexivity].
mstep. mstep. now destruct (negb collapse && negb ais).
Qed.

Local Abbreviation deleteCommands2 :=
(deleteCommands nativeModify getPossibleDecoratorNode).

Lemma deleteCommands_unfold cmd isBackward g fuel w :
In (cmd, isBackward, g) deleteCommands2 ->
g <> character
/\ cmd fuel w
   = (let* collapsed := isCollapsed in
      when collapsed (updateCaretSelectionForRange2 isBackward g false) ;;
      removeText fuel) w.
Proof.
intros [E | [E | [E | [E | []]]]]; injection E as <- <- <-;
  (split; [discriminate | reflexivity]).
Qed.

(** X19.  [deleteLineBackward], [deleteLineForward], [deleteWordBackward]
  and [deleteWordForward] on a collapsed selection, with no decorator next
  to the focus: when the surface extends the caret to a range within one
  plain text leaf that is not composing, the command removes that range
  from the text of the leaf, whichever end the surface calls the anchor,
  changes no other node, and leaves the caret at the start of the range.
  The leaf must not end up empty. *)
Theorem delete_command_removes_surface_range
  (cmd : nat -> M unit) (isBackward : bool) (g : Granularity)
  (fuel : nat) (w : World) (k : NodeKey) (n : Node) (s e : Z)
  (anchorIsStart : bool)
  (Hcmd : In (cmd, isBackward, g) deleteCommands2)
  (Hcollapsed : isCollapsedSel (selection w) = true)
  (Hdecorator : getPossibleDecoratorNode (focus (selection w)) isBackward w
                = Ok None w)
  (Hsurface : nativeModify false isBackward g w
              = Some (mkPoint k s text, mkPoint k e text, anchorIsStart))
  (Hrange : s < e)
  (Hnode : nodeMap w !! k = Some n) (Hkey : __key n = k)
  (Hplain : plainText n) (Hcomposing : isComposing n = false)
  (Hleft : splicedText s (e - s) "" (__text n) <> "") :
exists w',
  cmd (S fuel) w = Ok tt w'
  /\ nodeMap w'
     = <[k := withText (splicedText s (e - s) "" (__text n)) n]> (nodeMap w)
  /\ selection w'
     = mkSelection (mkPoint k s text) (mkPoint k s text)
                   (textFormat (selection w)).
Proof.
destruct (deleteCommands_unfold cmd isBackward g (S fuel) w Hcmd) as [_ ->].
pose (w1 := setSelection
              (if anchorIsStart
               then mkSelection (mkPoint k s text) (mkPoint k e text)
                      (textFormat (selection w))
               else mkSelection (mkPoint k e text) (mkPoint k s text)
                      (textFormat (selection w))) w).
assert (Hrun : (let* collapsed := isCollapsed in
                when collapsed (updateCaretSelectionForRange2 isBackward g false) ;;
                removeText (S fuel)) w
               = insertText (S fuel) "" w1).
{ mstep. rewrite Hcollapsed. cbn [when].
  mrew (updateCaretSelectionForRange_surface w isBackward g false Hdecorator).
  rewrite Hsurface. cbn [negb andb]. unfold w1. now destruct anchorIsStart. }
rewrite Hrun. clear Hrun.
assert (H1 : exists a f,
           anchor (selection w1) = mkPoint k a text
           /\ focus (selection w1) = mkPoint k f text
           /\ Z.min a f = s /\ Z.max a f = e).
{ unfold w1. destruct anchorIsStart; cbn.
  - exists s, e. repeat split; lia.
  - exists e, s. repeat split; lia. }
destruct H1 as (a & f & Ha & Hf & Hmin & Hmax).
assert (Hfmt : textFormat (selection w1) = textFormat (selection w))
  by (unfold w1; now destruct anchorIsStart).
rewrite (insertText_leaf fuel w1 k n a f "" Ha Hf); try assumption.
- rewrite Hmin, Hmax. eexists. split; [reflexivity|].
  cbn [splicedWorld nodeMap selection setNodeMap markDirty setSelection].
  change (strlen "") with 0. rewrite Z.add_0_r, Hfmt.
  split; [|reflexivity]. unfold w1. now destruct anchorIsStart.
- left. lia.
- now rewrite Hmin, Hmax.
Qed.

(** X20.  When the surface has no range and no decorator is next to the
  focus, [moveCaretSelection] changes nothing; and each of the four
  delete commands, with the caret inside a plain text leaf that is not
  empty and has the pending format, keeps the node map and the selection
  as they are. *)
Theorem no_surface_range_changes_nothing
  (w : World)
  (Hdecorator : forall isBackward,
      getPossibleDecoratorNode (focus (selection w)) isBackward w = Ok None w)
  (Hsurface : forall collapse isBackward g,
      nativeModify collapse isBackward g w = None) :
(forall isHoldingShift isBackward g,
    moveCaretSelection nativeModify getPossibleDecoratorNode
      isHoldingShift isBackward g w = Ok tt w)
/\ (forall cmd isBackward g fuel k n o,
    In (cmd, isBackward, g) deleteCommands2 ->
    anchor (selection w) = mkPoint k o text ->
    focus (selection w) = mkPoint k o text ->
    nodeMap w !! k = Some n -> __key n = k ->
    plainText n -> isComposing n = false ->
    __format n = textFormat (selection w) ->
    0 <= o <= strlen (__text n) -> __text n <> "" ->
    exists w',
      cmd (S fuel) w = Ok tt w'
      /\ nodeMap w' = nodeMap w /\ selection w' = selection w).
Proof.
split.
- intros shift back g. unfold moveCaretSelection.
  rewrite (updateCaretSelectionForRange_surface w back g _ (Hdecorator back)).
  now rewrite Hsurface.
- intros cmd back g fuel k n o Hcmd Ha Hf Hn Hk Hplain Hcomp Hfmt Ho Htext.
  destruct (deleteCommands_unfold cmd back g (S fuel) w Hcmd) as [_ ->].
  assert (Hc : isCollapsedSel (selection w) = true).
  { unfold isCollapsedSel, Point_is. rewrite Ha, Hf.
    now apply bool_decide_eq_true_2. }
  assert (Hrun : (let* collapsed := isCollapsed in
                  when collapsed (updateCaretSelectionForRange2 back g false) ;;
                  removeText (S fuel)) w
                 = insertText (S fuel) "" w).
  { mstep. rewrite Hc. cbn [when].
    mrew (updateCaretSelectionForRange_surface w back g false (Hdecorator back)).
    now rewrite Hsurface. }
  rewrite Hrun. clear Hrun.
  assert (Hsame : splicedText (Z.min o o) (Z.max o o - Z.min o o) "" (__text n)
                  = __text n).
  { rewrite Z.min_id, Z.max_id, Z.sub_diag. apply splice_nothing; lia. }
  rewrite (insertText_leaf fuel w k n o o "" Ha Hf); try assumption.
  + eexists. split; [reflexivity|].
    cbn [splicedWorld nodeMap selection setNodeMap markDirty setSelection].
    rewrite Hsame, withText_same. split; [now apply insert_id|].
    rewrite Z.min_id. change (strlen "") with 0. rewrite Z.add_0_r.
    destruct (selection w); cbn in *. now subst.
  + now right.
  + now rewrite Hsame.
Qed.

(** X21.  When a decorator node is next to the focus and its sibling in
  the direction of the move is not a text node, [moveCaretSelection] does
  not ask the surface: the focus becomes the block point of the decorator
  in its parent (the parent, the index of the decorator), the anchor
  follows unless shift is held, and nothing else changes. *)
Theorem moveCaretSelection_steps_over_decorator
  (isHoldingShift isBackward : bool) (g : Granularity) (w : World)
  (decorator pk : NodeKey) (dn p : Node) (sibling : option NodeKey)
  (Hdecorator : getPossibleDecoratorNode (focus (selection w)) isBackward w
                = Ok (Some decorator) w)
  (Hnode : nodeMap w !! decorator = Some dn)
  (His : isDecoratorNode dn = true)
  (Hparent : __parent dn = Some pk)
  (Hp : nodeMap w !! pk = Some p)
  (Hsibling : (if isBackward then getPreviousSibling decorator
               else getNextSibling decorator) w = Ok sibling w)
  (Hnotext : optNodeIs isTextNode sibling w = Ok false w) :
let blockPoint := mkPoint pk (indexOf decorator (__children p)) block in
moveCaretSelection nativeModify getPossibleDecoratorNode
  isHoldingShift isBackward g w
= Ok tt (setSelection
           (mkSelection
              (if isHoldingShift then anchor (selection w) else blockPoint)
              blockPoint (textFormat (selection w))) w).
Proof.
intros blockPoint. unfold moveCaretSelection, updateCaretSelectionForRange.
mstep. cbn [pointOf]. mrew Hdecorator. cbn [optNodeIs].
mrew (nodeIs_Ok isDecoratorNode _ _ _ Hnode). rewrite His.
mrew Hsibling. mrew Hnotext. cbn [negb].
unfold getParentOrThrow. mstep. rewrite Hparent. mstep.
unfold getIndexWithinParent. mstep. rewrite Hparent. mstep. mstep.
unfold Point_set. mstep.
destruct isHoldingShift; cbn [negb when].
- mstep. mstep. reflexivity.
- mstep. mstep. reflexivity.
Qed.

End SurfaceCommandsProperties.

Lemma no_surface_range_witness :
  moveCaretSelection noSurfaceRange noDecorator false true character scenario2
  = Ok tt scenario2
  /\ exists w',
      deleteLineForward noSurfaceRange noDecorator 1 scenario2 = Ok tt w'
      /\ nodeMap w' = nodeMap scenario2 /\ selection w' = selection scenario2.
Proof.
  destruct (no_surface_range_changes_nothing noSurfaceRange noDecorator scenario2)
    as [Hmove Hdelete]; try reflexivity.
  split; [apply Hmove|].
  apply (Hdelete _ false lineboundary 0%nat "t" (leafOf "t" "p" noFlags "ab") 1);
    try reflexivity.
  - right. left. reflexivity.
  - apply plainText_plain_leaf.
  - vm_compute. split; discriminate.
  - discriminate.
Defined.

Lemma delete_command_witness :
  exists w',
    deleteWordBackward firstCharacterSurface noDecorator 1 scenario2 = Ok tt w'
    /\ nodeMap w' !! "t" = Some (leafOf "t" "p" noFlags "b")
    /\ selection w' = caretAt "t" 0.
Proof.
  destruct (delete_command_removes_surface_range firstCharacterSurface noDecorator
              (deleteWordBackward firstCharacterSurface noDecorator) true word
              0 scenario2 "t" (leafOf "t" "p" noFlags "ab") 0 1 false)
    as (w' & H & Hm & Hs); try reflexivity.
  - right. right. left. reflexivity.
  - apply plainText_plain_leaf.
  - discriminate.
  - exists w'. split; [exact H|]. split; [|exact Hs].
    rewrite Hm. now rewrite lookup_insert_eq.
Defined.

(** In a plain text node that is not a hashtag, with no hashtag before it
    when the caret is at its start, the merge of hashtags does nothing. *)
Lemma updateCaretSelectionForAdjacentHashtags_plain w k n o :
  anchor (selection w) = mkPoint k o text ->
  nodeMap w !! k = Some n -> isTextNode n = true ->
  isHashtagNode n = false ->
  (o = 0 -> noHashtagBefore w k n) ->
  updateCaretSelectionForAdjacentHashtags w = Ok tt w.
Proof.
  intros Ha Hn Ht Hh Hprev. unfold updateCaretSelectionForAdjacentHashtags.
  mstep. cbn [pointOf]. rewrite Ha. cbn [type key offset].
  rewrite bool_decide_eq_true_2 by reflexivity. cbn [negb].
  mstep. mrew (getTextContent_text _ _ _ Hn Ht).
  destruct ((o =? 0) && isSimpleText n) eqn:E.
  - apply andb_prop in E as [E _]. apply Z.eqb_eq in E.
    destruct (Hprev E) as (pk & p & Hp & Hpk & Hne & Hsib).
    unfold getPreviousSibling. mstep. rewrite Hp. mstep.
    destruct (nthZ (__children p) (indexOf k (__children p) - 1)) as [sib|].
    + destruct Hsib as (sn & Hsn & Hsh). mstep. cbn [optNodeIs].
      mrew (nodeIs_Ok isTextNode _ _ _ Hsn).
      mrew (nodeIs_Ok isHashtagNode _ _ _ Hsn). rewrite Hsh.
      now rewrite andb_false_r.
    + mstep. mstep. mstep. reflexivity.
  - mrew (getTextContentSize_text _ _ _ Hn Ht). now rewrite Hh.
Qed.

Section CharacterProperties.

Context (nativeModify :
         bool -> bool -> Granularity -> World -> option (Point * Point * bool)).
Context (getPossibleDecoratorNode : Point -> bool -> M (option NodeKey)).
Context (doesContainGrapheme : string -> bool).
Context (collapseAtStart : NodeKey -> M bool).

Local Abbreviation deleteCharacter3 :=
(deleteCharacter nativeModify getPossibleDecoratorNode doesContainGrapheme
   collapseAtStart).

Lemma updateCaretSelectionForUnicodeCharacter_same_node w isBackward k n a f :
anchor (selection w) = mkPoint k a text ->
focus (selection w) = mkPoint k f text ->
nodeMap w !! k = Some n -> isTextNode n = true ->
updateCaretSelectionForUnicodeCharacter doesContainGrapheme isBackward w
= Ok tt
    (if (Z.min a f =? Z.max a f - 1)
        || doesContainGrapheme (sliceStr (Z.min a f) (Z.max a f) (__text n))
     then w
     else setSelection
            (if isBackward
             then setFocus (mkPoint k (Z.max a f - 1) text) (selection w)
             else setAnchor (mkPoint k (Z.max a f - 1) text) (selection w)) w).
Proof.
intros Ha Hf Hn Ht. unfold updateCaretSelectionForUnicodeCharacter.
mstep. mstep. cbn [pointOf]. rewrite Ha, Hf. cbn [key type offset].
mstep. mstep.
rewrite !bool_decide_eq_true_2 by reflexivity. cbn [andb].
replace (if a <? f then a else f) with (Z.min a f)
  by (destruct (Z.ltb_spec a f); lia).
replace (if a <? f then f else a) with (Z.max a f)
  by (destruct (Z.ltb_spec a f); lia).
destruct (Z.min a f =? Z.max a f - 1); [reflexivity|]. cbn [negb orb].
mrew (getTextContent_text _ _ _ Hn Ht).
destruct (doesContainGrapheme _); [reflexivity|]. cbn [negb].
unfold putPoint, modify, setOffset. cbn [withPoint key type].
now destruct isBackward.
Qed.

(** X22.  [updateCaretSelectionForUnicodeCharacter] on a range inside one
  text node that was extended in the direction of the deletion: a range
  of one code unit, or one whose text holds a grapheme, is kept as it is;
  any other range is cut down to its last code unit (backward the focus,
  forward the anchor, moves to the end offset minus one).  No node
  changes. *)
Theorem updateCaretSelectionForUnicodeCharacter_keeps_last_unit
  (isBackward : bool) (w : World) (k : NodeKey) (n : Node) (a f : Z)
  (Hanchor : anchor (selection w) = mkPoint k a text)
  (Hfocus : focus (selection w) = mkPoint k f text)
  (Hnode : nodeMap w !! k = Some n) (Htext : isTextNode n = true)
  (Hdirection : if isBackward then f < a else a < f) :
let s := Z.min a f in
let e := Z.max a f in
exists w',
  updateCaretSelectionForUnicodeCharacter doesContainGrapheme isBackward w
  = Ok tt w'
  /\ nodeMap w' = nodeMap w
  /\ (e - s = 1 \/ doesContainGrapheme (sliceStr s e (__text n)) = true ->
      w' = w)
  /\ (e - s <> 1 -> doesContainGrapheme (sliceStr s e (__text n)) = false ->
      anchor (selection w')
      = mkPoint k (if isBackward then e else e - 1) text
      /\ focus (selection w')
         = mkPoint k (if isBackward then e - 1 else e) text).
Proof.
intros s e.
rewrite (updateCaretSelectionForUnicodeCharacter_same_node w isBackward k n a f)
  by assumption.
fold s e. eexists. split; [reflexivity|]. split; [|split].
- now destruct (_ || _).
- intros [H1 | Hg].
  + replace (s =? e - 1) with true by (symmetry; apply Z.eqb_eq; lia).
    reflexivity.
  + rewrite Hg. now rewrite orb_true_r.
- intros H1 Hg. rewrite Hg.
  replace (s =? e - 1) with false by (symmetry; apply Z.eqb_neq; lia).
  cbn [orb]. unfold s, e in *.
  destruct isBackward; cbn; rewrite ?Hanchor, ?Hfocus; split; f_equal; lia.
Qed.

Local Abbreviation updateCaretSelectionForRange3 :=
(updateCaretSelectionForRange nativeModify getPossibleDecoratorNode).

(** X23.  A backward [deleteCharacter] on a collapsed selection that stays
  collapsed at offset [0] after the surface was asked hands over to the
  block of the anchor (the anchor node itself for a block point, its
  parent for a text point): when [collapseAtStart] of that block answers
  true, nothing is removed, the state is the one [collapseAtStart]
  left. *)
Theorem deleteCharacter_stops_when_block_collapses
  (fuel : nat) (w w1 w2 : World) (n : Node) (blockKey : NodeKey)
  (Hcollapsed : isCollapsedSel (selection w) = true)
  (Hrange : updateCaretSelectionForRange3 true character false w = Ok tt w1)
  (Hstill : isCollapsedSel (selection w1) = true)
  (Hstart : offset (anchor (selection w1)) = 0)
  (Hnode : nodeMap w1 !! key (anchor (selection w1)) = Some n)
  (Hblock : match type (anchor (selection w1)) with
            | block => blockKey = key (anchor (selection w1))
            | text => __parent n = Some blockKey
            end)
  (Hcollapses : collapseAtStart blockKey w1 = Ok true w2) :
deleteCharacter3 fuel true w = Ok tt w2.
Proof.
unfold deleteCharacter.
mstep. rewrite Hcollapsed. mrew Hrange.
mstep. mstep. mstep. rewrite Hstill. cbn [negb pointOf andb].
rewrite Hstart. cbn [Z.eqb]. mstep.
destruct (type (anchor (selection w1))) eqn:Et.
- unfold getParentOrThrow. mstep. rewrite Hblock. mstep.
  mrew Hcollapses. reflexivity.
- mstep. rewrite <- Hblock. mrew Hcollapses. reflexivity.
Qed.

(** X24.  [deleteCharacter] in either direction, on a collapsed selection
  with no decorator next to the focus: when the surface extends the caret
  over one code unit, or over a text that holds a grapheme, inside a plain
  text leaf that is neither composing nor a hashtag (and has no hashtag
  before it when the range starts at offset 0), that range is removed from
  the text of the leaf, no other node changes, and the caret is at the
  start of the range.  The leaf must not end up empty. *)
Theorem deleteCharacter_removes_one_character
  (fuel : nat) (isBackward : bool) (w : World) (k : NodeKey) (n : Node)
  (s e : Z) (anchorIsStart : bool)
  (Hcollapsed : isCollapsedSel (selection w) = true)
  (Hdecorator : getPossibleDecoratorNode (focus (selection w)) isBackward w
                = Ok None w)
  (Hsurface : nativeModify false isBackward character w
              = Some (mkPoint k s text, mkPoint k e text, anchorIsStart))
  (Hrange : s < e)
  (Hcharacter : e - s = 1
                \/ doesContainGrapheme (sliceStr s e (__text n)) = true)
  (Hnode : nodeMap w !! k = Some n) (Hkey : __key n = k)
  (Hplain : plainText n) (Hcomposing : isComposing n = false)
  (Hnohashtag : isHashtagNode n = false)
  (Hprevious : s = 0 -> noHashtagBefore w k n)
  (Hleft : splicedText s (e - s) "" (__text n) <> "") :
exists w',
  deleteCharacter3 (S fuel) isBackward w = Ok tt w'
  /\ nodeMap w'
     = <[k := withText (splicedText s (e - s) "" (__text n)) n]> (nodeMap w)
  /\ selection w'
     = mkSelection (mkPoint k s text) (mkPoint k s text)
                   (textFormat (selection w)).
Proof.
pose (w1 := setSelection
              (if anchorIsStart
               then mkSelection (mkPoint k s text) (mkPoint k e text)
                      (textFormat (selection w))
               else mkSelection (mkPoint k e text) (mkPoint k s text)
                      (textFormat (selection w))) w).
assert (H1 : exists a f,
           anchor (selection w1) = mkPoint k a text
           /\ focus (selection w1) = mkPoint k f text
           /\ Z.min a f = s /\ Z.max a f = e).
{ unfold w1. destruct anchorIsStart; cbn.
  - exists s, e. repeat split; lia.
  - exists e, s. repeat split; lia. }
destruct H1 as (a & f & Ha & Hf & Hmin & Hmax).
assert (Hfmt : textFormat (selection w1) = textFormat (selection w))
  by (unfold w1; now destruct anchorIsStart).
assert (Hn1 : nodeMap w1 !! k = Some n) by exact Hnode.
destruct Hplain as (Ht & Hseg & Hrest).
pose (w2 := splicedWorld w1 k n s (e - s) "").
assert (Hrun : deleteCharacter3 (S fuel) isBackward w
               = updateCaretSelectionForAdjacentHashtags w2).
{ unfold deleteCharacter.
  mstep. rewrite Hcollapsed.
  mrew (updateCaretSelectionForRange_surface nativeModify
          getPossibleDecoratorNode w isBackward character false Hdecorator).
  rewrite Hsurface. cbn [negb andb].
  replace (setSelection _ w) with w1 by (unfold w1; now destruct anchorIsStart).
  mstep. mstep. mstep.
  replace (isCollapsedSel (selection w1)) with false.
  2: { symmetry. unfold isCollapsedSel, Point_is. rewrite Ha, Hf.
       apply bool_decide_eq_false_2. intros E. injection E as E. lia. }
  cbn [negb pointOf]. rewrite Ha, Hf.
  mrew (textNodeOf_text w1 (mkPoint k f text) n eq_refl Hn1).
  mrew (textNodeOf_text w1 (mkPoint k a text) n eq_refl Hn1).
  cbn [key optNodeIs]. mrew (nodeIs_Ok isSegmented _ _ _ Hn1).
  mrew (nodeIs_Ok isSegmented _ _ _ Hn1). rewrite Hseg. mstep.
  mrew (updateCaretSelectionForUnicodeCharacter_same_node w1 isBackward k n a f
          Ha Hf Hn1 Ht).
  rewrite Hmin, Hmax.
  replace ((s =? e - 1) || doesContainGrapheme (sliceStr s e (__text n)))
    with true.
  2: { symmetry. destruct Hcharacter as [H1 | ->]; [|apply orb_true_r].
       replace (s =? e - 1) with true by (symmetry; apply Z.eqb_eq; lia).
       reflexivity. }
  mstep. unfold removeText.
  rewrite (bind_Ok _ _ _ tt w2); [reflexivity|].
  rewrite (insertText_leaf fuel w1 k n a f "" Ha Hf Hn1 Hkey);
    rewrite ?Hmin, ?Hmax; try assumption; try reflexivity.
  - now repeat split.
  - left. lia. }
rewrite Hrun.
rewrite (updateCaretSelectionForAdjacentHashtags_plain w2 k
           (withText (splicedText s (e - s) "" (__text n)) n) s).
- eexists. split; [reflexivity|].
  cbn [w2 splicedWorld nodeMap selection setNodeMap markDirty setSelection].
  change (strlen "") with 0. rewrite Z.add_0_r, Hfmt.
  split; [|reflexivity]. unfold w1. now destruct anchorIsStart.
- cbn. change (strlen "") with 0. now rewrite Z.add_0_r.
- cbn. apply lookup_insert_eq.
- exact Ht.
- exact Hnohashtag.
- intros Hs. destruct (Hprevious Hs) as (pk & p & Hp & Hpk & Hne & Hsib).
  exists pk, p. split; [exact Hp|]. split.
  + cbn. rewrite lookup_insert_ne by congruence. exact Hpk.
  + split; [exact Hne|].
    destruct (nthZ (__children p) (indexOf k (__children p) - 1)) as [sib|];
      [|exact I].
    destruct Hsib as (sn & Hsn & Hsh).
    destruct (decide (sib = k)) as [->|Hk].
    * eexists. split; [cbn; apply lookup_insert_eq|]. exact Hnohashtag.
    * exists sn. split; [|exact Hsh]. cbn.
      rewrite lookup_insert_ne by congruence. exact Hsn.
Qed.

End CharacterProperties.

Lemma moveCaretSelection_decorator_witness :
  moveCaretSelection noSurfaceRange decoratorAhead true false character
    leafThenDecorator
  = Ok tt (setSelection
             (mkSelection (mkPoint "t" 2 text) (mkPoint "p" 1 block) 0)
             leafThenDecorator).
Proof.
  apply (moveCaretSelection_steps_over_decorator noSurfaceRange decoratorAhead
           true false character leafThenDecorator "d" "p"
           (mkNode DecoratorType "d" (Some "p") noFlags [] "" 0 "")
           (paragraphOf "p" ["t"; "d"]) None); reflexivity.
Defined.

Lemma updateCaretSelectionForUnicodeCharacter_witness :
  exists w',
    updateCaretSelectionForUnicodeCharacter noGrapheme false wholeLeaf = Ok tt w'
    /\ anchor (selection w') = mkPoint "t" 1 text
    /\ focus (selection w') = mkPoint "t" 2 text.
Proof.
  destruct (updateCaretSelectionForUnicodeCharacter_keeps_last_unit noGrapheme
              false wholeLeaf "t" (leafOf "t" "p" noFlags "ab") 0 2)
    as (w' & H & _ & _ & Hshrunk); try reflexivity.
  exists w'. split; [exact H|]. apply Hshrunk; [discriminate | reflexivity].
Defined.

Lemma deleteCharacter_stops_witness :
  deleteCharacter noSurfaceRange noDecorator noGrapheme blockCollapses 1 true
    caretAtStart
  = Ok tt caretAtStart.
Proof.
  apply (deleteCharacter_stops_when_block_collapses noSurfaceRange noDecorator
           noGrapheme blockCollapses 1 caretAtStart caretAtStart caretAtStart
           (leafOf "t" "p" noFlags "ab") "p"); reflexivity.
Defined.

Lemma deleteCharacter_removes_one_character_witness :
  exists w',
    deleteCharacter firstCharacterSurface noDecorator noGrapheme blockCollapses
      1 true scenario2 = Ok tt w'
    /\ nodeMap w' !! "t" = Some (leafOf "t" "p" noFlags "b")
    /\ selection w' = caretAt "t" 0.
Proof.
  destruct (deleteCharacter_removes_one_character firstCharacterSurface
              noDecorator noGrapheme blockCollapses 0 true scenario2 "t"
              (leafOf "t" "p" noFlags "ab") 0 1 false)
    as (w' & H & Hm & Hs); try reflexivity.
  - now left.
  - apply plainText_plain_leaf.
  - intros _. exists "p", (paragraphOf "p" ["t"]).
    repeat split; [discriminate].
  - discriminate.
  - exists w'. split; [exact H|]. split; [|exact Hs].
    rewrite Hm. now rewrite lookup_insert_eq.
Defined.

(** ** Merging text into an adjacent hashtag *)

(** The removal of a node that holds no point of the selection. *)
Lemma remove_unselected w k pk n p :
  nodeMap w !! k = Some n -> nodeMap w !! pk = Some p -> __parent n = Some pk ->
  isRootNode n = false ->
  key (anchor (selection w)) <> k -> key (focus (selection w)) <> k ->
  remove k w
  = Ok tt (setNodeMap
             (<[__key n := withParent None n]>
                (<[__key p := withChildren (removeKey k (__children p)) p]>
                   (nodeMap w)))
             (markDirty pk (markDirty k w))).
Proof.
  intros Hn Hp Hpar Hroot Ha Hf. unfold remove. mstep. rewrite Hroot.
  unfold OutlineNode.remove. mstep. rewrite Hpar. mstep. cbn [pointOf].
  rewrite (bool_decide_eq_false_2 _ Ha). cbn [when]. mstep. mstep. cbn [pointOf].
  rewrite (bool_decide_eq_false_2 _ Hf). cbn [when]. mstep.
  apply (detachFromParent_Ok w k pk n p Hn Hp Hpar).
Qed.

(** X28.  [updateCaretSelectionForAdjacentHashtags] with the anchor at the
    start of a simple text node whose previous sibling is a hashtag that
    takes text: the hashtag gets the text of the node appended, the node
    leaves its parent, no other node changes, and the selection is the
    caret at the former end of the hashtag text. *)
Theorem hashtag_absorbs_text_behind_it
    (w : World) (k sibling pk : NodeKey) (n sn p : Node)
    (Hanchor : anchor (selection w) = mkPoint k 0 text)
    (Hnode : nodeMap w !! k = Some n) (Hkey : __key n = k)
    (Hsimple : isSimpleText n = true)
    (Hparent : __parent n = Some pk)
    (Hp : nodeMap w !! pk = Some p) (Hpkey : __key p = pk)
    (Hblock : isBlockNode p = true)
    (Hprevious : nthZ (__children p) (indexOf k (__children p) - 1)
                 = Some sibling)
    (Hsibling : nodeMap w !! sibling = Some sn) (Hskey : __key sn = sibling)
    (Hhashtag : isHashtagNode sn = true)
    (Hmutable : isImmutableOrInert sn = false) :
  exists w',
    updateCaretSelectionForAdjacentHashtags w = Ok tt w'
    /\ nodeMap w'
       = <[k := withParent None n]>
           (<[pk := withChildren (removeKey k (__children p)) p]>
              (<[sibling := withText (__text sn +:+ __text n) sn]> (nodeMap w)))
    /\ selection w'
       = mkSelection (mkPoint sibling (strlen (__text sn)) text)
                     (mkPoint sibling (strlen (__text sn)) text)
                     (textFormat (selection w)).
Proof.
  assert (Htn : isTextNode n = true).
  { unfold isSimpleText in Hsimple. unfold isTextNode.
    destruct (decide (__type n = TextType)) as [-> | Hne]; [reflexivity|].
    now rewrite (bool_decide_eq_false_2 _ Hne) in Hsimple. }
  assert (Hts : isTextNode sn = true).
  { unfold isHashtagNode in Hhashtag. apply bool_decide_eq_true_1 in Hhashtag.
    unfold isTextNode. now rewrite Hhashtag. }
  assert (Hnh : isHashtagNode n = false).
  { unfold isSimpleText in Hsimple. unfold isHashtagNode.
    destruct (decide (__type n = TextType)) as [E | Hne].
    - apply bool_decide_eq_false_2. rewrite E. discriminate.
    - now rewrite (bool_decide_eq_false_2 _ Hne) in Hsimple. }
  assert (Hks : sibling <> k).
  { intros ->. rewrite Hnode in Hsibling. injection Hsibling as <-. congruence. }
  assert (Hkp : pk <> k).
  { intros ->. rewrite Hnode in Hp. injection Hp as <-.
    rewrite (isTextNode_not_block _ Htn) in Hblock. discriminate. }
  assert (Hsp : pk <> sibling).
  { intros ->. rewrite Hsibling in Hp. injection Hp as <-.
    rewrite (isTextNode_not_block _ Hts) in Hblock. discriminate. }
  unfold updateCaretSelectionForAdjacentHashtags.
  eexists. split.
  - mstep. cbn [pointOf]. rewrite Hanchor. cbn [type key offset].
    rewrite bool_decide_eq_true_2 by reflexivity. cbn [negb].
    mstep. mrew (getTextContent_text _ _ _ Hnode Htn).
    rewrite Hsimple. cbn [Z.eqb andb].
    unfold getPreviousSibling. mstep. rewrite Hparent. mstep. rewrite Hprevious.
    mstep. cbn [optNodeIs].
    mrew (nodeIs_Ok isTextNode _ _ _ Hsibling).
    mrew (nodeIs_Ok isHashtagNode _ _ _ Hsibling).
    rewrite Hts, Hhashtag. cbn [andb].
    mrew (select_text w sibling sn None None Hsibling Hts).
    cbn [default from_option id].
    set (w1 := setSelection _ w).
    mrew (getTextContent_text w1 sibling sn Hsibling Hts).
    mrew (setTextContent_Ok w1 sibling sn (__text sn +:+ __text n)
            Hsibling Hskey Hmutable).
    set (w2 := setNodeMap _ _).
    apply (remove_unselected w2 k pk n p).
    + unfold w2. cbn. now rewrite lookup_insert_ne.
    + unfold w2. cbn. now rewrite lookup_insert_ne.
    + exact Hparent.
    + now apply isTextNode_not_root.
    + cbn. exact Hks.
    + cbn. exact Hks.
  - cbn. rewrite Hkey, Hpkey. split; reflexivity.
Qed.

(** X29.  [updateCaretSelectionForAdjacentHashtags] with the anchor at the
    end of a hashtag that takes text and whose next sibling is a simple
    text node that holds no point of the selection: the hashtag gets the
    text of the sibling appended, the sibling leaves its parent, no other
    node changes, and the selection stays as it is. *)
Theorem hashtag_absorbs_text_after_it
    (w : World) (k sibling pk : NodeKey) (n sn p : Node)
    (Hanchor : anchor (selection w) = mkPoint k (strlen (__text n)) text)
    (Hfocus : key (focus (selection w)) <> sibling)
    (Hnode : nodeMap w !! k = Some n) (Hkey : __key n = k)
    (Hhashtag : isHashtagNode n = true)
    (Hmutable : isImmutableOrInert n = false)
    (Hparent : __parent n = Some pk)
    (Hp : nodeMap w !! pk = Some p) (Hpkey : __key p = pk)
    (Hblock : isBlockNode p = true)
    (Hindex : 0 <= indexOf k (__children p))
    (Hnext : nthZ (__children p) (indexOf k (__children p) + 1) = Some sibling)
    (Hsibling : nodeMap w !! sibling = Some sn) (Hskey : __key sn = sibling)
    (Hsparent : __parent sn = Some pk)
    (Hsimple : isSimpleText sn = true) :
  exists w',
    updateCaretSelectionForAdjacentHashtags w = Ok tt w'
    /\ nodeMap w'
       = <[sibling := withParent None sn]>
           (<[pk := withChildren (removeKey sibling (__children p)) p]>
              (<[k := withText (__text n +:+ __text sn) n]> (nodeMap w)))
    /\ selection w' = selection w.
Proof.
  assert (Hts : isTextNode sn = true).
  { unfold isSimpleText in Hsimple. unfold isTextNode.
    destruct (decide (__type sn = TextType)) as [-> | Hne]; [reflexivity|].
    now rewrite (bool_decide_eq_false_2 _ Hne) in Hsimple. }
  assert (Htn : isTextNode n = true).
  { unfold isHashtagNode in Hhashtag. apply bool_decide_eq_true_1 in Hhashtag.
    unfold isTextNode. now rewrite Hhashtag. }
  assert (Hns : isSimpleText n = false).
  { unfold isHashtagNode in Hhashtag. apply bool_decide_eq_true_1 in Hhashtag.
    unfold isSimpleText. rewrite Hhashtag.
    now rewrite bool_decide_eq_false_2 by discriminate. }
  assert (Hks : k <> sibling).
  { intros <-. rewrite Hnode in Hsibling. injection Hsibling as <-. congruence. }
  assert (Hkp : pk <> k).
  { intros ->. rewrite Hnode in Hp. injection Hp as <-.
    rewrite (isTextNode_not_block _ Htn) in Hblock. discriminate. }
  assert (Hsp : pk <> sibling).
  { intros ->. rewrite Hsibling in Hp. injection Hp as <-.
    rewrite (isTextNode_not_block _ Hts) in Hblock. discriminate. }
  unfold updateCaretSelectionForAdjacentHashtags.
  eexists. split.
  - mstep. cbn [pointOf]. rewrite Hanchor. cbn [type key offset].
    rewrite bool_decide_eq_true_2 by reflexivity. cbn [negb].
    mstep. mrew (getTextContent_text _ _ _ Hnode Htn).
    rewrite Hns, andb_false_r.
    mrew (getTextContentSize_text _ _ _ Hnode Htn).
    rewrite Hhashtag, Z.eqb_refl. cbn [andb].
    unfold getNextSibling. mstep. rewrite Hparent. mstep.
    replace (indexOf k (__children p) <? 0) with false
      by (symmetry; apply Z.ltb_ge; exact Hindex).
    rewrite Hnext. mstep. cbn [optNodeIs].
    mrew (nodeIs_Ok isTextNode _ _ _ Hsibling).
    mrew (nodeIs_Ok isSimpleText _ _ _ Hsibling).
    rewrite Hts, Hsimple. cbn [andb].
    mrew (getTextContent_text w sibling sn Hsibling Hts).
    mrew (setTextContent_Ok w k n (__text n +:+ __text sn) Hnode Hkey Hmutable).
    set (w2 := setNodeMap _ _).
    apply (remove_unselected w2 sibling pk sn p).
    + unfold w2. cbn. now rewrite lookup_insert_ne.
    + unfold w2. cbn. now rewrite lookup_insert_ne.
    + exact Hsparent.
    + now apply isTextNode_not_root.
    + cbn. rewrite Hanchor. exact Hks.
    + cbn. exact Hfocus.
  - cbn. rewrite Hskey, Hpkey. split; reflexivity.
Qed.

Lemma hashtag_absorbs_text_behind_it_witness :
  exists w',
    updateCaretSelectionForAdjacentHashtags afterHashtag = Ok tt w'
    /\ (__text <$> nodeMap w' !! "h") = Some "#abc"
    /\ (__children <$> nodeMap w' !! "p") = Some ["h"]
    /\ selection w' = caretAt "h" 2.
Proof.
  destruct (hashtag_absorbs_text_behind_it afterHashtag "t" "h" "p"
              (leafOf "t" "p" noFlags "bc")
              (mkNode HashtagType "h" (Some "p") noFlags [] "#a" 0 "")
              (paragraphOf "p" ["h"; "t"]))
    as (w' & H & Hm & Hs); try reflexivity.
  exists w'. split; [exact H|]. rewrite Hm. repeat split. exact Hs.
Defined.

Lemma hashtag_absorbs_text_after_it_witness :
  exists w',
    updateCaretSelectionForAdjacentHashtags atEndOfHashtag = Ok tt w'
    /\ (__text <$> nodeMap w' !! "h") = Some "#abc"
    /\ (__children <$> nodeMap w' !! "p") = Some ["h"]
    /\ selection w' = caretAt "h" 2.
Proof.
  destruct (hashtag_absorbs_text_after_it atEndOfHashtag "h" "t" "p"
              (mkNode HashtagType "h" (Some "p") noFlags [] "#a" 0 "")
              (leafOf "t" "p" noFlags "bc")
              (paragraphOf "p" ["h"; "t"]))
    as (w' & H & Hm & Hs); try reflexivity.
  - discriminate.
  - exists w'. split; [exact H|]. rewrite Hm. repeat split. exact Hs.
Defined.

(** ** Inserting text with line breaks *)

Lemma splitLinesFrom_no_line_feed s cur :
  hasLineFeed s = false -> splitLinesFrom cur s = [cur +:+ s].
Proof.
  revert cur. induction s as [|c s IH]; intros cur H.
  - cbn. now rewrite append_empty_r.
  - cbn in H. apply orb_false_elim in H as [Hc Hs].
    cbn [splitLinesFrom]. rewrite Hc.
    assert (Hgo : splitLinesFrom (cur +:+ String c "") s = [cur +:+ String c s]).
    { rewrite (IH _ Hs), append_assoc'. now rewrite append_String, append_empty_l. }
    destruct s as [|c' s']; [exact Hgo|].
    cbn in Hs. apply orb_false_elim in Hs as [Hc' _].
    rewrite Hc', andb_false_r. exact Hgo.
Qed.

Lemma splitLinesFrom_length s cur :
  (1 <= List.length (splitLinesFrom cur s))%nat.
Proof.
  remember (String.length s) as m eqn:Hm.
  revert s cur Hm. induction m as [m IH] using lt_wf_ind. intros s cur Hm.
  destruct s as [|c s]; [cbn; lia|].
  cbn [splitLinesFrom]. destruct (Ascii.eqb c "010"); [cbn; lia|].
  destruct s as [|c' s'].
  - cbn. lia.
  - destruct (Ascii.eqb c "013" && Ascii.eqb c' "010"); [cbn; lia|].
    eapply IH; [|reflexivity]. subst m. cbn. lia.
Qed.

Lemma splitLinesFrom_line_feed s cur :
  hasLineFeed s = true -> (2 <= List.length (splitLinesFrom cur s))%nat.
Proof.
  remember (String.length s) as m eqn:Hm.
  revert s cur Hm. induction m as [m IH] using lt_wf_ind. intros s cur Hm H.
  destruct s as [|c s]; [discriminate|].
  cbn [splitLinesFrom]. cbn in H.
  destruct (Ascii.eqb c "010") eqn:Hc.
  - cbn [List.length]. pose proof (splitLinesFrom_length s ""). lia.
  - cbn in H. destruct s as [|c' s']; [discriminate|].
    destruct (Ascii.eqb c "013" && Ascii.eqb c' "010").
    + cbn [List.length]. pose proof (splitLinesFrom_length s' ""). lia.
    + eapply IH; [| reflexivity | exact H]. subst m. cbn. lia.
Qed.

Section RichTextProperties.

Context (createLineBreakNode : M NodeKey).
Context (insertNodes : list NodeKey -> option bool -> M bool).

(** X25.  [insertRichText] of a text without a line feed (a carriage
  return alone does not split) is [insertText] of that text, in every
  state; a text with a line feed is never passed to [insertText]: the
  nodes of its lines are created and handed to [insertNodes]. *)
Theorem insertRichText_single_line (fuel : nat) (t : string) (w : World) :
insertRichText createLineBreakNode insertNodes fuel t w
= if hasLineFeed t then
    (let* nodes := lineNodes createLineBreakNode (splitLines t) in
     let* _inserted := insertNodes nodes None in
     ret tt) w
  else insertText fuel t w.
Proof.
unfold insertRichText, splitLines, lengthZ.
destruct (hasLineFeed t) eqn:E.
- pose proof (splitLinesFrom_line_feed t "" E) as Hlen.
  replace (_ =? 1) with false; [reflexivity|].
  symmetry. apply Z.eqb_neq. lia.
- rewrite (splitLinesFrom_no_line_feed t "" E). reflexivity.
Qed.

End RichTextProperties.

